(** * HS Code Classifier: the classification pipeline and the persistence gateway

    A shallow embedding of
      - [services/openai]   : [classifyProduct], [generateWTOLink];
      - [services/database] : [DatabaseService] (retry wrapper, list/query,
                              statistics, convenience queries);
      - [App.tsx]           : [handleClassification].

    JavaScript strings are modelled by [string]: one [ascii] per UTF-16 code
    unit, which covers the code units 0..255.  Integers (the [confidence] of
    a stored row, counts) are [Z]; the limit and the offset of a query and the
    retry delay are binary64 [float]s, as in JavaScript; a number that may be
    [NaN] or infinite is a [Number].  What the code writes to the console is
    left out. *)

From Stdlib Require Import String Ascii List Bool ZArith Lia.
From Stdlib Require Import Floats Permutation Sorted DecimalString QArith Lqa.
Import ListNotations.
Local Open Scope string_scope.
Local Open Scope Z_scope.
Set Warnings "-register-all".

(* ===================================================================== *)
(** ** JavaScript strings *)
(* ===================================================================== *)

Module JsString.

(** [hay.includes(needle)] *)
Fixpoint includes (needle hay : string) : bool :=
  if String.prefix needle hay then true
  else match hay with
       | EmptyString => false
       | String _ rest => includes needle rest
       end.

(** [s.substring(0, stop)]: the first [stop] code units, fewer when [s] is
    shorter. *)
Definition substring0 (stop : nat) (s : string) : string :=
  String.substring 0 stop s.

(** [s.split(sep)[0]] for a non-empty separator: the part of [s] before the
    first occurrence of [sep], all of [s] when there is none. *)
Fixpoint split_head (sep s : string) : string :=
  match s with
  | EmptyString => EmptyString
  | String c rest =>
      if String.prefix sep s then EmptyString
      else String c (split_head sep rest)
  end.

(** White space and line terminators of [String.prototype.trim] among the
    code units 0..255: TAB, LF, VT, FF, CR, SP and NBSP. *)
Definition is_white_space (c : ascii) : bool :=
  match nat_of_ascii c with
  | 9%nat | 10%nat | 11%nat | 12%nat | 13%nat | 32%nat | 160%nat => true
  | _ => false
  end.

Fixpoint trim_start (s : string) : string :=
  match s with
  | EmptyString => EmptyString
  | String c rest => if is_white_space c then trim_start rest else s
  end.

(** Drops trailing white space: a character is kept when something that is
    not white space follows it, or it is not white space itself. *)
Fixpoint trim_end (s : string) : string :=
  match s with
  | EmptyString => EmptyString
  | String c rest =>
      match trim_end rest with
      | EmptyString => if is_white_space c then EmptyString else String c EmptyString
      | kept => String c kept
      end
  end.

(** [s.trim()] *)
Definition trim (s : string) : string := trim_end (trim_start s).

(** [\d] of a regular expression without the [u] flag: ASCII 0-9. *)
Definition is_digit (c : ascii) : bool :=
  let n := nat_of_ascii c in (48 <=? n)%nat && (n <=? 57)%nat.

End JsString.

(* ===================================================================== *)
(** ** JavaScript values, exceptions and JSON *)
(* ===================================================================== *)

Module Js.

(** What a [throw] carries: an [Error] instance with its [message], or any
    other value. *)
Inductive Thrown : Type :=
| JsError (message : string)
| JsOther.

(** The outcome of evaluating an expression or awaiting a promise. *)
Inductive Result (A : Type) : Type :=
| Return (a : A)
| Throw (e : Thrown).
Arguments Return {A} a.
Arguments Throw {A} e.

Definition is_return {A} (r : Result A) : bool :=
  match r with Return _ => true | Throw _ => false end.

(** A number: a finite value, taken exactly, an infinity, or [NaN]. *)
Variant Number (V : Type) : Type :=
| Finite (v : V)
| Infinity (negative : bool)
| NaN.
Arguments Finite {V} v.
Arguments Infinity {V} negative.
Arguments NaN {V}.

(** [error instanceof Error ? error.message : fallback] *)
Definition message_or (fallback : string) (e : Thrown) : string :=
  match e with
  | JsError m => m
  | JsOther => fallback
  end.

(** The values [JSON.parse] produces.  A number is kept as the decimal
    [mantissa * 10 ^ exponent] its literal denotes; an object keeps its
    members in source order, a repeated key included. *)
Inductive JsValue : Type :=
| JNull
| JBool (b : bool)
| JNumber (mantissa exponent : Z)
| JString (s : string)
| JArray (elements : list JsValue)
| JObject (members : list (string * JsValue)).

(** The last member named [key]: a later member of a JSON text overrides an
    earlier one of the same name. *)
Fixpoint lookup (key : string) (members : list (string * JsValue)) : option JsValue :=
  match members with
  | [] => None
  | (k, v) :: rest =>
      match lookup key rest with
      | Some later => Some later
      | None => if String.eqb k key then Some v else None
      end
  end.

(** [value.key] for a key that no prototype defines: [None] is [undefined];
    [null.key] throws a [TypeError]. *)
Definition get_member (value : JsValue) (key : string) : Result (option JsValue) :=
  match value with
  | JNull => Throw (JsError ("Cannot read properties of null (reading '" ++ key ++ "')"))
  | JObject members => Return (lookup key members)
  | _ => Return None
  end.

(** [ToBoolean] *)
Definition truthy (v : option JsValue) : bool :=
  match v with
  | None => false
  | Some JNull => false
  | Some (JBool b) => b
  | Some (JNumber m _) => negb (m =? 0)
  | Some (JString s) => negb (String.eqb s "")
  | Some (JArray _) => true
  | Some (JObject _) => true
  end.

End Js.

(* ===================================================================== *)
(** ** A reference [JSON.parse] *)
(* ===================================================================== *)

(** The JSON grammar of ECMA-404 as [JSON.parse] reads it, for running the
    pipeline on concrete texts.  A [\u] escape above 00FF has no image in
    [string] and is refused here. *)
Module Json.
Import Js.

Definition quote : ascii := "034"%char.
Definition backslash : ascii := "092"%char.

Definition is_json_space (c : ascii) : bool :=
  match nat_of_ascii c with
  | 9%nat | 10%nat | 13%nat | 32%nat => true
  | _ => false
  end.

Fixpoint skip_ws (s : string) : string :=
  match s with
  | String c rest => if is_json_space c then skip_ws rest else s
  | EmptyString => s
  end.

Fixpoint span_digits (s : string) : string * string :=
  match s with
  | String c rest =>
      if JsString.is_digit c
      then let (digits, tail) := span_digits rest in (String c digits, tail)
      else (EmptyString, s)
  | EmptyString => (EmptyString, EmptyString)
  end.

Fixpoint digits_value (acc : Z) (digits : string) : Z :=
  match digits with
  | String c rest => digits_value (acc * 10 + (Z.of_nat (nat_of_ascii c) - 48)) rest
  | EmptyString => acc
  end.

Definition hex_value (c : ascii) : option nat :=
  let n := nat_of_ascii c in
  if ((48 <=? n) && (n <=? 57))%nat then Some (n - 48)%nat
  else if ((65 <=? n) && (n <=? 70))%nat then Some (n - 55)%nat
  else if ((97 <=? n) && (n <=? 102))%nat then Some (n - 87)%nat
  else None.

(** The characters of a string literal after its opening quote, and what
    follows the closing quote. *)
Fixpoint parse_chars (s : string) : option (string * string) :=
  match s with
  | EmptyString => None
  | String c rest =>
      if Ascii.eqb c quote then Some (EmptyString, rest)
      else if Ascii.eqb c backslash then
        match rest with
        | String e rest' =>
            let continue (c' : ascii) (tail : option (string * string)) :=
              match tail with
              | Some (chars, after) => Some (String c' chars, after)
              | None => None
              end in
            if Ascii.eqb e quote then continue quote (parse_chars rest')
            else if Ascii.eqb e backslash then continue backslash (parse_chars rest')
            else if Ascii.eqb e "/" then continue "/"%char (parse_chars rest')
            else if Ascii.eqb e "b" then continue "008"%char (parse_chars rest')
            else if Ascii.eqb e "f" then continue "012"%char (parse_chars rest')
            else if Ascii.eqb e "n" then continue "010"%char (parse_chars rest')
            else if Ascii.eqb e "r" then continue "013"%char (parse_chars rest')
            else if Ascii.eqb e "t" then continue "009"%char (parse_chars rest')
            else if Ascii.eqb e "u" then
              match rest' with
              | String h1 (String h2 (String h3 (String h4 rest''))) =>
                  match hex_value h1, hex_value h2, hex_value h3, hex_value h4 with
                  | Some 0%nat, Some 0%nat, Some d3, Some d4 =>
                      continue (ascii_of_nat (16 * d3 + d4)) (parse_chars rest'')
                  | _, _, _, _ => None
                  end
              | _ => None
              end
            else None
        | EmptyString => None
        end
      else if (nat_of_ascii c <? 32)%nat then None
      else match parse_chars rest with
           | Some (chars, after) => Some (String c chars, after)
           | None => None
           end
  end.

(** [-? int frac? exp?] *)
Definition parse_number (s : string) : option (JsValue * string) :=
  let (negative, s1) :=
    match s with
    | String "-" rest => (true, rest)
    | _ => (false, s)
    end in
  let (int_part, s2) := span_digits s1 in
  match int_part with
  | EmptyString => None
  | String "0" (String _ _) => None
  | _ =>
      let fraction :=
        match s2 with
        | String "." rest =>
            let (digits, tail) := span_digits rest in
            match digits with
            | EmptyString => None
            | _ => Some (digits, tail)
            end
        | _ => Some (EmptyString, s2)
        end in
      match fraction with
      | None => None
      | Some (frac_part, s3) =>
          let exponent :=
            let read (sign : Z) (rest : string) :=
              let (digits, tail) := span_digits rest in
              match digits with
              | EmptyString => None
              | _ => Some (sign * digits_value 0 digits, tail)
              end in
            match s3 with
            | String ("e" | "E") (String "-" rest) => read (-1) rest
            | String ("e" | "E") (String "+" rest) => read 1 rest
            | String ("e" | "E") rest => read 1 rest
            | _ => Some (0, s3)
            end in
          match exponent with
          | None => None
          | Some (exp, s4) =>
              let magnitude := digits_value (digits_value 0 int_part) frac_part in
              Some (JNumber (if negative then - magnitude else magnitude)
                            (exp - Z.of_nat (String.length frac_part)),
                    s4)
          end
      end
  end.

Definition expect (word : string) (v : JsValue) (s : string) : option (JsValue * string) :=
  if String.prefix word s
  then Some (v, String.substring (String.length word) (String.length s) s)
  else None.

(** One value with leading white space; the members of an object after its
    opening brace; the elements of an array after its opening bracket.  The
    fuel bounds the nesting and the number of members, both below the length
    of the text. *)
Fixpoint parse_value (fuel : nat) (s : string) : option (JsValue * string) :=
  match fuel with
  | O => None
  | S fuel' =>
      match skip_ws s with
      | String "{" rest =>
          match skip_ws rest with
          | String "}" after => Some (JObject [], after)
          | members =>
              match parse_members fuel' members with
              | Some (ms, after) => Some (JObject ms, after)
              | None => None
              end
          end
      | String "[" rest =>
          match skip_ws rest with
          | String "]" after => Some (JArray [], after)
          | elements =>
              match parse_elements fuel' elements with
              | Some (es, after) => Some (JArray es, after)
              | None => None
              end
          end
      | String "t" _ as word => expect "true" (JBool true) word
      | String "f" _ as word => expect "false" (JBool false) word
      | String "n" _ as word => expect "null" JNull word
      | String c rest as text =>
          if Ascii.eqb c quote then
            match parse_chars rest with
            | Some (chars, after) => Some (JString chars, after)
            | None => None
            end
          else parse_number text
      | EmptyString => None
      end
  end
with parse_members (fuel : nat) (s : string) : option (list (string * JsValue) * string) :=
  match fuel with
  | O => None
  | S fuel' =>
      match skip_ws s with
      | String c rest =>
          if Ascii.eqb c quote then
            match parse_chars rest with
            | Some (key, after_key) =>
                match skip_ws after_key with
                | String ":" after_colon =>
                    match parse_value fuel' after_colon with
                    | Some (v, after_value) =>
                        match skip_ws after_value with
                        | String "}" after => Some ([(key, v)], after)
                        | String "," more =>
                            match parse_members fuel' more with
                            | Some (ms, after) => Some ((key, v) :: ms, after)
                            | None => None
                            end
                        | _ => None
                        end
                    | None => None
                    end
                | _ => None
                end
            | None => None
            end
          else None
      | EmptyString => None
      end
  end
with parse_elements (fuel : nat) (s : string) : option (list JsValue * string) :=
  match fuel with
  | O => None
  | S fuel' =>
      match parse_value fuel' s with
      | Some (v, after_value) =>
          match skip_ws after_value with
          | String "]" after => Some ([v], after)
          | String "," more =>
              match parse_elements fuel' more with
              | Some (es, after) => Some (v :: es, after)
              | None => None
              end
          | _ => None
          end
      | None => None
      end
  end.

(** [JSON.parse(text)]: the value, or the message of the [SyntaxError]
    (whose wording is the engine's). *)
Definition parse (text : string) : JsValue + string :=
  match parse_value (2 * String.length text + 2) text with
  | Some (v, after) =>
      match skip_ws after with
      | EmptyString => inl v
      | _ => inr "Unexpected non-whitespace character after JSON"
      end
  | None => inr "Unexpected token in JSON"
  end.

(** A string literal: [text] between double quotes. *)
Definition quoted (text : string) : string :=
  String quote text ++ String quote EmptyString.

End Json.

(* ===================================================================== *)
(** ** services/openai *)
(* ===================================================================== *)

Module OpenAI.
Import Js.

(** The suffix of [s] that starts at its first opening brace. *)
Fixpoint from_first_open (s : string) : option string :=
  match s with
  | EmptyString => None
  | String c rest => if Ascii.eqb c "{" then Some s else from_first_open rest
  end.

(** The prefix of [s] that ends at its last closing brace. *)
Fixpoint upto_last_close (s : string) : option string :=
  match s with
  | EmptyString => None
  | String c rest =>
      match upto_last_close rest with
      | Some kept => Some (String c kept)
      | None => if Ascii.eqb c "}" then Some (String c EmptyString) else None
      end
  end.

(** [response.match(/\{[\s\S]*\}/)], element 0 of the match: from the first
    opening brace that a closing brace follows to the last closing brace. *)
Definition json_match (response : string) : option string :=
  match from_first_open response with
  | Some (String open rest) =>
      match upto_last_close rest with
      | Some kept => Some (String open kept)
      | None => None
      end
  | _ => None
  end.

(** The [catch] clause of [classifyProduct]. *)
Definition classification_failed {A} (r : Result A) : Result A :=
  match r with
  | Return a => Return a
  | Throw e => Throw (JsError ("Classification failed: " ++ message_or "Unknown error" e))
  end.

Section ClassifyProduct.

(** The engine's [JSON.parse]: the value, or the [SyntaxError]'s message. *)
Variable JSON_parse : string -> JsValue + string.

(** [!classification.hsCode || !classification.chapter ||
     !classification.description], left to right. *)
Definition incomplete (classification : JsValue) : Result bool :=
  match get_member classification "hsCode" with
  | Throw e => Throw e
  | Return hsCode =>
      if negb (truthy hsCode) then Return true
      else match get_member classification "chapter" with
           | Throw e => Throw e
           | Return chapter =>
               if negb (truthy chapter) then Return true
               else match get_member classification "description" with
                    | Throw e => Throw e
                    | Return description => Return (negb (truthy description))
                    end
           end
  end.

(** [classifyProduct(productName, customerName)], as a function of what the
    completion call yields: it throws, or it resolves with
    [completion.choices[0]?.message?.content] ([None] when that is [null] or
    [undefined]).  The prompt only feeds the call. *)
Definition classifyProduct (completion : Result (option string)) : Result JsValue :=
  classification_failed
    match completion with
    | Throw e => Throw e
    | Return None => Throw (JsError "No response from OpenAI")
    | Return (Some EmptyString) => Throw (JsError "No response from OpenAI")
    | Return (Some response) =>
        match json_match response with
        | None => Throw (JsError "Invalid JSON response from OpenAI")
        | Some jsonMatch =>
            match JSON_parse jsonMatch with
            | inr syntax_error => Throw (JsError syntax_error)
            | inl classification =>
                match incomplete classification with
                | Throw e => Throw e
                | Return true => Throw (JsError "Incomplete classification data from OpenAI")
                | Return false => Return classification
                end
            end
        end
    end.

(** The [catch] clause of [analyzeCompanyProducts]. *)
Definition company_analysis_failed {A} (r : Result A) : Result A :=
  match r with
  | Return a => Return a
  | Throw e =>
      Throw (JsError ("Company analysis failed: " ++ message_or "Unknown error" e))
  end.

(** [!analysis.products || !Array.isArray(analysis.products) ||
     analysis.products.length === 0], left to right. *)
Definition no_products (analysis : JsValue) : Result bool :=
  match get_member analysis "products" with
  | Throw e => Throw e
  | Return products =>
      if negb (truthy products) then Return true
      else match products with
           | Some (JArray []) => Return true
           | Some (JArray (_ :: _)) => Return false
           | _ => Return true
           end
  end.

(** [analyzeCompanyProducts(companyName)], as a function of what the
    completion call yields (see [classifyProduct]). *)
Definition analyzeCompanyProducts (completion : Result (option string)) : Result JsValue :=
  company_analysis_failed
    match completion with
    | Throw e => Throw e
    | Return None => Throw (JsError "No response from OpenAI")
    | Return (Some EmptyString) => Throw (JsError "No response from OpenAI")
    | Return (Some response) =>
        match json_match response with
        | None => Throw (JsError "Invalid JSON response from OpenAI")
        | Some jsonMatch =>
            match JSON_parse jsonMatch with
            | inr syntax_error => Throw (JsError syntax_error)
            | inl analysis =>
                match no_products analysis with
                | Throw e => Throw e
                | Return true => Throw (JsError "Invalid company analysis data from OpenAI")
                | Return false => Return analysis
                end
            end
        end
    end.

End ClassifyProduct.

(** The object [generateWTOLink] returns. *)
Record Links := mkLinks {
  wto : string;
  wcoomic : string;
  chapter : string;
  detailed : string;
  search : string
}.

(** [generateWTOLink(hsCode)] *)
Definition generateWTOLink (hsCode : string) : Links :=
  let baseCode := JsString.substring0 6 hsCode in
  let chapter := JsString.substring0 2 hsCode in
  {| wto := "https://www.wto.org/english/res_e/booksp_e/tariff_profiles_e.htm";
     wcoomic := "https://www.wcoomd.org/en/topics/nomenclature/instrument-and-tools/hs-nomenclature-2022-edition/hs-nomenclature-2022-edition.aspx";
     chapter := "https://www.foreign-trade.com/reference/hscode.cfm?code=" ++ chapter;
     detailed := "https://hts.usitc.gov/current";
     search := "https://www.tariffnumber.com/2022/" ++ baseCode |}.

(** [generateWTOLink(hsCode)] where the argument is whatever a parsed
    completion held: [substring] exists on strings only. *)
Definition generateWTOLink_any (hsCode : option JsValue) : Result Links :=
  match hsCode with
  | Some (JString hsCode) => Return (generateWTOLink hsCode)
  | None => Throw (JsError "Cannot read properties of undefined (reading 'substring')")
  | Some JNull => Throw (JsError "Cannot read properties of null (reading 'substring')")
  | Some _ => Throw (JsError "hsCode.substring is not a function")
  end.

End OpenAI.

(* ===================================================================== *)
(** ** Plain objects used as maps, and [Array.prototype.sort] *)
(* ===================================================================== *)

Module JsObject.

(** What a property of a counting object holds: a number, or the text left
    once something that is not a number has been added to. *)
Variant Value : Type :=
| Num (n : Z)
| Text (s : string).

(** An object literal [{}] and what is assigned to it: its own properties in
    the order they were created.  Its prototype is [Object.prototype]. *)
Definition t : Type := list (string * Value).

(** The own property [key]. *)
Fixpoint own (key : string) (o : t) : option Value :=
  match o with
  | [] => None
  | (k, v) :: rest => if String.eqb k key then Some v else own key rest
  end.

(** Assigning to an own property: an existing one keeps its place, a new one
    is created last. *)
Fixpoint define (key : string) (value : Value) (o : t) : t :=
  match o with
  | [] => [(key, value)]
  | (k, v) :: rest =>
      if String.eqb k key then (k, value) :: rest
      else (k, v) :: define key value rest
  end.

(** The properties of [Object.prototype], each with the string its value
    converts to (the built-in functions in V8's wording). *)
Definition prototype (key : string) : option string :=
  let builtin name := Some ("function " ++ name ++ "() { [native code] }") in
  if String.eqb key "constructor" then builtin "Object"
  else if String.eqb key "__proto__" then Some "[object Object]"
  else if existsb (String.eqb key)
            ["hasOwnProperty"; "isPrototypeOf"; "propertyIsEnumerable";
             "toLocaleString"; "toString"; "valueOf";
             "__defineGetter__"; "__defineSetter__";
             "__lookupGetter__"; "__lookupSetter__"]
       then builtin key
       else None.

(** What [o[key]] evaluates to: an own property, else a property of the
    prototype (an object or a function), else [undefined]. *)
Variant Lookup : Type :=
| Own (v : Value)
| Inherited (text : string)
| Undefined.

(** [o[key]] *)
Definition get (key : string) (o : t) : Lookup :=
  match own key o with
  | Some v => Own v
  | None =>
      match prototype key with
      | Some text => Inherited text
      | None => Undefined
      end
  end.

(** [o[key] = value] for a number or a string: the [__proto__] accessor
    ignores such a value; any other key becomes an own property. *)
Definition set (key : string) (value : Value) (o : t) : t :=
  if String.eqb key "__proto__" then o else define key value o.

(** [x - y], [None] for [NaN]: a text that starts with the text of a
    built-in is not a numeral. *)
Definition minus (x y : Value) : option Z :=
  match x, y with
  | Num a, Num b => Some (a - b)
  | _, _ => None
  end.

Fixpoint all_digits (s : string) : bool :=
  match s with
  | EmptyString => true
  | String c rest => JsString.is_digit c && all_digits rest
  end.

Fixpoint decimal_value (acc : N) (digits : string) : N :=
  match digits with
  | EmptyString => acc
  | String c rest => decimal_value (acc * 10 + (N.of_nat (nat_of_ascii c) - 48))%N rest
  end.

(** The array index a property key denotes, if any: a canonical decimal
    numeral (no leading zero) below 2^32 - 1. *)
Definition array_index (key : string) : option N :=
  match key with
  | EmptyString => None
  | String "0" (String _ _) => None
  | _ =>
      if all_digits key
      then let n := decimal_value 0 key in
           if (n <? 4294967295)%N then Some n else None
      else None
  end.

(** Stable insertion of [x] in front of the first element it may precede. *)
Fixpoint insert_by {A} (before : A -> A -> bool) (x : A) (l : list A) : list A :=
  match l with
  | [] => [x]
  | y :: rest => if before x y then x :: l else y :: insert_by before x rest
  end.

(** A stable sort: equal elements keep their order. *)
Definition stable_sort {A} (before : A -> A -> bool) (l : list A) : list A :=
  fold_right (insert_by before) [] l.

(** [array.sort(compare)]: stable; [a] stays before [b] unless
    [compare(a, b) > 0], and a [NaN] counts as zero.  (Where [compare] yields
    [NaN] the order is the engine's choice; this is one such order.) *)
Definition sort {A} (compare : A -> A -> option Z) (array : list A) : list A :=
  stable_sort
    (fun a b => match compare a b with Some d => d <=? 0 | None => true end)
    array.

Definition index_of (entry : string * Value) : N :=
  match array_index (fst entry) with
  | Some n => n
  | None => 0%N
  end.

Definition is_index (entry : string * Value) : bool :=
  match array_index (fst entry) with
  | Some _ => true
  | None => false
  end.

(** [Object.entries(o)]: the array-index keys in ascending numeric order,
    then the other keys in creation order. *)
Definition entries (o : t) : list (string * Value) :=
  (stable_sort (fun a b => (index_of a <=? index_of b)%N) (filter is_index o)
   ++ filter (fun e => negb (is_index e)) o)%list.

End JsObject.

(* ===================================================================== *)
(** ** services/database *)
(* ===================================================================== *)

Module Database.
Import Js.

(** A row of the [classifications] table. *)
Variant ClassificationRecord : Type :=
  mkRecord (id product_name : string) (customer_name : option string)
           (hs_code chapter description : string) (confidence : Z)
           (is_dual_use : bool) (reasoning : option string)
           (wto_links : option OpenAI.Links) (created_at updated_at : string).

(** What [saveClassification] is handed.  The members taken from a parsed
    completion hold whatever the completion held; [None] is [undefined]. *)
Variant ClassificationInsert : Type :=
  mkInsert (product_name : string) (customer_name : option string)
           (hs_code chapter description : option JsValue)
           (confidence is_dual_use reasoning : option JsValue)
           (wto_links : option OpenAI.Links).

(** The columns [getStatistics] selects. *)
Record StatsRow : Type := mkStatsRow {
  confidence : Z;
  is_dual_use : bool;
  chapter : string
}.

(** *** The store client *)

Variant Scalar : Type :=
| SString (s : string)
| SBool (b : bool).

(** One call of the query builder. *)
Variant Call : Type :=
| From_ (table : string)
| Select (columns : string) (count_exact : bool)
| Insert (rows : list ClassificationInsert)
| Ilike (column pattern : string)
| Or_ (filters : string)
| Eq (column : string) (value : Scalar)
| Order (column : string) (ascending : bool)
| Limit (count : float)
| Range (from to : float)
| Single.

(** A query: the builder calls in the order they were made. *)
Definition Query : Type := list Call.

Record PgError : Type := mkPgError {
  message : string;
  code : string
}.

(** What awaiting a query resolves with: [{ data, error, count }]. *)
Variant Response (D : Type) : Type :=
  mkResponse (data : option D) (error : option PgError) (count : option Z).
Arguments mkResponse {D} data error count.

(** The store behind the client: its answer to the [n]-th request of a
    session, by the shape of data the request asks for. *)
Record Supabase : Type := mkSupabase {
  many : nat -> Query -> Response (list ClassificationRecord);
  single : nat -> Query -> Response ClassificationRecord;
  projection : nat -> Query -> Response (list StatsRow)
}.

(** *** Asynchronous computations *)

(** What a computation can change: the state of what it talks to, and the
    delays handed to [setTimeout] so far, oldest first. *)
Record World (St : Type) : Type := mkWorld {
  store : St;
  timers : list float
}.
Arguments mkWorld {St} store timers.
Arguments store {St} w.
Arguments timers {St} w.

(** An [async] function body: it returns or throws, and leaves a world. *)
Definition M (St A : Type) : Type := World St -> Result A * World St.

Definition ret {St A} (a : A) : M St A := fun w => (Return a, w).

Definition throw {St A} (e : Thrown) : M St A := fun w => (Throw e, w).

Definition bind {St A B} (m : M St A) (k : A -> M St B) : M St B :=
  fun w =>
    match m w with
    | (Return a, w') => k a w'
    | (Throw e, w') => (Throw e, w')
    end.

Notation "x <- m ;; k" := (bind m (fun x => k))
  (at level 61, m at next level, right associativity).
Notation "' pat <- m ;; k" := (bind m (fun x => match x with pat => k end))
  (at level 61, pat pattern, m at next level, right associativity).

(** [await new Promise(resolve => setTimeout(resolve, delay))] *)
Definition setTimeout {St} (delay : float) : M St unit :=
  fun w => (Return tt, mkWorld (store w) (timers w ++ [delay])%list).

(** An operation that only talks to its store. *)
Definition on_store {St A} (f : St -> Result A * St) : M St A :=
  fun w => let (r, s) := f (store w) in (r, mkWorld s (timers w)).

(** [error instanceof Error && error.message.includes('Failed to fetch')] *)
Definition transient (error : Thrown) : bool :=
  match error with
  | JsError message => JsString.includes "Failed to fetch" message
  | JsOther => false
  end.

(** [DatabaseService.retryOperation(operation, retries, delay)]; [retries]
    is a count, so [retries > 0] is a successor and [retries - 1] its
    predecessor. *)
Fixpoint retryOperation {St T} (operation : M St T) (retries : nat) (delay : float)
  : M St T :=
  fun w =>
    match operation w with
    | (Return value, w') => (Return value, w')
    | (Throw error, w') =>
        match retries with
        | S retries' =>
            if transient error
            then (_ <- setTimeout delay ;;
                  retryOperation operation retries' (delay * 1.5)%float) w'
            else (Throw error, w')
        | O => (Throw error, w')
        end
    end.

(** The default arguments [retries = 2, delay = 1000]. *)
Definition retries_default : nat := 2.
Definition delay_default : float := 1000%float.

(** *** The gateway *)

(** A session with the store: the requests sent so far, oldest first. *)
Definition Session : Type := list Query.

Variant SortBy : Type := created_at | by_confidence | by_product_name.

Definition column_of (sortBy : SortBy) : string :=
  match sortBy with
  | created_at => "created_at"
  | by_confidence => "confidence"
  | by_product_name => "product_name"
  end.

Variant SortOrder : Type := asc | desc.

(** The options bundle of [getClassifications]; [None] is an option left
    out. *)
Record Options : Type := mkOptions {
  limit : option float;
  offset : option float;
  searchTerm : option string;
  dualUseOnly : option bool;
  sortBy : option SortBy;
  sortOrder : option SortOrder
}.

(** [/^\d{4}(\.\d{2}(\.\d{2})?)?$/] *)
Definition matches_hs_code (s : string) : bool :=
  match s with
  | String d1 (String d2 (String d3 (String d4 groups))) =>
      JsString.is_digit d1 && JsString.is_digit d2
      && JsString.is_digit d3 && JsString.is_digit d4
      && match groups with
         | EmptyString => true
         | String dot1 (String d5 (String d6 group)) =>
             Ascii.eqb dot1 "." && JsString.is_digit d5 && JsString.is_digit d6
             && match group with
                | EmptyString => true
                | String dot2 (String d7 (String d8 EmptyString)) =>
                    Ascii.eqb dot2 "." && JsString.is_digit d7 && JsString.is_digit d8
                | _ => false
                end
         | _ => false
         end
  | _ => false
  end.

(** A number in a condition: zero is falsy. *)
Definition nonzero (n : option Z) : option Z :=
  match n with
  | Some 0 => None
  | other => other
  end.

(** [ToBoolean] of a number: zero, of either sign, and [NaN] are falsy. *)
Definition falsy (x : float) : bool :=
  (x =? 0)%float || PrimFloat.is_nan x.

(** A number of the options in a condition, or on the left of [||]: one left
    out and a falsy one give way. *)
Definition present (x : option float) : option float :=
  match x with
  | Some n => if falsy n then None else Some n
  | None => None
  end.

(** The query [getClassifications] builds from its options; the end of the
    range is computed in binary64, as the numbers of the options are. *)
Definition list_query (options : option Options) : Query :=
  let opt {A} (field : Options -> option A) : option A :=
    match options with
    | Some o => field o
    | None => None
    end in
  ([From_ "classifications"; Select "*" true]
   ++ match opt searchTerm with
      | None | Some EmptyString => []
      | Some term =>
          let searchTerm := JsString.trim term in
          if matches_hs_code searchTerm
          then [Ilike "hs_code" ("%" ++ searchTerm ++ "%")%string]
          else [Or_ ("product_name.ilike.%" ++ searchTerm
                     ++ "%,customer_name.ilike.%" ++ searchTerm
                     ++ "%,hs_code.ilike.%" ++ searchTerm ++ "%")%string]
      end
   ++ match opt dualUseOnly with
      | Some true => [Eq "is_dual_use" (SBool true)]
      | _ => []
      end
   ++ (let sortBy := match opt sortBy with Some c => c | None => created_at end in
       let sortOrder := match opt sortOrder with Some o => o | None => desc end in
       [Order (column_of sortBy) match sortOrder with asc => true | desc => false end])
   ++ match present (opt limit) with
      | Some limit => [Limit limit]
      | None => []
      end
   ++ match present (opt offset) with
      | Some offset =>
          let limit := match present (opt limit) with
                       | Some l => l
                       | None => 50%float
                       end in
          [Range offset (offset + limit - 1)%float]
      | None => []
      end)%list.

(** *** Statistics *)

Module ChapterCount.
Record t : Type := mk {
  chapter : string;
  count : JsObject.Value
}.
End ChapterCount.

Record Statistics : Type := mkStatistics {
  totalClassifications : Z;
  dualUseCount : Z;
  averageConfidence : Number Z;
  topChapters : list ChapterCount.t
}.

(** [Math.round(numerator / denominator)] for integers.  A quotient by zero
    is [NaN] for the numerator zero and an infinity otherwise, and
    [Math.round] leaves both as they are; any other quotient is rounded to the
    nearest integer, a half upwards.  (The binary64 quotient rounds to the
    same integer as the exact one while the numerator stays below 2^52.) *)
Definition Math_round_div (numerator denominator : Z) : Number Z :=
  if denominator =? 0
  then if numerator =? 0 then NaN else Infinity (numerator <? 0)
  else Finite ((2 * numerator + denominator) / (2 * denominator)).

(** [(x || 0) + 1]: a number is incremented, zero included; an object, a
    function or a non-empty string is truthy and [+] appends to its text. *)
Definition or_zero_plus_one (x : JsObject.Lookup) : JsObject.Value :=
  match x with
  | JsObject.Own (JsObject.Num n) => JsObject.Num (n + 1)
  | JsObject.Own (JsObject.Text EmptyString) => JsObject.Num 1
  | JsObject.Own (JsObject.Text text) => JsObject.Text (text ++ "1")
  | JsObject.Inherited text => JsObject.Text (text ++ "1")
  | JsObject.Undefined => JsObject.Num 1
  end.

(** The reducer of [chapterCounts]:
    [(acc, s) => { const chapter = s.chapter.split(' - ')[0];
                   acc[chapter] = (acc[chapter] || 0) + 1; return acc; }] *)
Definition count_chapter (acc : JsObject.t) (s : StatsRow) : JsObject.t :=
  let chapter := JsString.split_head " - " (chapter s) in
  JsObject.set chapter (or_zero_plus_one (JsObject.get chapter acc)) acc.

(** The body of [getStatistics] once the rows are there. *)
Definition statistics_of (stats : list StatsRow) : Statistics :=
  let totalClassifications := Z.of_nat (length stats) in
  let dualUseCount := Z.of_nat (length (filter (fun s => is_dual_use s) stats)) in
  let averageConfidence :=
    if (0 <? Z.of_nat (length stats))
    then Math_round_div (fold_left (fun sum s => sum + confidence s) stats 0)
                        (Z.of_nat (length stats))
    else Finite 0 in
  let chapterCounts := fold_left count_chapter stats ([] : JsObject.t) in
  let topChapters :=
    firstn 5
      (JsObject.sort
         (fun a b => JsObject.minus (ChapterCount.count b) (ChapterCount.count a))
         (map (fun '(chapter, count) => ChapterCount.mk chapter count)
              (JsObject.entries chapterCounts))) in
  {| totalClassifications := totalClassifications;
     dualUseCount := dualUseCount;
     averageConfidence := averageConfidence;
     topChapters := topChapters |}.

Section Gateway.

Variable supabase : Supabase.

Definition send {D} (answer : Supabase -> nat -> Query -> Response D) (query : Query)
  : M Session (Response D) :=
  on_store (fun session =>
    (Return (answer supabase (length session) query), (session ++ [query])%list)).

(** [await query] for a query that yields rows, one row, or projected rows. *)
Definition await_many := send many.
Definition await_single := send single.
Definition await_projection := send projection.

(** [DatabaseService.saveClassification(classification)]; the result is
    [data] as the store sent it, [None] for [null]. *)
Definition saveClassification (classification : ClassificationInsert)
  : M Session (option ClassificationRecord) :=
  retryOperation
    ('(mkResponse data error _) <-
       await_single [From_ "classifications"; Insert [classification];
                     Select "*" false; Single] ;;
     match error with
     | Some error => throw (JsError ("Failed to save classification: " ++ message error))
     | None => ret data
     end)
    retries_default delay_default.

(** [DatabaseService.getClassifications(options)]: the page and the count. *)
Definition getClassifications (options : option Options)
  : M Session (list ClassificationRecord * Z) :=
  retryOperation
    ('(mkResponse data error count) <- await_many (list_query options) ;;
     match error with
     | Some error => throw (JsError ("Failed to fetch classifications: " ++ message error))
     | None =>
         ret (match data with Some rows => rows | None => [] end,
              match nonzero count with Some n => n | None => 0 end)
     end)
    retries_default delay_default.

(** [DatabaseService.getStatistics()] *)
Definition getStatistics : M Session Statistics :=
  '(mkResponse stats statsError _) <-
    await_projection [From_ "classifications";
                      Select "confidence, is_dual_use, chapter" false] ;;
  match statsError with
  | Some statsError =>
      throw (JsError ("Failed to fetch statistics: " ++ message statsError))
  | None =>
      match stats with
      | None => throw (JsError "Cannot read properties of null (reading 'length')")
      | Some stats => ret (statistics_of stats)
      end
  end.

(** [data || []] *)
Definition rows_or_empty (data : option (list ClassificationRecord))
  : list ClassificationRecord :=
  match data with
  | Some rows => rows
  | None => []
  end.

(** [DatabaseService.findSimilarProducts(productName, limit = 5)] *)
Definition findSimilarProducts (productName : string) (limit : option float)
  : M Session (list ClassificationRecord) :=
  let limit := match limit with Some l => l | None => 5%float end in
  '(mkResponse data error _) <-
    await_many [From_ "classifications"; Select "*" false;
                Ilike "product_name" ("%" ++ productName ++ "%")%string;
                Limit limit; Order "created_at" false] ;;
  match error with
  | Some _ => ret []
  | None => ret (rows_or_empty data)
  end.

(** [DatabaseService.getClassificationsByHSCode(hsCode)] *)
Definition getClassificationsByHSCode (hsCode : string)
  : M Session (list ClassificationRecord) :=
  '(mkResponse data error _) <-
    await_many [From_ "classifications"; Select "*" false;
                Eq "hs_code" (SString hsCode); Order "created_at" false] ;;
  match error with
  | Some error =>
      throw (JsError ("Failed to fetch classifications by HS code: " ++ message error))
  | None => ret (rows_or_empty data)
  end.

(** [DatabaseService.getClassificationsByCustomer(customerName)] *)
Definition getClassificationsByCustomer (customerName : string)
  : M Session (list ClassificationRecord) :=
  '(mkResponse data error _) <-
    await_many [From_ "classifications"; Select "*" false;
                Eq "customer_name" (SString customerName); Order "created_at" false] ;;
  match error with
  | Some error =>
      throw (JsError ("Failed to fetch classifications by customer: " ++ message error))
  | None => ret (rows_or_empty data)
  end.

(** [DatabaseService.getDualUseClassifications()] *)
Definition getDualUseClassifications : M Session (list ClassificationRecord) :=
  '(mkResponse data error _) <-
    await_many [From_ "classifications"; Select "*" false;
                Eq "is_dual_use" (SBool true); Order "created_at" false] ;;
  match error with
  | Some error =>
      throw (JsError ("Failed to fetch dual-use classifications: " ++ message error))
  | None => ret (rows_or_empty data)
  end.

(** [DatabaseService.searchProductsByName(productName, limit = 10)] *)
Definition searchProductsByName (productName : string) (limit : option float)
  : M Session (list ClassificationRecord) :=
  let limit := match limit with Some l => l | None => 10%float end in
  '(mkResponse data error _) <-
    await_many [From_ "classifications"; Select "*" false;
                Ilike "product_name" ("%" ++ productName ++ "%")%string;
                Limit limit; Order "created_at" false] ;;
  match error with
  | Some _ => ret []
  | None => ret (rows_or_empty data)
  end.

(** [DatabaseService.searchByHSCodePattern(hsCodePattern)] *)
Definition searchByHSCodePattern (hsCodePattern : string)
  : M Session (list ClassificationRecord) :=
  '(mkResponse data error _) <-
    await_many [From_ "classifications"; Select "*" false;
                Ilike "hs_code" (hsCodePattern ++ "%")%string;
                Order "created_at" false] ;;
  match error with
  | Some _ => ret []
  | None => ret (rows_or_empty data)
  end.

(** [DatabaseService.searchCustomersByPattern(customerPattern)] *)
Definition searchCustomersByPattern (customerPattern : string)
  : M Session (list ClassificationRecord) :=
  '(mkResponse data error _) <-
    await_many [From_ "classifications"; Select "*" false;
                Ilike "customer_name" ("%" ++ customerPattern ++ "%")%string;
                Order "created_at" false] ;;
  match error with
  | Some _ => ret []
  | None => ret (rows_or_empty data)
  end.

(** [DatabaseService.getClassificationById(id)]; [None] is [null]. *)
Definition getClassificationById (id : string)
  : M Session (option ClassificationRecord) :=
  '(mkResponse data error _) <-
    await_single [From_ "classifications"; Select "*" false;
                  Eq "id" (SString id); Single] ;;
  match error with
  | Some error =>
      if String.eqb (code error) "PGRST116" then ret None
      else throw (JsError ("Failed to fetch classification: " ++ message error))
  | None => ret data
  end.

End Gateway.

End Database.

(* ===================================================================== *)
(** ** App.tsx *)
(* ===================================================================== *)

Module App.
Import Js Database.

(** An entry of the displayed result list. *)
Record ClassificationResult : Type := mkResult {
  id : string;
  productName : string;
  hsCode : option JsValue;
  chapter : option JsValue;
  description : option JsValue;
  confidence : option JsValue;
  wtoLink : string;
  isDualUse : option JsValue;
  timestamp : Z;
  customerName : option string;
  reasoning : option JsValue;
  links : OpenAI.Links
}.

(** The component state [handleClassification] touches. *)
Record State : Type := mkState {
  results : list ClassificationResult;
  isLoading : bool;
  error : option string
}.

(** [n.toString()] for an integer. *)
Definition Number_toString (n : Z) : string :=
  DecimalString.NilZero.string_of_int (Z.to_int n).

(** A [try] block with a [catch] clause. *)
Definition try_catch {St A} (body : M St A) (handler : Thrown -> M St A) : M St A :=
  fun w =>
    match body w with
    | (Return a, w') => (Return a, w')
    | (Throw e, w') => handler e w'
    end.

(** An expression evaluated inside an [async] body. *)
Definition eval {St A} (r : Result A) : M St A := fun w => (r, w).

Section HandleClassification.

Variable JSON_parse : string -> JsValue + string.
Variable supabase : Supabase.

(** The outer [try] block of [handleClassification] up to the state update:
    the entry to display.  [completion] is what the completion call yields,
    [now] is [Date.now()], [today] the time of [new Date()]. *)
Definition classify_and_save (completion : Result (option string)) (now today : Z)
    (productName : string) (customerName : option string)
  : M Session ClassificationResult :=
  classification <- eval (OpenAI.classifyProduct JSON_parse completion) ;;
  hsCode <- eval (get_member classification "hsCode") ;;
  links <- eval (OpenAI.generateWTOLink_any hsCode) ;;
  chapter <- eval (get_member classification "chapter") ;;
  description <- eval (get_member classification "description") ;;
  confidence <- eval (get_member classification "confidence") ;;
  isDualUse <- eval (get_member classification "isDualUse") ;;
  reasoning <- eval (get_member classification "reasoning") ;;
  let result :=
    {| id := Number_toString now;
       productName := productName;
       hsCode := hsCode;
       chapter := chapter;
       description := description;
       confidence := confidence;
       wtoLink := OpenAI.search links;
       isDualUse := isDualUse;
       timestamp := today;
       customerName := customerName;
       reasoning := reasoning;
       links := links |} in
  _ <- try_catch
         (let dbRecord :=
            mkInsert productName customerName hsCode chapter description
                     confidence isDualUse reasoning (Some links) in
          _ <- saveClassification supabase dbRecord ;;
          ret tt)
         (fun dbError => ret tt) ;;
  ret result.

(** [handleClassification(productName, customerName)] *)
Definition handleClassification (completion : Result (option string)) (now today : Z)
    (productName : string) (customerName : option string) (ui : State)
  : World Session -> State * World Session :=
  fun w =>
    let ui := mkState (results ui) true (error ui) in
    let ui := mkState (results ui) (isLoading ui) None in
    let (ui, w) :=
      match classify_and_save completion now today productName customerName w with
      | (Return result, w') =>
          (mkState (result :: results ui) (isLoading ui) (error ui), w')
      | (Throw err, w') =>
          (mkState (results ui) (isLoading ui)
                   (Some (message_or "Classification failed" err)), w')
      end in
    (mkState (results ui) false (error ui), w).

End HandleClassification.

End App.

(* ===================================================================== *)
(** ** components/ClassificationForm *)
(* ===================================================================== *)

Module ClassificationForm.

(** [handleSubmit]: the arguments passed to [onSubmit], [None] when it is
    not called.  The three arguments are the component's state. *)
Definition handleSubmit (productName customerName : string)
    (includeCustomerAnalysis : bool) : option (string * option string) :=
  match JsString.trim productName with
  | EmptyString => None
  | _ =>
      Some (JsString.trim productName,
            if includeCustomerAnalysis then Some (JsString.trim customerName)
            else None)
  end.

End ClassificationForm.

(* ===================================================================== *)
(** ** components/ResultsDisplay *)
(* ===================================================================== *)

Module ResultsDisplay.

(** [getConfidenceColor(confidence)] for a finite number. *)
Definition getConfidenceColor (confidence : Q) : string :=
  if Qle_bool 95 confidence then "text-green-600 bg-green-100"
  else if Qle_bool 85 confidence then "text-yellow-600 bg-yellow-100"
  else "text-red-600 bg-red-100".

(** [getConfidenceText(confidence)] *)
Definition getConfidenceText (confidence : Q) : string :=
  if Qle_bool 95 confidence then "High Confidence"
  else if Qle_bool 85 confidence then "Medium Confidence"
  else "Low Confidence".

(** The class of the confidence bar:
    [confidence >= 95 ? 'bg-green-500' : confidence >= 85 ? 'bg-yellow-500'
     : 'bg-red-500']. *)
Definition bar_color (confidence : Q) : string :=
  if Qle_bool 95 confidence then "bg-green-500"
  else if Qle_bool 85 confidence then "bg-yellow-500"
  else "bg-red-500".

End ResultsDisplay.

(* ===================================================================== *)
(** ** components/SearchHistory *)
(* ===================================================================== *)

Module SearchHistory.
Import Js.

(** What the view reads of the [confidence] of an entry, which holds whatever
    the completion held or the table stored: the number it converts to where
    two are subtracted ([NaN] for one that is missing, or a text that is no
    numeral), and the text it converts to in a template literal. *)
Record Confidence : Type := mkConfidence {
  to_number : Number Q;
  to_text : string
}.

(** The component's [ClassificationResult], with the fields it reads; the
    timestamp is its [getTime()]. *)
Record ClassificationResult : Type := mkResult {
  productName : string;
  hsCode : string;
  chapter : string;
  confidence : Confidence;
  isDualUse : bool;
  timestamp : Z;
  customerName : option string
}.

(** [x - y].  Two finite numbers are subtracted exactly: their binary64
    difference is finite or infinite with the sign of the exact one, and zero
    only when the exact one is, and a comparison function hands [sort] no more
    than that. *)
Definition Number_minus (x y : Number Q) : Number Q :=
  match x, y with
  | NaN, _ | _, NaN => NaN
  | Finite a, Finite b => Finite (a - b)%Q
  | Finite _, Infinity negative => Infinity (negb negative)
  | Infinity negative, Finite _ => Infinity negative
  | Infinity negative, Infinity negative' =>
      if Bool.eqb negative negative' then NaN else Infinity negative
  end.

(** [x > 0]; a [NaN] is not. *)
Definition positive (x : Number Q) : bool :=
  match x with
  | Finite q => negb (Qle_bool q 0%Q)
  | Infinity negative => negb negative
  | NaN => false
  end.

(** [array.sort(compare)] for a comparison function that returns any number:
    stable; [a] stays before [b] unless [compare(a, b) > 0], and a [NaN]
    counts as zero.  (Where [compare] yields [NaN] the order is the engine's
    choice; this is one such order.) *)
Definition sort {A} (compare : A -> A -> Number Q) (array : list A) : list A :=
  JsObject.stable_sort (fun a b => negb (positive (compare a b))) array.

Variant SortBy : Type := date | by_confidence | product.

(** [c.toLowerCase()] for one code unit below 256: A-Z and the capital
    letters 00C0-00DE (the multiplication sign 00D7 apart). *)
Definition lower (c : ascii) : ascii :=
  let n := nat_of_ascii c in
  if ((65 <=? n) && (n <=? 90)
      || (192 <=? n) && (n <=? 222) && negb (n =? 215))%nat
  then ascii_of_nat (n + 32)
  else c.

(** [s.toLowerCase()] *)
Fixpoint toLowerCase (s : string) : string :=
  match s with
  | EmptyString => EmptyString
  | String c rest => String (lower c) (toLowerCase rest)
  end.

(** The first [filter] of [filteredResults]. *)
Definition matches (searchTerm : string) (result : ClassificationResult) : bool :=
  JsString.includes (toLowerCase searchTerm) (toLowerCase (productName result))
  || JsString.includes searchTerm (hsCode result)
  || match customerName result with
     | None | Some EmptyString => false
     | Some customer =>
         JsString.includes (toLowerCase searchTerm) (toLowerCase customer)
     end.

(** [array.join(separator)] *)
Fixpoint join (separator : string) (array : list string) : string :=
  match array with
  | [] => EmptyString
  | [last] => last
  | first :: rest => first ++ separator ++ join separator rest
  end.

(** [row => row.map(cell => `"${cell}"`).join(',')] *)
Definition csv_line (row : list string) : string :=
  join "," (map Json.quoted row).

Section Component.

(** The engine's [String.prototype.localeCompare] and
    [Date.prototype.toISOString] (of a time value). *)
Variable localeCompare : string -> string -> Z.
Variable toISOString : Z -> string.

(** The comparison function of the [sort] in [filteredResults]. *)
Definition compare (sortBy : SortBy) (a b : ClassificationResult) : Number Q :=
  match sortBy with
  | by_confidence =>
      Number_minus (to_number (confidence b)) (to_number (confidence a))
  | product => Finite (inject_Z (localeCompare (productName a) (productName b)))
  | date => Finite (inject_Z (timestamp b - timestamp a))
  end.

(** [filteredResults], from the [results] property and the component's
    state. *)
Definition filteredResults (results : list ClassificationResult)
    (searchTerm : string) (filterDualUse : bool) (sortBy : SortBy)
  : list ClassificationResult :=
  sort (compare sortBy)
    (filter (fun result => negb filterDualUse || isDualUse result)
       (filter (matches searchTerm) results)).

(** The cells of one exported record. *)
Definition csv_cells (result : ClassificationResult) : list string :=
  [productName result;
   hsCode result;
   chapter result;
   to_text (confidence result) ++ "%";
   if isDualUse result then "Yes" else "No";
   match customerName result with Some customer => customer | None => EmptyString end;
   toISOString (timestamp result)].

(** [csvContent] of [exportToCSV]: the text that is offered for download. *)
Definition csvContent (results : list ClassificationResult)
    (searchTerm : string) (filterDualUse : bool) (sortBy : SortBy) : string :=
  let headers := ["Product Name"; "HS Code"; "Chapter"; "Confidence";
                  "Dual Use"; "Customer"; "Timestamp"] in
  let csvData := map csv_cells (filteredResults results searchTerm filterDualUse sortBy) in
  join (String "010" EmptyString) (map csv_line (headers :: csvData)).

End Component.

End SearchHistory.

(* ===================================================================== *)
(** ** components/CompanyAnalysis *)
(* ===================================================================== *)

Module CompanyAnalysis.
Import Js.

(** The profile built from an analysis; the members taken from the parsed
    completion hold whatever it held. *)
Record CompanyProfile : Type := mkProfile {
  name : string;
  website : string;
  industry : option JsValue;
  products : option JsValue;
  riskLevel : option JsValue
}.

(** The component's state. *)
Record State : Type := mkState {
  companyName : string;
  isAnalyzing : bool;
  companyProfile : option CompanyProfile;
  error : option string
}.

(** [s.replace(/\s+/g, '')]: every white-space code unit is dropped. *)
Fixpoint remove_white_space (s : string) : string :=
  match s with
  | EmptyString => EmptyString
  | String c rest =>
      if JsString.is_white_space c then remove_white_space rest
      else String c (remove_white_space rest)
  end.

(** [getRiskColor(level)], the argument being whatever the analysis held. *)
Definition getRiskColor (level : option JsValue) : string :=
  match level with
  | Some (JString "High") => "bg-red-100 text-red-800 border-red-200"
  | Some (JString "Medium") => "bg-yellow-100 text-yellow-800 border-yellow-200"
  | _ => "bg-green-100 text-green-800 border-green-200"
  end.

Section HandleAnalyze.

Variable JSON_parse : string -> JsValue + string.

(** The completion service: what the completion call for a company name
    yields. *)
Variable completion_for : string -> Result (option string).

(** [handleAnalyze], on the component's state. *)
Definition handleAnalyze (ui : State) : State :=
  match JsString.trim (companyName ui) with
  | EmptyString => ui
  | _ =>
      let ui := mkState (companyName ui) true (companyProfile ui) (error ui) in
      let ui := mkState (companyName ui) (isAnalyzing ui) (companyProfile ui) None in
      let ui :=
        match
          match OpenAI.analyzeCompanyProducts JSON_parse
                  (completion_for (JsString.trim (companyName ui))) with
          | Throw e => Throw e
          | Return analysis =>
              match get_member analysis "industry" with
              | Throw e => Throw e
              | Return industry =>
                  match get_member analysis "products" with
                  | Throw e => Throw e
                  | Return products =>
                      match get_member analysis "riskLevel" with
                      | Throw e => Throw e
                      | Return riskLevel =>
                          Return
                            {| name := companyName ui;
                               website :=
                                 "https://www."
                                 ++ remove_white_space
                                      (SearchHistory.toLowerCase (companyName ui))
                                 ++ ".com";
                               industry := industry;
                               products := products;
                               riskLevel := riskLevel |}
                      end
                  end
              end
          end
        with
        | Return profile =>
            mkState (companyName ui) (isAnalyzing ui) (Some profile) (error ui)
        | Throw err =>
            mkState (companyName ui) (isAnalyzing ui) (companyProfile ui)
                    (Some (message_or "Company analysis failed" err))
        end in
      mkState (companyName ui) false (companyProfile ui) (error ui)
  end.

End HandleAnalyze.

End CompanyAnalysis.

(* ===================================================================== *)
(** ** Vocabulary of the properties *)
(* ===================================================================== *)

Module Spec.
Import Js Database.

(** [c] occurs in [s]. *)
Fixpoint occurs (c : ascii) (s : string) : bool :=
  match s with
  | EmptyString => false
  | String c' rest => Ascii.eqb c' c || occurs c rest
  end.

(** [s] has a brace-delimited part: an opening brace with a closing brace
    somewhere after it. *)
Definition brace_delimited (s : string) : Prop :=
  exists before inside after, s = before ++ "{" ++ inside ++ "}" ++ after.

(** A member of a parsed completion that is absent or the empty string. *)
Definition absent_or_empty (member : option JsValue) : Prop :=
  member = None \/ member = Some (JString "").

(** [n] decimal digits. *)
Fixpoint digits (n : nat) (s : string) : Prop :=
  match n, s with
  | O, EmptyString => True
  | S n', String c rest => JsString.is_digit c = true /\ digits n' rest
  | _, _ => False
  end.

(** The loose HS-code shape: four digits, optionally followed by a [.NN]
    group, optionally followed by a second [.NN] group. *)
Definition hs_code_shape (s : string) : Prop :=
  exists heading,
    digits 4 heading
    /\ (s = heading
        \/ exists group1,
             digits 2 group1
             /\ (s = heading ++ "." ++ group1
                 \/ exists group2,
                      digits 2 group2
                      /\ s = heading ++ "." ++ group1 ++ "." ++ group2)).

(** The builder calls that filter on a search term. *)
Definition is_search_filter (call : Call) : bool :=
  match call with
  | Ilike _ _ | Or_ _ => true
  | _ => false
  end.

(** The chapter bucket of a row: the token before the first [" - "]. *)
Definition bucket (s : StatsRow) : string :=
  JsString.split_head " - " (chapter s).

(** How many rows fall in a bucket. *)
Definition frequency (b : string) (stats : list StatsRow) : Z :=
  Z.of_nat (length (filter (fun s => String.eqb (bucket s) b) stats)).

(** A bucket that is not the name of a property of [Object.prototype]. *)
Definition plain_bucket (s : StatsRow) : Prop :=
  JsObject.prototype (bucket s) = None.

(** What the object of chapter counts holds after the rows [seen]: for
    every bucket that occurs, its frequency, and no key twice. *)
Definition counts_of (seen : list StatsRow) (acc : JsObject.t) : Prop :=
  NoDup (map fst acc)
  /\ forall k, JsObject.own k acc
               = if frequency k seen =? 0 then None
                 else Some (JsObject.Num (frequency k seen)).

(** The sum of the confidences. *)
Definition total_confidence (stats : list StatsRow) : Z :=
  fold_right Z.add 0 (map confidence stats).

(** The waits of [n] retries that start with [delay]: each is one and a
    half times the one before. *)
Fixpoint backoff (delay : float) (n : nat) : list float :=
  match n with
  | O => []
  | S n' => delay :: backoff (delay * 1.5)%float n'
  end.

(** The state an operation has left after [n] attempts. *)
Fixpoint after_attempts {St T} (f : St -> Result T * St) (n : nat) (s : St) : St :=
  match n with
  | O => s
  | S n' => after_attempts f n' (snd (f s))
  end.

(** Nothing but white space. *)
Fixpoint all_white (s : string) : bool :=
  match s with
  | EmptyString => true
  | String c rest => JsString.is_white_space c && all_white rest
  end.

(** The number a count holds, zero for a text. *)
Definition count_value (v : JsObject.Value) : Z :=
  match v with
  | JsObject.Num n => n
  | JsObject.Text _ => 0
  end.

(** The sum of the counts of a list of chapters. *)
Definition listed_total (top : list ChapterCount.t) : Z :=
  fold_right Z.add 0 (map (fun e => count_value (ChapterCount.count e)) top).

(** [x <= y] for two numbers; false when one of them is [NaN]. *)
Definition at_most (x y : Number Q) : bool :=
  match x, y with
  | NaN, _ | _, NaN => false
  | Infinity true, _ => true
  | _, Infinity false => true
  | Finite a, Finite b => Qle_bool a b
  | _, _ => false
  end.

(** The distinct buckets of a set of rows. *)
Definition buckets (stats : list StatsRow) : list string :=
  nodup string_dec (map bucket stats).

End Spec.

(* ===================================================================== *)
(** ** Concrete completions, stores and rows *)
(* ===================================================================== *)

Module Samples.
Import Js Database.

(** A completion in the format the prompt asks for, with a confidence
    outside the range the prompt asks for. *)
Definition laptop_members : list (string * JsValue) :=
  [("hsCode", JString "8471.30.01");
   ("chapter", JString "84 - Machines");
   ("description", JString "Portable computers");
   ("confidence", JNumber 185 0);
   ("isDualUse", JBool false);
   ("reasoning", JString "Laptop")].

Definition laptop_inside : string :=
  Json.quoted "hsCode" ++ ": " ++ Json.quoted "8471.30.01" ++ ", "
  ++ Json.quoted "chapter" ++ ": " ++ Json.quoted "84 - Machines" ++ ", "
  ++ Json.quoted "description" ++ ": " ++ Json.quoted "Portable computers" ++ ", "
  ++ Json.quoted "confidence" ++ ": 185, "
  ++ Json.quoted "isDualUse" ++ ": false, "
  ++ Json.quoted "reasoning" ++ ": " ++ Json.quoted "Laptop".

Definition laptop_json : string := "{" ++ laptop_inside ++ "}".

(** The same completion with an empty HS code. *)
Definition no_code_json : string :=
  "{" ++ Json.quoted "hsCode" ++ ": " ++ Json.quoted "" ++ ", "
  ++ Json.quoted "chapter" ++ ": " ++ Json.quoted "84 - Machines" ++ ", "
  ++ Json.quoted "description" ++ ": " ++ Json.quoted "Portable computers" ++ "}".

(** A completion whose HS code is a number. *)
Definition numeric_code_json : string :=
  "{" ++ Json.quoted "hsCode" ++ ": 84713001, "
  ++ Json.quoted "chapter" ++ ": " ++ Json.quoted "84 - Machines" ++ ", "
  ++ Json.quoted "description" ++ ": " ++ Json.quoted "Portable computers" ++ "}".

Definition fetch_failed : PgError := mkPgError "TypeError: Failed to fetch" "".

Definition denied : PgError := mkPgError "permission denied for table classifications" "42501".

(** A store that cannot be reached for its first [n] requests and is empty
    afterwards. *)
Definition unreachable_for (n : nat) : Supabase :=
  let answer {D} (empty : D) (k : nat) (_ : Query) : Response D :=
    if (k <? n)%nat then mkResponse None (Some fetch_failed) None
    else mkResponse (Some empty) None (Some 0) in
  mkSupabase (answer []) (answer (mkRecord "1" "" None "" "" "" 0 false None None "" ""))
             (answer []).

(** A store that refuses every request. *)
Definition refusing : Supabase :=
  let answer {D} (_ : nat) (_ : Query) : Response D :=
    mkResponse None (Some denied) None in
  mkSupabase answer answer answer.

(** An operation on a counter that fails while the counter is below
    [failures], with the error [error], and then returns the counter. *)
Definition failing_until (failures : nat) (error : Thrown) (attempts : nat)
  : Result nat * nat :=
  if (attempts <? failures)%nat then (Throw error, S attempts)
  else (Return attempts, S attempts).

Definition three_rows : list StatsRow :=
  [mkStatsRow 80 false "84 - Machines";
   mkStatsRow 90 true "84 - Machines";
   mkStatsRow 100 false "85 - Electrical"].

Definition fresh : World Session := mkWorld [] [].

(** A portfolio of one product without any field, with a risk level
    outside the three levels. *)
Definition portfolio_inside : string :=
  Json.quoted "products" ++ ": [{}], " ++ Json.quoted "riskLevel" ++ ": "
  ++ Json.quoted "Extreme".

Definition portfolio_members : list (string * JsValue) :=
  [("products", JArray [JObject []]); ("riskLevel", JString "Extreme")].

(** A store whose single-row answer is the error of a row that does not
    exist. *)
Definition no_such_row : Supabase :=
  let missing := mkPgError "JSON object requested, multiple (or no) rows returned"
                           "PGRST116" in
  mkSupabase (fun _ _ => mkResponse (Some []) None None)
             (fun _ _ => mkResponse None (Some missing) None)
             (fun _ _ => mkResponse (Some []) None None).

(** Two history entries that differ in product name and HS code. *)
Definition quoted_name : SearchHistory.ClassificationResult :=
  SearchHistory.mkResult ("a" ++ Json.quoted "," ++ "b") "c" "84"
    (SearchHistory.mkConfidence (Finite 90%Q) "90") false 0 None.

Definition quoted_code : SearchHistory.ClassificationResult :=
  SearchHistory.mkResult "a" ("b" ++ Json.quoted "," ++ "c") "84"
    (SearchHistory.mkConfidence (Finite 90%Q) "90") false 0 None.

End Samples.

(* ===================================================================== *)
(** ** Strings *)
(* ===================================================================== *)

Import Js Database Spec.

Lemma append_assoc (a b c : string) : (a ++ b) ++ c = a ++ (b ++ c).
Proof.
  induction a as [|x a IH]; simpl; [reflexivity | now rewrite IH].
Qed.

Lemma occurs_append (c : ascii) (a b : string) :
  occurs c (a ++ b) = occurs c a || occurs c b.
Proof.
  induction a as [|x a IH]; simpl; [reflexivity|].
  rewrite IH. now rewrite orb_assoc.
Qed.

(** *** The first brace-delimited part *)

Lemma from_first_open_skips (before rest : string) :
  occurs "{" before = false ->
  OpenAI.from_first_open (before ++ String "{" rest) = Some (String "{" rest).
Proof.
  induction before as [|x before IH]; simpl; intros H; [reflexivity|].
  apply orb_false_iff in H as [Hx Hb].
  rewrite Hx. now apply IH.
Qed.

Lemma from_first_open_suffix (s t : string) :
  OpenAI.from_first_open s = Some t ->
  exists before rest, s = before ++ String "{" rest /\ t = String "{" rest.
Proof.
  induction s as [|x s IH]; simpl; intros H; [discriminate|].
  destruct (Ascii.eqb_spec x "{") as [->|_].
  - injection H as <-. now exists EmptyString, s.
  - destruct (IH H) as (before & rest & -> & ->).
    now exists (String x before), rest.
Qed.

Lemma from_first_open_reaches (before rest : string) :
  exists skipped,
    OpenAI.from_first_open (before ++ String "{" rest)
    = Some (String "{" (skipped ++ rest)).
Proof.
  induction before as [|x before [skipped IH]]; simpl.
  - now exists EmptyString.
  - destruct (Ascii.eqb_spec x "{") as [->|_].
    + exists (before ++ "{"). now rewrite append_assoc.
    + now exists skipped.
Qed.

Lemma upto_last_close_none (s : string) :
  occurs "}" s = false -> OpenAI.upto_last_close s = None.
Proof.
  induction s as [|x s IH]; simpl; intros H; [reflexivity|].
  apply orb_false_iff in H as [Hx Hs].
  now rewrite (IH Hs), Hx.
Qed.

Lemma upto_last_close_some (s : string) :
  occurs "}" s = true -> exists kept, OpenAI.upto_last_close s = Some kept.
Proof.
  induction s as [|x s IH]; simpl; intros H; [discriminate|].
  destruct (OpenAI.upto_last_close s) as [kept|] eqn:E.
  - now exists (String x kept).
  - apply orb_true_iff in H as [Hx | Hs].
    + rewrite Hx. now eexists.
    + destruct (IH Hs) as [kept Hk]. discriminate.
Qed.

Lemma upto_last_close_keeps (inside after : string) :
  occurs "}" after = false ->
  OpenAI.upto_last_close (inside ++ String "}" after) = Some (inside ++ "}").
Proof.
  intros H. induction inside as [|x inside IH]; simpl.
  - now rewrite (upto_last_close_none _ H).
  - now rewrite IH.
Qed.

Lemma upto_last_close_prefix (s kept : string) :
  OpenAI.upto_last_close s = Some kept ->
  exists inside after, kept = inside ++ "}" /\ s = kept ++ after.
Proof.
  revert kept. induction s as [|x s IH]; simpl; intros kept H; [discriminate|].
  destruct (OpenAI.upto_last_close s) as [k|] eqn:E.
  - injection H as <-.
    destruct (IH k eq_refl) as (inside & after & -> & ->).
    now exists (String x inside), after.
  - destruct (Ascii.eqb_spec x "}") as [->|_]; [|discriminate].
    injection H as <-. now exists EmptyString, s.
Qed.

(** The match is the span from the first opening brace to the last closing
    brace. *)
Lemma json_match_span (before inside after : string) :
  occurs "{" before = false ->
  occurs "}" after = false ->
  OpenAI.json_match (before ++ "{" ++ inside ++ "}" ++ after)
  = Some ("{" ++ inside ++ "}").
Proof.
  intros Hb Ha. unfold OpenAI.json_match. simpl.
  rewrite (from_first_open_skips _ _ Hb).
  now rewrite (upto_last_close_keeps _ _ Ha).
Qed.

(** There is a match exactly when the text has a brace-delimited part. *)
Lemma json_match_some_iff (s : string) :
  (exists m, OpenAI.json_match s = Some m) <-> brace_delimited s.
Proof.
  unfold OpenAI.json_match, brace_delimited. split.
  - intros [m H].
    destruct (OpenAI.from_first_open s) as [t|] eqn:E; [|discriminate].
    destruct (from_first_open_suffix _ _ E) as (before & rest & -> & ->).
    destruct (OpenAI.upto_last_close rest) as [kept|] eqn:K; [|discriminate].
    destruct (upto_last_close_prefix _ _ K) as (inside & after & -> & ->).
    exists before, inside, after. simpl. now rewrite append_assoc.
  - intros (before & inside & after & ->). simpl.
    destruct (from_first_open_reaches before (inside ++ String "}" after))
      as [skipped ->].
    destruct (upto_last_close_some (skipped ++ inside ++ String "}" after))
      as [kept ->]; [|now eexists].
    rewrite !occurs_append. simpl. now rewrite !orb_true_r.
Qed.

Lemma json_match_none (s : string) :
  ~ brace_delimited s -> OpenAI.json_match s = None.
Proof.
  intros H. destruct (OpenAI.json_match s) as [m|] eqn:E; [|reflexivity].
  exfalso. apply H, json_match_some_iff. now exists m.
Qed.

Lemma json_match_nonempty (s m : string) :
  OpenAI.json_match s = Some m -> s <> EmptyString.
Proof. intros H ->. discriminate. Qed.

(* ===================================================================== *)
(** ** The classification pipeline *)
(* ===================================================================== *)

(** C1, evaluated on the code: for ["8471.30.01"] the chapter link ends in
    the chapter [84], but the code-search link ends in the first six
    characters [8471.3], dot included, and the six-digit root [847130] does
    not occur in it. *)
Theorem generateWTOLink_keeps_the_dot :
  OpenAI.chapter (OpenAI.generateWTOLink "8471.30.01")
  = "https://www.foreign-trade.com/reference/hscode.cfm?code=84"
  /\ OpenAI.search (OpenAI.generateWTOLink "8471.30.01")
     = "https://www.tariffnumber.com/2022/8471.3"
  /\ JsString.includes "847130"
       (OpenAI.search (OpenAI.generateWTOLink "8471.30.01")) = false.
Proof. repeat split. Qed.

Section Extraction.

Variable JSON_parse : string -> JsValue + string.

Lemma classifyProduct_on_match (response jsonMatch : string) :
  OpenAI.json_match response = Some jsonMatch ->
  OpenAI.classifyProduct JSON_parse (Return (Some response))
  = OpenAI.classification_failed
      match JSON_parse jsonMatch with
      | inr syntax_error => Throw (JsError syntax_error)
      | inl classification =>
          match OpenAI.incomplete classification with
          | Throw e => Throw e
          | Return true => Throw (JsError "Incomplete classification data from OpenAI")
          | Return false => Return classification
          end
      end.
Proof.
  intros H. unfold OpenAI.classifyProduct.
  destruct response as [|c response]; [discriminate|].
  now rewrite H.
Qed.

(** C3, as amended: when no opening brace precedes and no closing brace
    follows the one JSON object of the response text, and its [hsCode],
    [chapter] and [description] are truthy, [classifyProduct] returns the
    parsed object itself: its [hsCode], [chapter], [description] and
    [confidence] are the parsed values, whatever the confidence is. *)
Theorem classifyProduct_returns_parsed
    (before inside after : string) (members : list (string * JsValue)) :
  occurs "{" before = false ->
  occurs "}" after = false ->
  JSON_parse ("{" ++ inside ++ "}") = inl (JObject members) ->
  truthy (lookup "hsCode" members) = true ->
  truthy (lookup "chapter" members) = true ->
  truthy (lookup "description" members) = true ->
  exists classification,
    OpenAI.classifyProduct JSON_parse
      (Return (Some (before ++ "{" ++ inside ++ "}" ++ after)))
    = Return classification
    /\ classification = JObject members
    /\ get_member classification "hsCode" = Return (lookup "hsCode" members)
    /\ get_member classification "chapter" = Return (lookup "chapter" members)
    /\ get_member classification "description" = Return (lookup "description" members)
    /\ get_member classification "confidence" = Return (lookup "confidence" members).
Proof.
  intros Hb Ha Hparse Hcode Hchapter Hdescription.
  exists (JObject members).
  rewrite (classifyProduct_on_match _ _ (json_match_span _ _ _ Hb Ha)).
  rewrite Hparse. unfold OpenAI.incomplete. simpl.
  rewrite Hcode, Hchapter, Hdescription. simpl.
  repeat split.
Qed.

(** C5, as amended: a non-empty response text without a brace-delimited part
    fails with the malformed-response message, inside the wrapper of the
    [catch] clause; the empty text fails with the no-response message. *)
Theorem classifyProduct_malformed (response : string) :
  response <> "" ->
  ~ brace_delimited response ->
  OpenAI.classifyProduct JSON_parse (Return (Some response))
  = Throw (JsError "Classification failed: Invalid JSON response from OpenAI")
  /\ OpenAI.classifyProduct JSON_parse (Return (Some EmptyString))
     = Throw (JsError "Classification failed: No response from OpenAI").
Proof.
  intros Hne Hnone. split; [|reflexivity]. unfold OpenAI.classifyProduct.
  destruct response as [|c response]; [contradiction|].
  now rewrite (json_match_none _ Hnone).
Qed.

(** C6: a parsed completion object whose [hsCode], [chapter] or
    [description] is absent or the empty string makes [classifyProduct]
    throw the incomplete-classification error; nothing is returned. *)
Theorem classifyProduct_incomplete
    (response jsonMatch : string) (members : list (string * JsValue)) :
  OpenAI.json_match response = Some jsonMatch ->
  JSON_parse jsonMatch = inl (JObject members) ->
  absent_or_empty (lookup "hsCode" members)
  \/ absent_or_empty (lookup "chapter" members)
  \/ absent_or_empty (lookup "description" members) ->
  OpenAI.classifyProduct JSON_parse (Return (Some response))
  = Throw (JsError "Classification failed: Incomplete classification data from OpenAI").
Proof.
  intros Hmatch Hparse Hmissing.
  rewrite (classifyProduct_on_match _ _ Hmatch), Hparse.
  unfold OpenAI.incomplete. simpl.
  assert (falsy : forall v, absent_or_empty v -> truthy v = false)
    by (intros v [-> | ->]; reflexivity).
  destruct Hmissing as [H | [H | H]]; apply falsy in H.
  - now rewrite H.
  - destruct (truthy (lookup "hsCode" members)); [|reflexivity].
    now rewrite H.
  - destruct (truthy (lookup "hsCode" members)); [|reflexivity].
    destruct (truthy (lookup "chapter" members)); [|reflexivity].
    now rewrite H.
Qed.

End Extraction.

Lemma classifyProduct_returns_parsed_witness :
  exists classification,
    OpenAI.classifyProduct Json.parse
      (Return (Some ("Here is the classification: " ++ "{" ++ Samples.laptop_inside
                     ++ "}" ++ " Done.")))
    = Return classification
    /\ classification = JObject Samples.laptop_members
    /\ get_member classification "hsCode" = Return (Some (JString "8471.30.01"))
    /\ get_member classification "chapter" = Return (Some (JString "84 - Machines"))
    /\ get_member classification "description"
       = Return (Some (JString "Portable computers"))
    /\ get_member classification "confidence" = Return (Some (JNumber 185 0)).
Proof.
  apply (classifyProduct_returns_parsed Json.parse
           "Here is the classification: " Samples.laptop_inside " Done."
           Samples.laptop_members); reflexivity.
Defined.

(** C3 as stated fails: a text that holds one well-formed JSON object with
    every field, followed by a stray closing brace, is not classified. *)
Lemma classifyProduct_stray_brace :
  Json.parse Samples.laptop_json = inl (JObject Samples.laptop_members)
  /\ OpenAI.json_match (Samples.laptop_json ++ " (see chapter 84})")
     = Some (Samples.laptop_json ++ " (see chapter 84}")
  /\ is_return
       (OpenAI.classifyProduct Json.parse
          (Return (Some (Samples.laptop_json ++ " (see chapter 84})")))) = false.
Proof. repeat split. Qed.

Lemma no_brace_pair (s : string) :
  OpenAI.json_match s = None -> ~ brace_delimited s.
Proof.
  intros H B. apply json_match_some_iff in B as [m B]. congruence.
Qed.

Lemma classifyProduct_malformed_witness :
  OpenAI.classifyProduct Json.parse
    (Return (Some "I cannot classify this product. } {"))
  = Throw (JsError "Classification failed: Invalid JSON response from OpenAI")
  /\ OpenAI.classifyProduct Json.parse (Return (Some EmptyString))
     = Throw (JsError "Classification failed: No response from OpenAI").
Proof.
  apply (classifyProduct_malformed Json.parse "I cannot classify this product. } {").
  - discriminate.
  - apply no_brace_pair. reflexivity.
Defined.

(** C5 as stated fails: the empty text has no brace-delimited part and
    fails with the no-response message; and the malformed-response failure
    of a non-empty text carries the prefix of the [catch] clause, the same
    as a failure of the completion call. *)
Lemma classifyProduct_empty_text :
  ~ brace_delimited ""
  /\ OpenAI.classifyProduct Json.parse (Return (Some EmptyString))
     = Throw (JsError "Classification failed: No response from OpenAI")
  /\ OpenAI.classifyProduct Json.parse (Return (Some "n/a"))
     = Throw (JsError "Classification failed: Invalid JSON response from OpenAI")
  /\ OpenAI.classifyProduct Json.parse (Throw (JsError "429 Rate limit reached"))
     = Throw (JsError "Classification failed: 429 Rate limit reached").
Proof.
  split; [|repeat split].
  apply no_brace_pair. reflexivity.
Qed.

Lemma classifyProduct_incomplete_witness :
  OpenAI.classifyProduct Json.parse (Return (Some Samples.no_code_json))
  = Throw (JsError "Classification failed: Incomplete classification data from OpenAI").
Proof.
  apply (classifyProduct_incomplete Json.parse Samples.no_code_json
           Samples.no_code_json
           [("hsCode", JString ""); ("chapter", JString "84 - Machines");
            ("description", JString "Portable computers")]).
  - reflexivity.
  - reflexivity.
  - left. right. reflexivity.
Defined.

(* ===================================================================== *)
(** ** The retry wrapper *)
(* ===================================================================== *)

Section Retry.

Context {St T : Type}.

Lemma on_store_run (f : St -> Result T * St) (s : St) (ts : list float) :
  on_store f (mkWorld s ts) = (fst (f s), mkWorld (snd (f s)) ts).
Proof. unfold on_store. simpl. now destruct (f s). Qed.

Lemma retryOperation_returns (operation : M St T) retries delay w value w' :
  operation w = (Return value, w') ->
  retryOperation operation retries delay w = (Return value, w').
Proof. intros H. destruct retries; simpl; now rewrite H. Qed.

Lemma retryOperation_gives_up (operation : M St T) retries delay w error w' :
  operation w = (Throw error, w') ->
  transient error = false ->
  retryOperation operation retries delay w = (Throw error, w').
Proof. intros H Hn. destruct retries; simpl; rewrite H; [|rewrite Hn]; reflexivity. Qed.

Lemma retryOperation_exhausted (operation : M St T) delay w error w' :
  operation w = (Throw error, w') ->
  retryOperation operation 0 delay w = (Throw error, w').
Proof. intros H. simpl. now rewrite H. Qed.

Lemma retryOperation_retries (operation : M St T) retries delay w error w' :
  operation w = (Throw error, w') ->
  transient error = true ->
  retryOperation operation (S retries) delay w
  = retryOperation operation retries (delay * 1.5)%float
      (mkWorld (store w') (timers w' ++ [delay])).
Proof. intros H Ht. simpl. rewrite H, Ht. reflexivity. Qed.

(** C4: an operation that fails twice with a fetch failure and then succeeds
    yields its value after two waits, of [base] and [base * 1.5]; an error
    that is not a fetch failure is thrown at once, with no wait, whatever the
    number of retries left; and when the two retries are used up the last
    error is thrown. *)
Theorem retryOperation_policy
    (flaky rejected persistent : St -> Result T * St)
    (base : float) (ts : list float)
    (s0 s1 s2 s3 : St) (m1 m2 : string) (value : T)
    (r0 r1 : St) (error : Thrown) (retries : nat)
    (p0 p1 p2 p3 : St) (n1 n2 : string) (last : Thrown) :
  flaky s0 = (Throw (JsError m1), s1) ->
  JsString.includes "Failed to fetch" m1 = true ->
  flaky s1 = (Throw (JsError m2), s2) ->
  JsString.includes "Failed to fetch" m2 = true ->
  flaky s2 = (Return value, s3) ->
  rejected r0 = (Throw error, r1) ->
  transient error = false ->
  persistent p0 = (Throw (JsError n1), p1) ->
  JsString.includes "Failed to fetch" n1 = true ->
  persistent p1 = (Throw (JsError n2), p2) ->
  JsString.includes "Failed to fetch" n2 = true ->
  persistent p2 = (Throw last, p3) ->
  retryOperation (on_store flaky) retries_default base (mkWorld s0 ts)
  = (Return value, mkWorld s3 (ts ++ [base; (base * 1.5)%float]))
  /\ retryOperation (on_store rejected) retries base (mkWorld r0 ts)
     = (Throw error, mkWorld r1 ts)
  /\ retryOperation (on_store persistent) retries_default base (mkWorld p0 ts)
     = (Throw last, mkWorld p3 (ts ++ [base; (base * 1.5)%float])).
Proof.
  intros F0 M1 F1 M2 F2 R0 NT P0 N1 P1 N2 P2.
  assert (two : forall (t : list float) a b, ((t ++ [a]) ++ [b] = t ++ [a; b])%list)
    by (intros; now rewrite <- app_assoc).
  repeat split.
  - unfold retries_default.
    rewrite (retryOperation_retries _ _ _ _ (JsError m1) (mkWorld s1 ts));
      [|now rewrite on_store_run, F0|exact M1].
    cbn [store timers].
    rewrite (retryOperation_retries _ _ _ _ (JsError m2) (mkWorld s2 (ts ++ [base])));
      [|now rewrite on_store_run, F1|exact M2].
    cbn [store timers]. rewrite two.
    apply retryOperation_returns. now rewrite on_store_run, F2.
  - apply retryOperation_gives_up; [|exact NT].
    now rewrite on_store_run, R0.
  - unfold retries_default.
    rewrite (retryOperation_retries _ _ _ _ (JsError n1) (mkWorld p1 ts));
      [|now rewrite on_store_run, P0|exact N1].
    cbn [store timers].
    rewrite (retryOperation_retries _ _ _ _ (JsError n2) (mkWorld p2 (ts ++ [base])));
      [|now rewrite on_store_run, P1|exact N2].
    cbn [store timers]. rewrite two.
    apply retryOperation_exhausted. now rewrite on_store_run, P2.
Qed.

End Retry.

Lemma retryOperation_policy_witness :
  retryOperation
    (on_store (Samples.failing_until 2 (JsError "TypeError: Failed to fetch")))
    retries_default delay_default (mkWorld 0%nat [])
  = (Return 2%nat, mkWorld 3%nat [1000%float; 1500%float])
  /\ retryOperation
       (on_store (Samples.failing_until 1 (JsError "duplicate key value")))
       7 delay_default (mkWorld 0%nat [])
     = (Throw (JsError "duplicate key value"), mkWorld 1%nat [])
  /\ retryOperation
       (on_store (Samples.failing_until 9 (JsError "TypeError: Failed to fetch")))
       retries_default delay_default (mkWorld 0%nat [])
     = (Throw (JsError "TypeError: Failed to fetch"),
        mkWorld 3%nat [1000%float; 1500%float]).
Proof.
  apply (retryOperation_policy
           (Samples.failing_until 2 (JsError "TypeError: Failed to fetch"))
           (Samples.failing_until 1 (JsError "duplicate key value"))
           (Samples.failing_until 9 (JsError "TypeError: Failed to fetch"))
           delay_default []
           0%nat 1%nat 2%nat 3%nat
           "TypeError: Failed to fetch" "TypeError: Failed to fetch" 2%nat
           0%nat 1%nat (JsError "duplicate key value") 7
           0%nat 1%nat 2%nat 3%nat
           "TypeError: Failed to fetch" "TypeError: Failed to fetch"
           (JsError "TypeError: Failed to fetch")); reflexivity.
Defined.

(* ===================================================================== *)
(** ** The list/query operation *)
(* ===================================================================== *)

Arguments JsString.is_digit : simpl never.

Lemma digits_4 (s : string) :
  digits 4 s <->
  exists a b c d,
    s = String a (String b (String c (String d EmptyString)))
    /\ JsString.is_digit a = true /\ JsString.is_digit b = true
    /\ JsString.is_digit c = true /\ JsString.is_digit d = true.
Proof.
  split.
  - destruct s as [|a [|b [|c [|d [|e s]]]]]; simpl; try tauto.
    intros (Ha & Hb & Hc & Hd & _). now exists a, b, c, d.
  - intros (a & b & c & d & -> & Ha & Hb & Hc & Hd). simpl. tauto.
Qed.

Lemma digits_2 (s : string) :
  digits 2 s <->
  exists a b,
    s = String a (String b EmptyString)
    /\ JsString.is_digit a = true /\ JsString.is_digit b = true.
Proof.
  split.
  - destruct s as [|a [|b [|c s]]]; simpl; try tauto.
    intros (Ha & Hb & _). now exists a, b.
  - intros (a & b & -> & Ha & Hb). simpl. tauto.
Qed.

(** The regular expression accepts exactly the loose HS-code shape. *)
Lemma matches_hs_code_shape (s : string) :
  matches_hs_code s = true <-> hs_code_shape s.
Proof.
  unfold hs_code_shape. split.
  - destruct s as [|d1 [|d2 [|d3 [|d4 groups]]]]; simpl; try discriminate.
    intros H. apply andb_true_iff in H as [H Hgroups].
    do 3 (apply andb_true_iff in H as [H ?]).
    exists (String d1 (String d2 (String d3 (String d4 EmptyString)))).
    split; [simpl; tauto|].
    destruct groups as [|dot1 [|d5 [|d6 group]]]; try discriminate;
      [now left|right].
    apply andb_true_iff in Hgroups as [Hg Hgroup].
    do 2 (apply andb_true_iff in Hg as [Hg ?]).
    apply Ascii.eqb_eq in Hg as ->.
    exists (String d5 (String d6 EmptyString)).
    split; [simpl; tauto|].
    destruct group as [|dot2 [|d7 [|d8 [|x rest]]]]; try discriminate;
      [now left|right].
    do 2 (apply andb_true_iff in Hgroup as [Hgroup ?]).
    apply Ascii.eqb_eq in Hgroup as ->.
    exists (String d7 (String d8 EmptyString)).
    split; [simpl; tauto|reflexivity].
  - intros (heading & Hh & Hs).
    apply digits_4 in Hh as (a & b & c & d & -> & Ha & Hb & Hc & Hd).
    destruct Hs as [-> | (group1 & H1 & Hs)].
    { simpl. now rewrite Ha, Hb, Hc, Hd. }
    apply digits_2 in H1 as (e & f & -> & He & Hf).
    destruct Hs as [-> | (group2 & H2 & ->)].
    { simpl. now rewrite Ha, Hb, Hc, Hd, He, Hf. }
    apply digits_2 in H2 as (g & h & -> & Hg & Hh).
    simpl. now rewrite Ha, Hb, Hc, Hd, He, Hf, Hg, Hh.
Qed.

Local Open Scope list_scope.

Section GatewayRequests.

Variable supabase : Supabase.

Lemma send_run {D} (answer : Supabase -> nat -> Query -> Response D) query w :
  send supabase answer query w
  = (Return (answer supabase (length (store w)) query),
     mkWorld (store w ++ [query]) (timers w)).
Proof. reflexivity. Qed.

(** An operation that sends one request [query] per attempt sends it between
    once and [retries + 1] times under the retry wrapper, and sends nothing
    else. *)
Lemma retryOperation_requests {T} (operation : M Session T) (query : Query) :
  (forall w, exists r, operation w = (r, mkWorld (store w ++ [query]) (timers w))) ->
  forall retries delay w,
  exists r k ts,
    (1 <= k <= S retries)%nat
    /\ retryOperation operation retries delay w
       = (r, mkWorld (store w ++ repeat query k) ts).
Proof.
  intros Hop retries.
  induction retries as [|retries IH]; intros delay w;
    destruct (Hop w) as [r Hr].
  - exists r, 1%nat, (timers w). split; [lia|].
    simpl. rewrite Hr. now destruct r.
  - destruct r as [value | error].
    + exists (Return value), 1%nat, (timers w). split; [lia|].
      simpl. now rewrite Hr.
    + destruct (transient error) eqn:Ht.
      * destruct (IH (delay * 1.5)%float
                     (mkWorld (store w ++ [query]) (timers w ++ [delay])))
          as (r' & k & ts & Hk & Hrun).
        exists r', (S k), ts. split; [lia|].
        rewrite (retryOperation_retries _ _ _ _ _ _ Hr Ht). cbn [store timers].
        etransitivity; [exact Hrun|]. cbn [store repeat]. now rewrite <- app_assoc.
      * exists (Throw error), 1%nat, (timers w). split; [lia|].
        now rewrite (retryOperation_gives_up _ _ _ _ _ _ Hr Ht).
Qed.

Lemma getClassifications_requests (options : option Options) w :
  exists r k ts,
    (1 <= k <= 3)%nat
    /\ getClassifications supabase options w
       = (r, mkWorld (store w ++ repeat (list_query options) k) ts).
Proof.
  unfold getClassifications. apply retryOperation_requests.
  intros w'. unfold bind, await_many. rewrite send_run.
  destruct (many supabase _ _) as [data [error|] count]; eexists; reflexivity.
Qed.

End GatewayRequests.

Arguments nonzero : simpl never.
Arguments present : simpl never.

(** The search filters of the query: one call, chosen by the shape of the
    trimmed term. *)
Lemma list_query_search_filters (options : Options) (term : string) :
  searchTerm options = Some term ->
  term <> ""%string ->
  filter is_search_filter (list_query (Some options))
  = let searchTerm := JsString.trim term in
    if matches_hs_code searchTerm
    then [Ilike "hs_code" ("%" ++ searchTerm ++ "%")%string]
    else [Or_ ("product_name.ilike.%" ++ searchTerm
               ++ "%,customer_name.ilike.%" ++ searchTerm
               ++ "%,hs_code.ilike.%" ++ searchTerm ++ "%")%string].
Proof.
  intros Hterm Hne. unfold list_query. rewrite Hterm.
  destruct term as [|c term]; [contradiction|].
  rewrite !filter_app.
  destruct (matches_hs_code (JsString.trim (String c term)));
    destruct (dualUseOnly options) as [[|]|];
    destruct (present (limit options)); destruct (present (offset options));
    reflexivity.
Qed.

(** C7: with a non-empty search term, every request of the list/query
    operation is the query built from the options; when the trimmed term has
    the loose HS-code shape its only search filter is the substring match on
    [hs_code], and the combined OR filter is absent; otherwise its only
    search filter is the OR of the substring matches on [product_name],
    [customer_name] and [hs_code]. *)
Theorem getClassifications_search_dispatch
    (supabase : Supabase) (options : Options) (term : string) (w : World Session) :
  searchTerm options = Some term ->
  term <> ""%string ->
  let searchTerm := JsString.trim term in
  let query := list_query (Some options) in
  (exists r k ts,
      (1 <= k <= 3)%nat
      /\ getClassifications supabase (Some options) w
         = (r, mkWorld (store w ++ repeat query k) ts))
  /\ (hs_code_shape searchTerm ->
      In (Ilike "hs_code" ("%" ++ searchTerm ++ "%")%string) query
      /\ (forall column pattern,
            In (Ilike column pattern) query ->
            Ilike column pattern = Ilike "hs_code" ("%" ++ searchTerm ++ "%")%string)
      /\ (forall filters, ~ In (Or_ filters) query))
  /\ (~ hs_code_shape searchTerm ->
      In (Or_ ("product_name.ilike.%" ++ searchTerm
               ++ "%,customer_name.ilike.%" ++ searchTerm
               ++ "%,hs_code.ilike.%" ++ searchTerm ++ "%")%string) query
      /\ (forall column pattern, ~ In (Ilike column pattern) query)).
Proof.
  intros Hterm Hne searchTerm query.
  pose proof (list_query_search_filters options term Hterm Hne) as Hfilters.
  fold searchTerm query in Hfilters. cbv zeta in Hfilters.
  assert (Hin : forall call, is_search_filter call = true ->
                  (In call query <-> In call (filter is_search_filter query))).
  { intros call Hcall. rewrite filter_In. tauto. }
  split; [apply getClassifications_requests|].
  split; intros Hshape.
  - apply matches_hs_code_shape in Hshape.
    fold searchTerm in Hfilters. rewrite Hshape in Hfilters.
    repeat split.
    + apply Hin; [reflexivity|]. rewrite Hfilters. now left.
    + intros column pattern H. apply Hin in H; [|reflexivity].
      rewrite Hfilters in H. destruct H as [H | []]. now symmetry.
    + intros filters H. apply Hin in H; [|reflexivity].
      rewrite Hfilters in H. destruct H as [H | []]. discriminate.
  - assert (Hno : matches_hs_code searchTerm = false).
    { destruct (matches_hs_code searchTerm) eqn:E; [|reflexivity].
      now apply matches_hs_code_shape in E. }
    rewrite Hno in Hfilters.
    split.
    + apply Hin; [reflexivity|]. rewrite Hfilters. now left.
    + intros column pattern H. apply Hin in H; [|reflexivity].
      rewrite Hfilters in H. destruct H as [H | []]. discriminate.
Qed.

Lemma getClassifications_search_dispatch_witness :
  (exists r k ts,
      (1 <= k <= 3)%nat
      /\ getClassifications (Samples.unreachable_for 1)
           (Some (mkOptions (Some 20%float) None (Some " 8471.30 ") None None None))
           Samples.fresh
         = (r, mkWorld
                 (repeat [From_ "classifications"; Select "*" true;
                          Ilike "hs_code" "%8471.30%";
                          Order "created_at" false; Limit 20%float] k) ts))
  /\ (hs_code_shape "8471.30" ->
      In (Ilike "hs_code" "%8471.30%")
         [From_ "classifications"; Select "*" true; Ilike "hs_code" "%8471.30%";
          Order "created_at" false; Limit 20%float]
      /\ (forall column pattern,
            In (Ilike column pattern)
               [From_ "classifications"; Select "*" true;
                Ilike "hs_code" "%8471.30%"; Order "created_at" false; Limit 20%float] ->
            Ilike column pattern = Ilike "hs_code" "%8471.30%")
      /\ (forall filters,
            ~ In (Or_ filters)
                 [From_ "classifications"; Select "*" true;
                  Ilike "hs_code" "%8471.30%"; Order "created_at" false; Limit 20%float]))
  /\ (~ hs_code_shape "8471.30" ->
      In (Or_ "product_name.ilike.%8471.30%,customer_name.ilike.%8471.30%,hs_code.ilike.%8471.30%")
         [From_ "classifications"; Select "*" true; Ilike "hs_code" "%8471.30%";
          Order "created_at" false; Limit 20%float]
      /\ (forall column pattern,
            ~ In (Ilike column pattern)
                 [From_ "classifications"; Select "*" true;
                  Ilike "hs_code" "%8471.30%"; Order "created_at" false; Limit 20%float])).
Proof.
  apply (getClassifications_search_dispatch (Samples.unreachable_for 1)
           (mkOptions (Some 20%float) None (Some " 8471.30 ") None None None)
           " 8471.30 " Samples.fresh).
  - reflexivity.
  - discriminate.
Defined.

(** The two search terms of the specification's examples. *)
Example list_query_examples :
  list_query (Some (mkOptions None None (Some "8471.30") None None None))
  = [From_ "classifications"; Select "*" true; Ilike "hs_code" "%8471.30%";
     Order "created_at" false]
  /\ list_query (Some (mkOptions None None (Some "router") None None None))
     = [From_ "classifications"; Select "*" true;
        Or_ "product_name.ilike.%router%,customer_name.ilike.%router%,hs_code.ilike.%router%";
        Order "created_at" false].
Proof. split; reflexivity. Qed.

(* ===================================================================== *)
(** ** The convenience queries *)
(* ===================================================================== *)

(** C2, as amended: a convenience query sends its request once and never
    waits, whatever the failure.  On a failure the three exact-match queries
    throw an error that names the operation; the similar-product query and
    the three pattern searches return the empty list. *)
Theorem convenience_queries_on_failure
    (supabase : Supabase) (w : World Session) (failure : PgError)
    (productName hsCode customerName hsCodePattern customerPattern : string)
    (limit : option float) :
  (forall query, exists data count,
      many supabase (length (store w)) query = mkResponse data (Some failure) count) ->
  let sent (query : Query) := mkWorld (store w ++ [query]) (timers w) in
  let newest_first := Order "created_at" false in
  let all := [From_ "classifications"; Select "*" false] in
  findSimilarProducts supabase productName limit w
  = (Return [],
     sent (all ++ [Ilike "product_name" ("%" ++ productName ++ "%")%string;
                   Limit (match limit with Some l => l | None => 5%float end);
                   newest_first]))
  /\ searchProductsByName supabase productName limit w
     = (Return [],
        sent (all ++ [Ilike "product_name" ("%" ++ productName ++ "%")%string;
                      Limit (match limit with Some l => l | None => 10%float end);
                      newest_first]))
  /\ searchByHSCodePattern supabase hsCodePattern w
     = (Return [],
        sent (all ++ [Ilike "hs_code" (hsCodePattern ++ "%")%string; newest_first]))
  /\ searchCustomersByPattern supabase customerPattern w
     = (Return [],
        sent (all ++ [Ilike "customer_name" ("%" ++ customerPattern ++ "%")%string;
                      newest_first]))
  /\ getClassificationsByHSCode supabase hsCode w
     = (Throw (JsError ("Failed to fetch classifications by HS code: "
                        ++ message failure)%string),
        sent (all ++ [Eq "hs_code" (SString hsCode); newest_first]))
  /\ getClassificationsByCustomer supabase customerName w
     = (Throw (JsError ("Failed to fetch classifications by customer: "
                        ++ message failure)%string),
        sent (all ++ [Eq "customer_name" (SString customerName); newest_first]))
  /\ getDualUseClassifications supabase w
     = (Throw (JsError ("Failed to fetch dual-use classifications: "
                        ++ message failure)%string),
        sent (all ++ [Eq "is_dual_use" (SBool true); newest_first])).
Proof.
  intros Hfails sent newest_first all.
  unfold findSimilarProducts, searchProductsByName, searchByHSCodePattern,
    searchCustomersByPattern, getClassificationsByHSCode,
    getClassificationsByCustomer, getDualUseClassifications, bind, await_many.
  rewrite !send_run.
  repeat split;
    match goal with
    | |- context [many supabase _ ?q] =>
        destruct (Hfails q) as (data & count & ->)
    end; reflexivity.
Qed.

Lemma convenience_queries_on_failure_witness :
  let sent (query : Query) : World Session := mkWorld [query] [] in
  let newest_first := Order "created_at" false in
  let all := [From_ "classifications"; Select "*" false] in
  findSimilarProducts (Samples.unreachable_for 1) "router" None Samples.fresh
  = (Return [],
     sent (all ++ [Ilike "product_name" "%router%"; Limit 5%float; newest_first]))
  /\ searchProductsByName (Samples.unreachable_for 1) "router" None Samples.fresh
     = (Return [],
        sent (all ++ [Ilike "product_name" "%router%"; Limit 10%float; newest_first]))
  /\ searchByHSCodePattern (Samples.unreachable_for 1) "8471" Samples.fresh
     = (Return [], sent (all ++ [Ilike "hs_code" "8471%"; newest_first]))
  /\ searchCustomersByPattern (Samples.unreachable_for 1) "Cisco" Samples.fresh
     = (Return [], sent (all ++ [Ilike "customer_name" "%Cisco%"; newest_first]))
  /\ getClassificationsByHSCode (Samples.unreachable_for 1) "8471.30.01" Samples.fresh
     = (Throw (JsError "Failed to fetch classifications by HS code: TypeError: Failed to fetch"),
        sent (all ++ [Eq "hs_code" (SString "8471.30.01"); newest_first]))
  /\ getClassificationsByCustomer (Samples.unreachable_for 1) "Cisco" Samples.fresh
     = (Throw (JsError "Failed to fetch classifications by customer: TypeError: Failed to fetch"),
        sent (all ++ [Eq "customer_name" (SString "Cisco"); newest_first]))
  /\ getDualUseClassifications (Samples.unreachable_for 1) Samples.fresh
     = (Throw (JsError "Failed to fetch dual-use classifications: TypeError: Failed to fetch"),
        sent (all ++ [Eq "is_dual_use" (SBool true); newest_first])).
Proof.
  apply (convenience_queries_on_failure (Samples.unreachable_for 1) Samples.fresh
           Samples.fetch_failed "router" "8471.30.01" "Cisco" "8471" "Cisco" None).
  intros query. exists None, None. reflexivity.
Defined.

(** C2 as stated fails: against a store that cannot be reached once, the
    list/query operation waits, asks again and returns the page, while the
    similar-product query asks once and returns the empty list, and the query
    by HS code asks once and throws. *)
Lemma convenience_queries_do_not_retry :
  getClassifications (Samples.unreachable_for 1) None Samples.fresh
  = (Return ([], 0),
     mkWorld [[From_ "classifications"; Select "*" true; Order "created_at" false];
              [From_ "classifications"; Select "*" true; Order "created_at" false]]
             [1000%float])
  /\ findSimilarProducts (Samples.unreachable_for 1) "router" None Samples.fresh
     = (Return [],
        mkWorld [[From_ "classifications"; Select "*" false;
                  Ilike "product_name" "%router%"; Limit 5%float;
                  Order "created_at" false]] [])
  /\ getClassificationsByHSCode (Samples.unreachable_for 1) "8471.30.01" Samples.fresh
     = (Throw (JsError "Failed to fetch classifications by HS code: TypeError: Failed to fetch"),
        mkWorld [[From_ "classifications"; Select "*" false;
                  Eq "hs_code" (SString "8471.30.01");
                  Order "created_at" false]] []).
Proof. repeat split. Qed.

(* ===================================================================== *)
(** ** Objects as maps, sorting *)
(* ===================================================================== *)

Section ObjectFacts.

Lemma own_define (key key' : string) (value : JsObject.Value) (o : JsObject.t) :
  JsObject.own key' (JsObject.define key value o)
  = if String.eqb key key' then Some value else JsObject.own key' o.
Proof.
  induction o as [|[k v] o IH]; simpl.
  - reflexivity.
  - destruct (String.eqb_spec k key) as [->|Hk]; simpl.
    + destruct (String.eqb key key'); reflexivity.
    + rewrite IH.
      destruct (String.eqb_spec k key') as [->|Hk']; [|reflexivity].
      destruct (String.eqb_spec key key') as [->|_]; [contradiction|reflexivity].
Qed.

Lemma keys_define (key : string) (value : JsObject.Value) (o : JsObject.t) :
  map fst (JsObject.define key value o)
  = if in_dec string_dec key (map fst o) then map fst o else map fst o ++ [key].
Proof.
  induction o as [|[k v] o IH]; simpl; [reflexivity|].
  destruct (String.eqb_spec k key) as [->|Hk]; simpl.
  - destruct (string_dec key key); [reflexivity|contradiction].
  - rewrite IH. destruct (string_dec k key) as [E|E]; [contradiction|].
    destruct (in_dec string_dec key (map fst o)); reflexivity.
Qed.

Lemma NoDup_keys_define (key : string) (value : JsObject.Value) (o : JsObject.t) :
  NoDup (map fst o) -> NoDup (map fst (JsObject.define key value o)).
Proof.
  intros H. rewrite keys_define.
  destruct (in_dec string_dec key (map fst o)) as [_|Hn]; [exact H|].
  apply NoDup_rev in H. rewrite <- (rev_involutive (map fst o ++ [key])).
  apply NoDup_rev. rewrite rev_app_distr. simpl.
  constructor; [|exact H]. now rewrite <- in_rev.
Qed.

Lemma own_In (key : string) (value : JsObject.Value) (o : JsObject.t) :
  NoDup (map fst o) ->
  (JsObject.own key o = Some value <-> In (key, value) o).
Proof.
  induction o as [|[k v] o IH]; simpl; intros H.
  - split; [discriminate|tauto].
  - inversion H as [|? ? Hk Ho]; subst.
    destruct (String.eqb_spec k key) as [->|Hne].
    + split.
      * intros E. injection E as E. subst v. now left.
      * intros [E | Hin]; [now injection E as ->|].
        exfalso. apply Hk. change key with (fst (key, value)). now apply in_map.
    + rewrite (IH Ho). split; [tauto|].
      intros [E | Hin]; [|exact Hin].
      injection E as E _. contradiction.
Qed.

Lemma plain_key_is_not_proto (key : string) :
  JsObject.prototype key = None -> String.eqb key "__proto__" = false.
Proof.
  intros H. destruct (String.eqb_spec key "__proto__") as [->|]; [discriminate|reflexivity].
Qed.

Context {A : Type}.

Lemma insert_by_perm (before : A -> A -> bool) (x : A) (l : list A) :
  Permutation (JsObject.insert_by before x l) (x :: l).
Proof.
  induction l as [|y l IH]; simpl; [reflexivity|].
  destruct (before x y); [reflexivity|].
  rewrite IH. apply perm_swap.
Qed.

Lemma stable_sort_perm (before : A -> A -> bool) (l : list A) :
  Permutation (JsObject.stable_sort before l) l.
Proof.
  induction l as [|x l IH]; simpl; [reflexivity|].
  fold (JsObject.stable_sort before l).
  rewrite insert_by_perm. now constructor.
Qed.

Lemma filter_split_perm (f : A -> bool) (l : list A) :
  Permutation (filter f l ++ filter (fun x => negb (f x)) l) l.
Proof.
  induction l as [|x l IH]; simpl; [reflexivity|].
  destruct (f x); simpl.
  - now constructor.
  - rewrite <- Permutation_middle. now constructor.
Qed.

Variable R : A -> A -> Prop.
Variable P : A -> Prop.
Variable before : A -> A -> bool.
Hypothesis R_trans : forall x y z, R x y -> R y z -> R x z.
Hypothesis before_true : forall x y, P x -> P y -> before x y = true -> R x y.
Hypothesis before_false : forall x y, P x -> P y -> before x y = false -> R y x.

Lemma insert_by_sorted (x : A) (l : list A) :
  P x -> Forall P l ->
  StronglySorted R l -> StronglySorted R (JsObject.insert_by before x l).
Proof.
  intros Px Pl. induction 1 as [|y l Hl IH Hy]; simpl.
  - repeat constructor.
  - inversion Pl as [|? ? Py Pl']; subst.
    destruct (before x y) eqn:E.
    + constructor; [now constructor|].
      constructor; [now apply before_true|].
      apply Forall_forall. intros z Hz.
      apply R_trans with y; [now apply before_true|].
      rewrite Forall_forall in Hy. now apply Hy.
    + constructor; [now apply IH|].
      apply Forall_forall. intros z Hz.
      apply (Permutation_in _ (insert_by_perm before x l)) in Hz.
      destruct Hz as [<- | Hz]; [now apply before_false|].
      rewrite Forall_forall in Hy. now apply Hy.
Qed.

Lemma stable_sort_sorted (l : list A) :
  Forall P l -> StronglySorted R (JsObject.stable_sort before l).
Proof.
  induction 1 as [|x l Px Pl IH]; simpl; [constructor|].
  apply insert_by_sorted; [exact Px| |exact IH].
  apply (Permutation_Forall (Permutation_sym (stable_sort_perm before l)) Pl).
Qed.

Lemma StronglySorted_app (l1 l2 : list A) :
  StronglySorted R (l1 ++ l2) ->
  StronglySorted R l1 /\ forall x y, In x l1 -> In y l2 -> R x y.
Proof.
  induction l1 as [|a l1 IH]; simpl; intros H.
  - split; [constructor|intros x y []].
  - inversion H as [|? ? Hs Ha]; subst.
    destruct (IH Hs) as [Hs1 Hcross]. split.
    + constructor; [exact Hs1|].
      apply Forall_forall. intros z Hz. rewrite Forall_forall in Ha.
      apply Ha, in_or_app. now left.
    + intros x y [<- | Hx] Hy.
      * rewrite Forall_forall in Ha. apply Ha, in_or_app. now right.
      * now apply Hcross.
Qed.

End ObjectFacts.

Lemma entries_perm (o : JsObject.t) : Permutation (JsObject.entries o) o.
Proof.
  unfold JsObject.entries. rewrite stable_sort_perm. apply filter_split_perm.
Qed.

(* ===================================================================== *)
(** ** Statistics *)
(* ===================================================================== *)

Section StatisticsFacts.

Lemma frequency_nonneg (b : string) (stats : list StatsRow) : 0 <= frequency b stats.
Proof. unfold frequency. lia. Qed.

Lemma frequency_app (b : string) (l1 l2 : list StatsRow) :
  frequency b (l1 ++ l2) = frequency b l1 + frequency b l2.
Proof. unfold frequency. rewrite filter_app, length_app. lia. Qed.

Lemma frequency_positive (s : StatsRow) (stats : list StatsRow) :
  In s stats -> 0 < frequency (bucket s) stats.
Proof.
  intros H. apply in_split in H as (l1 & l2 & ->).
  rewrite frequency_app.
  pose proof (frequency_nonneg (bucket s) l1).
  pose proof (frequency_nonneg (bucket s) l2).
  unfold frequency at 2. simpl. rewrite String.eqb_refl. simpl length.
  unfold frequency in *. lia.
Qed.

Lemma count_chapter_step (seen : list StatsRow) (acc : JsObject.t) (s : StatsRow) :
  plain_bucket s ->
  counts_of seen acc -> counts_of (seen ++ [s]) (count_chapter acc s).
Proof.
  intros Hplain [Hnd Hget]. unfold plain_bucket in Hplain.
  unfold count_chapter. cbv zeta. fold (bucket s).
  unfold JsObject.set, JsObject.get.
  rewrite (plain_key_is_not_proto _ Hplain), Hplain, (Hget (bucket s)).
  split; [now apply NoDup_keys_define|].
  intros k. rewrite own_define, frequency_app.
  pose proof (frequency_nonneg (bucket s) seen) as Hb.
  pose proof (frequency_nonneg k seen) as Hk.
  assert (Hone : frequency k [s] = if String.eqb (bucket s) k then 1 else 0).
  { unfold frequency. simpl. now destruct (String.eqb (bucket s) k). }
  rewrite Hone.
  assert (Hnew : or_zero_plus_one
                   match (if frequency (bucket s) seen =? 0 then None
                          else Some (JsObject.Num (frequency (bucket s) seen)))
                   with
                   | Some v => JsObject.Own v
                   | None => JsObject.Undefined
                   end
                 = JsObject.Num (frequency (bucket s) seen + 1)).
  { destruct (Z.eqb_spec (frequency (bucket s) seen) 0) as [E|E].
    - now rewrite E.
    - reflexivity. }
  rewrite Hnew.
  destruct (String.eqb_spec (bucket s) k) as [<-|Hne].
  - destruct (Z.eqb_spec (frequency (bucket s) seen + 1) 0); [lia|reflexivity].
  - rewrite Hget. now rewrite Z.add_0_r.
Qed.

Lemma chapterCounts_counts (stats seen : list StatsRow) (acc : JsObject.t) :
  Forall plain_bucket stats ->
  counts_of seen acc -> counts_of (seen ++ stats) (fold_left count_chapter stats acc).
Proof.
  intros Hplain. revert seen acc.
  induction Hplain as [|s stats Hs Hplain IH]; intros seen acc H; simpl.
  - now rewrite app_nil_r.
  - replace (seen ++ s :: stats) with ((seen ++ [s]) ++ stats)
      by now rewrite <- app_assoc.
    apply IH. now apply count_chapter_step.
Qed.

Lemma counts_of_empty : counts_of [] [].
Proof. split; [constructor|reflexivity]. Qed.

(** The entries of the object of chapter counts: one per bucket that occurs,
    with its frequency. *)
Lemma chapterCounts_entries (stats : list StatsRow) :
  Forall plain_bucket stats ->
  let chapterCounts := fold_left count_chapter stats [] in
  NoDup (map fst chapterCounts)
  /\ (forall k v, In (k, v) chapterCounts ->
        v = JsObject.Num (frequency k stats) /\ 0 < frequency k stats)
  /\ (forall s, In s stats ->
        In (bucket s, JsObject.Num (frequency (bucket s) stats)) chapterCounts).
Proof.
  intros Hplain chapterCounts.
  destruct (chapterCounts_counts stats [] [] Hplain counts_of_empty) as [Hnd Hget].
  fold chapterCounts in Hnd, Hget. simpl in Hget.
  split; [exact Hnd|]. split.
  - intros k v Hin. apply (own_In _ _ _ Hnd) in Hin. rewrite Hget in Hin.
    pose proof (frequency_nonneg k stats).
    destruct (Z.eqb_spec (frequency k stats) 0); [discriminate|].
    injection Hin as <-. split; [reflexivity|lia].
  - intros s Hs. apply (own_In _ _ _ Hnd). rewrite Hget.
    pose proof (frequency_positive s stats Hs).
    destruct (Z.eqb_spec (frequency (bucket s) stats) 0); [lia|reflexivity].
Qed.

Lemma total_confidence_fold (stats : list StatsRow) (start : Z) :
  fold_left (fun sum s => sum + confidence s) stats start
  = start + total_confidence stats.
Proof.
  unfold total_confidence.
  revert start. induction stats as [|s stats IH]; intros start; simpl.
  - lia.
  - rewrite IH. lia.
Qed.

(** Rounding to the nearest integer, a half upwards. *)
Lemma Math_round_div_nearest (numerator denominator : Z) :
  0 < denominator ->
  exists rounded,
    Math_round_div numerator denominator = Finite rounded
    /\ 2 * denominator * rounded <= 2 * numerator + denominator
       < 2 * denominator * (rounded + 1).
Proof.
  intros Hpos. unfold Math_round_div.
  destruct (Z.eqb_spec denominator 0) as [|_]; [lia|].
  eexists. split; [reflexivity|].
  pose proof (Z.mul_div_le (2 * numerator + denominator) (2 * denominator)).
  pose proof (Z.mul_succ_div_gt (2 * numerator + denominator) (2 * denominator)).
  lia.
Qed.

End StatisticsFacts.

(** *** The chapter bucket *)

Lemma prefix_append (sep rest : string) : String.prefix sep (sep ++ rest)%string = true.
Proof.
  induction sep as [|c sep IH]; simpl.
  - now destruct rest.
  - destruct (ascii_dec c c); [exact IH|contradiction].
Qed.

Lemma prefix_inv (sep s : string) :
  String.prefix sep s = true -> exists rest, s = (sep ++ rest)%string.
Proof.
  revert s. induction sep as [|c sep IH]; intros s H.
  - now exists s.
  - destruct s as [|c' s]; simpl in H; [discriminate|].
    destruct (ascii_dec c c') as [<-|_]; [|discriminate].
    destruct (IH s H) as [rest ->]. now exists rest.
Qed.

Arguments String.prefix : simpl never.

Lemma split_head_at_separator (sep s : string) :
  String.prefix sep s = true -> JsString.split_head sep s = EmptyString.
Proof. intros H. destruct s; simpl; [reflexivity|now rewrite H]. Qed.

Lemma split_head_without_separator (sep s : string) :
  JsString.includes sep s = false -> JsString.split_head sep s = s.
Proof.
  induction s as [|c s IH]; simpl; [reflexivity|].
  destruct (String.prefix sep (String c s)); [discriminate|].
  intros H. now rewrite (IH H).
Qed.

Lemma split_head_then_separator (sep s : string) :
  JsString.includes sep s = true ->
  exists rest, s = (JsString.split_head sep s ++ sep ++ rest)%string.
Proof.
  induction s as [|c s IH]; intros H.
  - simpl in H. destruct (String.prefix sep EmptyString) eqn:E; [|discriminate].
    destruct (prefix_inv _ _ E) as [rest Hr]. now exists rest.
  - simpl in H |- *.
    destruct (String.prefix sep (String c s)) eqn:E.
    + destruct (prefix_inv _ _ E) as [rest Hr]. now exists rest.
    + destruct (IH H) as [rest Hr]. exists rest. simpl. now rewrite <- Hr.
Qed.

Lemma split_head_is_first (sep before rest : string) :
  (String.length (JsString.split_head sep (before ++ sep ++ rest)%string)
   <= String.length before)%nat.
Proof.
  induction before as [|c before IH].
  - simpl. now rewrite (split_head_at_separator _ _ (prefix_append sep rest)).
  - cbn [append JsString.split_head].
    destruct (String.prefix sep (String c (before ++ sep ++ rest)%string)); simpl; lia.
Qed.

Lemma includes_separator (sep before rest : string) :
  JsString.includes sep (before ++ sep ++ rest)%string = true.
Proof.
  induction before as [|c before IH].
  - simpl. destruct (sep ++ rest)%string eqn:E; simpl; rewrite <- E;
      now rewrite prefix_append.
  - cbn [append JsString.includes].
    destruct (String.prefix sep (String c (before ++ sep ++ rest)%string));
      [reflexivity|exact IH].
Qed.

(** *** The top chapters *)

(** The chapter counts in the order [sort] leaves them, before the first
    five are kept: a permutation of the object's entries, by falling count. *)
Lemma ranked_chapters (stats : list StatsRow) :
  Forall plain_bucket stats ->
  let ranked :=
    JsObject.sort
      (fun a b => JsObject.minus (ChapterCount.count b) (ChapterCount.count a))
      (map (fun '(chapter, count) => ChapterCount.mk chapter count)
           (JsObject.entries (fold_left count_chapter stats []))) in
  StronglySorted (fun a b => frequency (ChapterCount.chapter b) stats
                             <= frequency (ChapterCount.chapter a) stats) ranked
  /\ NoDup (map ChapterCount.chapter ranked)
  /\ (forall e, In e ranked ->
        ChapterCount.count e = JsObject.Num (frequency (ChapterCount.chapter e) stats)
        /\ 0 < frequency (ChapterCount.chapter e) stats)
  /\ (forall s, In s stats ->
        In (ChapterCount.mk (bucket s) (JsObject.Num (frequency (bucket s) stats)))
           ranked).
Proof.
  intros Hplain ranked.
  destruct (chapterCounts_entries stats Hplain) as (Hnd & Hcount & Hall).
  set (chapterCounts := fold_left count_chapter stats []) in *.
  set (pair := fun '(chapter, count) => ChapterCount.mk chapter count) in *.
  assert (Hperm : Permutation ranked (map pair chapterCounts)).
  { unfold ranked, JsObject.sort. rewrite stable_sort_perm.
    apply Permutation_map, entries_perm. }
  assert (Hkeys : map ChapterCount.chapter (map pair chapterCounts)
                  = map fst chapterCounts).
  { rewrite map_map. apply map_ext. now intros [k v]. }
  assert (Hcounted : forall e, In e (map pair chapterCounts) ->
            ChapterCount.count e
            = JsObject.Num (frequency (ChapterCount.chapter e) stats)
            /\ 0 < frequency (ChapterCount.chapter e) stats).
  { intros e He. apply in_map_iff in He as ([k v] & <- & Hin). simpl.
    now apply Hcount. }
  split; [|split; [|split]].
  - unfold ranked, JsObject.sort.
    apply (stable_sort_sorted _
             (fun e => ChapterCount.count e
                       = JsObject.Num (frequency (ChapterCount.chapter e) stats))).
    + intros x y z. lia.
    + intros x y Hx Hy H. rewrite Hx, Hy in H. simpl in H.
      apply Z.leb_le in H. lia.
    + intros x y Hx Hy H. rewrite Hx, Hy in H. simpl in H.
      apply Z.leb_gt in H. lia.
    + apply Forall_forall. intros e He. apply Hcounted.
      apply (Permutation_in _ (Permutation_map pair (entries_perm chapterCounts)) He).
  - apply (Permutation_NoDup (l := map ChapterCount.chapter (map pair chapterCounts))).
    + symmetry. now apply Permutation_map.
    + now rewrite Hkeys.
  - intros e He. apply Hcounted. apply (Permutation_in _ Hperm He).
  - intros s Hs. apply (Permutation_in _ (Permutation_sym Hperm)).
    apply in_map_iff. exists (bucket s, JsObject.Num (frequency (bucket s) stats)).
    split; [reflexivity|now apply Hall].
Qed.

(** The statistics of a set of rows none of whose buckets names a property
    of [Object.prototype]: its size, the number of rows flagged dual-use, the
    mean confidence, a finite number, rounded to the nearest integer (a half
    upwards), and at most five chapter buckets, each with its frequency, by
    falling frequency,
    no bucket twice, and no bucket left out that is more frequent than a
    listed one; the bucket of a row is its chapter label up to its first
    [" - "]. *)
Theorem statistics_of_plain_buckets (stats : list StatsRow) :
  Forall plain_bucket stats ->
  let result := statistics_of stats in
  let top := topChapters result in
  let size := Z.of_nat (length stats) in
  totalClassifications result = size
  /\ dualUseCount result = Z.of_nat (length (filter is_dual_use stats))
  /\ (stats <> [] ->
      exists average,
        averageConfidence result = Finite average
        /\ 2 * size * average
           <= 2 * total_confidence stats + size
           < 2 * size * (average + 1))
  /\ (length top <= 5)%nat
  /\ NoDup (map ChapterCount.chapter top)
  /\ StronglySorted (fun a b => frequency (ChapterCount.chapter b) stats
                                <= frequency (ChapterCount.chapter a) stats) top
  /\ (forall e, In e top ->
        ChapterCount.count e = JsObject.Num (frequency (ChapterCount.chapter e) stats)
        /\ 0 < frequency (ChapterCount.chapter e) stats)
  /\ (forall s, In s stats ->
        In (ChapterCount.mk (bucket s) (JsObject.Num (frequency (bucket s) stats))) top
        \/ (length top = 5%nat
            /\ forall e, In e top ->
                 frequency (bucket s) stats <= frequency (ChapterCount.chapter e) stats))
  /\ (forall s,
        (JsString.includes " - " (chapter s) = false -> bucket s = chapter s)
        /\ (forall before rest,
              chapter s = (before ++ " - " ++ rest)%string ->
              (exists rest', chapter s = (bucket s ++ " - " ++ rest')%string)
              /\ (String.length (bucket s) <= String.length before)%nat)).
Proof.
  intros Hplain result top size.
  destruct (ranked_chapters stats Hplain) as (Hsorted & Hnd & Hcount & Hall).
  set (ranked := JsObject.sort _ _) in *.
  assert (Htop : top = firstn 5 ranked) by reflexivity.
  assert (Hsplit : ranked = top ++ skipn 5 ranked)
    by (rewrite Htop; symmetry; apply firstn_skipn).
  rewrite Hsplit in Hsorted, Hnd.
  apply StronglySorted_app in Hsorted as [Hsorted Hcross].
  rewrite map_app in Hnd. apply NoDup_app_remove_r in Hnd.
  assert (Hin : forall e, In e top -> In e ranked).
  { intros e He. rewrite Hsplit. apply in_or_app. now left. }
  repeat match goal with |- _ /\ _ => split end.
  - reflexivity.
  - reflexivity.
  - intros Hne. unfold result, statistics_of. cbn [averageConfidence].
    fold size.
    assert (Hpos : 0 < size) by (unfold size; destruct stats; [contradiction|simpl; lia]).
    destruct (Z.ltb_spec 0 size) as [_|]; [|lia].
    rewrite total_confidence_fold. apply (Math_round_div_nearest _ _ Hpos).
  - rewrite Htop. apply firstn_le_length.
  - exact Hnd.
  - exact Hsorted.
  - intros e He. now apply Hcount, Hin.
  - intros s Hs. specialize (Hall s Hs). rewrite Hsplit in Hall.
    apply in_app_or in Hall as [Hall | Hall]; [now left|right].
    split.
    + rewrite Htop. apply firstn_length_le.
      destruct (Nat.le_gt_cases 5 (length ranked)) as [Hle|Hgt]; [exact Hle|].
      rewrite skipn_all2 in Hall by lia. contradiction.
    + intros e He. apply (Hcross e _ He Hall).
  - intros s. split; [apply split_head_without_separator|].
    intros before rest H. split.
    + destruct (split_head_then_separator " - " (chapter s)) as [rest' Hr].
      * rewrite H. apply includes_separator.
      * now exists rest'.
    + unfold bucket. rewrite H. apply split_head_is_first.
Qed.

Lemma three_rows_plain : Forall plain_bucket Samples.three_rows.
Proof. repeat constructor. Qed.

Lemma statistics_of_plain_buckets_witness :
  let result := statistics_of Samples.three_rows in
  let stats := Samples.three_rows in
  let top := topChapters result in
  let size := 3 in
  totalClassifications result = size
  /\ dualUseCount result = Z.of_nat (length (filter is_dual_use stats))
  /\ (stats <> [] ->
      exists average,
        averageConfidence result = Finite average
        /\ 2 * size * average
           <= 2 * total_confidence stats + size
           < 2 * size * (average + 1))
  /\ (length top <= 5)%nat
  /\ NoDup (map ChapterCount.chapter top)
  /\ StronglySorted (fun a b => frequency (ChapterCount.chapter b) stats
                                <= frequency (ChapterCount.chapter a) stats) top
  /\ (forall e, In e top ->
        ChapterCount.count e = JsObject.Num (frequency (ChapterCount.chapter e) stats)
        /\ 0 < frequency (ChapterCount.chapter e) stats)
  /\ (forall s, In s stats ->
        In (ChapterCount.mk (bucket s) (JsObject.Num (frequency (bucket s) stats))) top
        \/ (length top = 5%nat
            /\ forall e, In e top ->
                 frequency (bucket s) stats <= frequency (ChapterCount.chapter e) stats))
  /\ (forall s,
        (JsString.includes " - " (chapter s) = false -> bucket s = chapter s)
        /\ (forall before rest,
              chapter s = (before ++ " - " ++ rest)%string ->
              (exists rest', chapter s = (bucket s ++ " - " ++ rest')%string)
              /\ (String.length (bucket s) <= String.length before)%nat)).
Proof.
  exact (statistics_of_plain_buckets Samples.three_rows three_rows_plain).
Defined.

(** C8, evaluated on the code: the three rows of the specification's
    example give 3, 1, 90 and chapter 84 first with count 2; but the counts
    are kept in an object literal, which inherits from [Object.prototype], so
    a row whose bucket is [constructor] is not counted: its count is a text,
    and a row whose bucket is [__proto__] gets no entry at all. *)
Theorem statistics_of_prototype_bucket :
  statistics_of Samples.three_rows
  = {| totalClassifications := 3;
       dualUseCount := 1;
       averageConfidence := Finite 90;
       topChapters := [ChapterCount.mk "84" (JsObject.Num 2);
                       ChapterCount.mk "85" (JsObject.Num 1)] |}
  /\ frequency "constructor" [mkStatsRow 80 false "constructor - Building"] = 1
  /\ statistics_of [mkStatsRow 80 false "constructor - Building"]
     = {| totalClassifications := 1;
          dualUseCount := 0;
          averageConfidence := Finite 80;
          topChapters :=
            [ChapterCount.mk "constructor"
               (JsObject.Text "function Object() { [native code] }1")] |}
  /\ statistics_of [mkStatsRow 80 false "__proto__ - Prototypes"]
     = {| totalClassifications := 1;
          dualUseCount := 0;
          averageConfidence := Finite 80;
          topChapters := [] |}.
Proof. repeat split. Qed.

Section EmptyStore.

Variable supabase : Supabase.

(** C10: on a store without rows the statistics operation returns zero
    classifications, zero dual-use rows, the average 0, a finite number, and
    no chapter; it does not throw.  The quotient of the mean is not taken
    there: taken for no rows, it is [NaN]. *)
Theorem getStatistics_empty_store (w : World Session) (count : option Z) :
  projection supabase (length (store w))
    [From_ "classifications"; Select "confidence, is_dual_use, chapter" false]
  = mkResponse (Some []) None count ->
  getStatistics supabase w
  = (Return {| totalClassifications := 0;
               dualUseCount := 0;
               averageConfidence := Finite 0;
               topChapters := [] |},
     mkWorld (store w ++ [[From_ "classifications";
                           Select "confidence, is_dual_use, chapter" false]])
             (timers w))
  /\ Math_round_div (fold_left (fun sum s => sum + confidence s) [] 0)
                    (Z.of_nat (length ([] : list StatsRow)))
     = NaN.
Proof.
  intros Hrows. split; [|reflexivity].
  unfold getStatistics, bind, await_projection.
  rewrite send_run, Hrows. reflexivity.
Qed.

End EmptyStore.

Lemma getStatistics_empty_store_witness :
  getStatistics (Samples.unreachable_for 0) Samples.fresh
  = (Return {| totalClassifications := 0;
               dualUseCount := 0;
               averageConfidence := Finite 0;
               topChapters := [] |},
     mkWorld [[From_ "classifications";
               Select "confidence, is_dual_use, chapter" false]] [])
  /\ Math_round_div (fold_left (fun sum s => sum + confidence s) [] 0)
                    (Z.of_nat (length ([] : list StatsRow)))
     = NaN.
Proof.
  apply (getStatistics_empty_store (Samples.unreachable_for 0) Samples.fresh (Some 0)).
  reflexivity.
Defined.

(* ===================================================================== *)
(** ** The classification handler *)
(* ===================================================================== *)

Section Handler.

Variable JSON_parse : string -> JsValue + string.
Variable supabase : Supabase.

(** What [classifyProduct] returns is an object with a truthy [hsCode]. *)
Lemma classifyProduct_returns_object completion classification :
  OpenAI.classifyProduct JSON_parse completion = Return classification ->
  exists members,
    classification = JObject members /\ truthy (lookup "hsCode" members) = true.
Proof.
  unfold OpenAI.classifyProduct, OpenAI.classification_failed.
  destruct completion as [[[|c response]|]|e]; try discriminate.
  destruct (OpenAI.json_match _) as [jsonMatch|]; [|discriminate].
  destruct (JSON_parse jsonMatch) as [parsed|]; [|discriminate].
  destruct (OpenAI.incomplete parsed) as [[|]|] eqn:E; try discriminate.
  intros H. injection H as <-.
  unfold OpenAI.incomplete in E.
  destruct parsed as [| | | | |members]; simpl in E; try discriminate.
  exists members. split; [reflexivity|].
  now destruct (truthy (lookup "hsCode" members)).
Qed.

(** C9: when the classification succeeds with a string as HS code, so that
    the links are generated and the save is attempted, and the save fails,
    whatever the error, the entry built from the classification is put in
    front of the displayed results, the error message stays cleared and
    loading ends. *)
Theorem handleClassification_keeps_result
    (completion : Result (option string)) (now today : Z)
    (productName : string) (customerName : option string)
    (ui : App.State) (w w' : World Session)
    (members : list (string * JsValue)) (hsCode : string) (dbError : Thrown) :
  OpenAI.classifyProduct JSON_parse completion = Return (JObject members) ->
  lookup "hsCode" members = Some (JString hsCode) ->
  let links := OpenAI.generateWTOLink hsCode in
  let member key := lookup key members in
  saveClassification supabase
    (mkInsert productName customerName (member "hsCode") (member "chapter")
       (member "description") (member "confidence") (member "isDualUse")
       (member "reasoning") (Some links)) w
  = (Throw dbError, w') ->
  App.handleClassification JSON_parse supabase completion now today
    productName customerName ui w
  = (App.mkState
       ({| App.id := App.Number_toString now;
           App.productName := productName;
           App.hsCode := member "hsCode";
           App.chapter := member "chapter";
           App.description := member "description";
           App.confidence := member "confidence";
           App.wtoLink := OpenAI.search links;
           App.isDualUse := member "isDualUse";
           App.timestamp := today;
           App.customerName := customerName;
           App.reasoning := member "reasoning";
           App.links := links |} :: App.results ui)
       false None,
     w').
Proof.
  intros Hclassified Hcode links member Hsave.
  unfold App.handleClassification, App.classify_and_save, App.try_catch,
    App.eval, bind, ret.
  rewrite Hclassified. cbn [get_member]. rewrite Hcode.
  cbn [OpenAI.generateWTOLink_any]. fold links.
  rewrite <- Hcode. fold (member "hsCode") (member "chapter")
    (member "description") (member "confidence") (member "isDualUse")
    (member "reasoning").
  rewrite Hsave. reflexivity.
Qed.

End Handler.

Lemma handleClassification_keeps_result_witness :
  let links := OpenAI.generateWTOLink "8471.30.01" in
  let member key := lookup key Samples.laptop_members in
  App.handleClassification Json.parse Samples.refusing
    (Return (Some Samples.laptop_json)) 1700000000000 1700000000001
    "Dell XPS 13 laptop" (Some "Dell") (App.mkState [] false (Some "earlier error"))
    Samples.fresh
  = (App.mkState
       [{| App.id := "1700000000000";
           App.productName := "Dell XPS 13 laptop";
           App.hsCode := Some (JString "8471.30.01");
           App.chapter := Some (JString "84 - Machines");
           App.description := Some (JString "Portable computers");
           App.confidence := Some (JNumber 185 0);
           App.wtoLink := OpenAI.search links;
           App.isDualUse := Some (JBool false);
           App.timestamp := 1700000000001;
           App.customerName := Some "Dell"%string;
           App.reasoning := Some (JString "Laptop");
           App.links := links |}]
       false None,
     mkWorld
       [[From_ "classifications";
         Insert [mkInsert "Dell XPS 13 laptop" (Some "Dell"%string) (member "hsCode")
                   (member "chapter") (member "description") (member "confidence")
                   (member "isDualUse") (member "reasoning") (Some links)];
         Select "*" false; Single]]
       []).
Proof.
  apply (handleClassification_keeps_result Json.parse Samples.refusing
           (Return (Some Samples.laptop_json)) 1700000000000 1700000000001
           "Dell XPS 13 laptop" (Some "Dell"%string)
           (App.mkState [] false (Some "earlier error"%string)) Samples.fresh
           (mkWorld
              [[From_ "classifications";
                Insert [mkInsert "Dell XPS 13 laptop" (Some "Dell"%string)
                          (lookup "hsCode" Samples.laptop_members)
                          (lookup "chapter" Samples.laptop_members)
                          (lookup "description" Samples.laptop_members)
                          (lookup "confidence" Samples.laptop_members)
                          (lookup "isDualUse" Samples.laptop_members)
                          (lookup "reasoning" Samples.laptop_members)
                          (Some (OpenAI.generateWTOLink "8471.30.01"))];
                Select "*" false; Single]]
              [])
           Samples.laptop_members "8471.30.01"
           (JsError "Failed to save classification: permission denied for table classifications"));
    reflexivity.
Defined.

(* ===================================================================== *)
(** ** Further properties *)
(* ===================================================================== *)

(** Saving sends the insert between one and three times, and nothing else. *)
Theorem saveClassification_requests
    (supabase : Supabase) (classification : ClassificationInsert) (w : World Session) :
  exists r k ts,
    (1 <= k <= 3)%nat
    /\ saveClassification supabase classification w
       = (r, mkWorld
               (store w
                ++ repeat [From_ "classifications"; Insert [classification];
                           Select "*" false; Single] k)
               ts).
Proof.
  unfold saveClassification. apply retryOperation_requests.
  intros w'. unfold bind, await_single. rewrite send_run.
  destruct (single supabase _ _) as [data [error|] count]; eexists; reflexivity.
Qed.

(** When the classification fails, the handler shows the message of the
    error, leaves the displayed results as they were and sends nothing to the
    store. *)
Theorem handleClassification_failure
    (JSON_parse : string -> JsValue + string) (supabase : Supabase)
    (completion : Result (option string)) (now today : Z)
    (productName : string) (customerName : option string)
    (ui : App.State) (w : World Session) (err : Thrown) :
  OpenAI.classifyProduct JSON_parse completion = Throw err ->
  App.handleClassification JSON_parse supabase completion now today
    productName customerName ui w
  = (App.mkState (App.results ui) false (Some (message_or "Classification failed" err)),
     w).
Proof.
  intros H. unfold App.handleClassification, App.classify_and_save, App.eval, bind.
  now rewrite H.
Qed.

Lemma handleClassification_failure_witness :
  App.handleClassification Json.parse Samples.refusing
    (Return (Some "I cannot classify this product."%string)) 0 0
    "widget" None (App.mkState [] false None) Samples.fresh
  = (App.mkState [] false
       (Some "Classification failed: Invalid JSON response from OpenAI"%string),
     Samples.fresh).
Proof.
  apply (handleClassification_failure Json.parse Samples.refusing
           (Return (Some "I cannot classify this product."%string)) 0 0
           "widget" None (App.mkState [] false None) Samples.fresh
           (JsError "Classification failed: Invalid JSON response from OpenAI")).
  reflexivity.
Defined.

(** When the classification succeeds with an HS code that is not a string,
    the links cannot be generated: the handler shows the message of the
    [TypeError], displays no new result and sends nothing to the store. *)
Theorem handleClassification_code_not_a_string
    (JSON_parse : string -> JsValue + string) (supabase : Supabase)
    (completion : Result (option string)) (now today : Z)
    (productName : string) (customerName : option string)
    (ui : App.State) (w : World Session)
    (members : list (string * JsValue)) (mantissa exponent : Z) :
  OpenAI.classifyProduct JSON_parse completion = Return (JObject members) ->
  lookup "hsCode" members = Some (JNumber mantissa exponent) ->
  App.handleClassification JSON_parse supabase completion now today
    productName customerName ui w
  = (App.mkState (App.results ui) false
       (Some "hsCode.substring is not a function"%string),
     w).
Proof.
  intros Hclassified Hcode.
  unfold App.handleClassification, App.classify_and_save, App.eval, bind.
  rewrite Hclassified. cbn [get_member]. now rewrite Hcode.
Qed.

Lemma handleClassification_code_not_a_string_witness :
  App.handleClassification Json.parse Samples.refusing
    (Return (Some Samples.numeric_code_json)) 0 0
    "laptop" None (App.mkState [] false None) Samples.fresh
  = (App.mkState [] false (Some "hsCode.substring is not a function"%string),
     Samples.fresh).
Proof.
  apply (handleClassification_code_not_a_string Json.parse Samples.refusing
           (Return (Some Samples.numeric_code_json)) 0 0
           "laptop" None (App.mkState [] false None) Samples.fresh
           [("hsCode", JNumber 84713001 0); ("chapter", JString "84 - Machines");
            ("description", JString "Portable computers")]
           84713001 0); reflexivity.
Defined.

(* ===================================================================== *)
(** ** The retry wrapper, in general *)
(* ===================================================================== *)

(** Whatever the operation does, the retry wrapper makes some number of
    waits, at most [retries]; the waits start at [delay] and each is one and
    a half times the one before; the operation runs once more than there are
    waits, every attempt but the last threw a fetch failure, the outcome is
    that of the last attempt, and the wrapper stops before its retries are
    used up only on a value or on an error that is not a fetch failure. *)
Theorem retryOperation_schedule {St T : Type}
    (f : St -> Result T * St) (retries : nat) (delay : float)
    (s : St) (ts : list float) :
  exists waits,
    (waits <= retries)%nat
    /\ retryOperation (on_store f) retries delay (mkWorld s ts)
       = (fst (f (after_attempts f waits s)),
          mkWorld (snd (f (after_attempts f waits s))) (ts ++ backoff delay waits))
    /\ (forall i, (i < waits)%nat ->
          exists e, fst (f (after_attempts f i s)) = Throw e /\ transient e = true)
    /\ ((waits < retries)%nat ->
        match fst (f (after_attempts f waits s)) with
        | Return _ => True
        | Throw e => transient e = false
        end).
Proof.
  revert delay s ts.
  induction retries as [|retries IH]; intros delay s ts.
  - exists 0%nat. split; [lia|]. split; [|split; [intros i Hi; lia|intros Hi; lia]].
    simpl. rewrite on_store_run, app_nil_r. now destruct (fst (f s)).
  - destruct (f s) as [r s1] eqn:Hf.
    destruct r as [value|error].
    + exists 0%nat. split; [lia|]. simpl after_attempts. rewrite Hf. simpl fst; simpl snd.
      split; [|split; [intros i Hi; lia|trivial]].
      simpl backoff. rewrite app_nil_r.
      apply retryOperation_returns. now rewrite on_store_run, Hf.
    + destruct (transient error) eqn:Ht.
      * destruct (IH (delay * 1.5)%float s1 (ts ++ [delay]))
          as (waits & Hle & Hrun & Hbefore & Hstop).
        exists (S waits). split; [lia|].
        simpl after_attempts. rewrite Hf. simpl snd.
        split; [|split].
        -- rewrite (retryOperation_retries _ _ _ _ error (mkWorld s1 ts));
             [|now rewrite on_store_run, Hf|exact Ht].
           cbn [store timers]. rewrite Hrun. simpl backoff.
           now rewrite <- app_assoc.
        -- intros [|i] Hi.
           ++ exists error. simpl. now rewrite Hf.
           ++ simpl. rewrite Hf. apply Hbefore. lia.
        -- intros Hlt. apply Hstop. lia.
      * exists 0%nat. split; [lia|]. simpl after_attempts. rewrite Hf.
        simpl fst; simpl snd.
        split; [|split; [intros i Hi; lia|intros _; exact Ht]].
        simpl backoff. rewrite app_nil_r.
        apply retryOperation_gives_up; [|exact Ht]. now rewrite on_store_run, Hf.
Qed.

(* ===================================================================== *)
(** ** Trimming *)
(* ===================================================================== *)

Lemma trim_start_all_white (s : string) :
  all_white s = true -> JsString.trim_start s = EmptyString.
Proof.
  induction s as [|c s IH]; simpl; [reflexivity|].
  intros H. apply andb_true_iff in H as [Hc Hs]. rewrite Hc. now apply IH.
Qed.

Lemma trim_end_all_white (s : string) :
  all_white s = true -> JsString.trim_end s = EmptyString.
Proof.
  induction s as [|c s IH]; simpl; [reflexivity|].
  intros H. apply andb_true_iff in H as [Hc Hs]. now rewrite (IH Hs), Hc.
Qed.

Lemma trim_end_empty (s : string) :
  JsString.trim_end s = EmptyString -> all_white s = true.
Proof.
  induction s as [|c s IH]; simpl; [reflexivity|].
  destruct (JsString.trim_end s) as [|k kept]; [|discriminate].
  destruct (JsString.is_white_space c); [|discriminate].
  intros _. now rewrite IH.
Qed.

Lemma trim_start_empty (s : string) :
  JsString.trim_start s = EmptyString -> all_white s = true.
Proof.
  induction s as [|c s IH]; simpl; [reflexivity|].
  destruct (JsString.is_white_space c); [|discriminate].
  intros H. now rewrite IH.
Qed.

Lemma trim_empty (s : string) :
  JsString.trim s = EmptyString <-> all_white s = true.
Proof.
  unfold JsString.trim. split.
  - intros H. apply trim_end_empty in H.
    induction s as [|c s IH]; simpl in *; [reflexivity|].
    destruct (JsString.is_white_space c) eqn:Hc; simpl.
    + now apply IH.
    + simpl in H. now rewrite Hc in H.
  - intros H. now rewrite (trim_start_all_white _ H).
Qed.

Lemma trim_start_append (pad s : string) :
  all_white pad = true ->
  JsString.trim_start (pad ++ s) = JsString.trim_start s.
Proof.
  induction pad as [|c pad IH]; simpl; [reflexivity|].
  intros H. apply andb_true_iff in H as [Hc Hp]. rewrite Hc. now apply IH.
Qed.

Lemma trim_end_append (s pad : string) :
  all_white pad = true ->
  JsString.trim_end (s ++ pad) = JsString.trim_end s.
Proof.
  intros H. induction s as [|c s IH]; simpl.
  - now apply trim_end_all_white.
  - now rewrite IH.
Qed.

Lemma all_white_append (a b : string) :
  all_white (a ++ b) = all_white a && all_white b.
Proof.
  induction a as [|c a IH]; simpl; [reflexivity|].
  now rewrite IH, andb_assoc.
Qed.

Lemma trim_start_keeps_tail (s pad : string) :
  all_white s = false ->
  JsString.trim_start (s ++ pad) = (JsString.trim_start s ++ pad)%string.
Proof.
  induction s as [|c s IH]; simpl; [discriminate|].
  destruct (JsString.is_white_space c); simpl; [exact IH|reflexivity].
Qed.

(** White space around a text does not change what [trim] gives. *)
Lemma trim_padding (before s after : string) :
  all_white before = true -> all_white after = true ->
  JsString.trim (before ++ s ++ after) = JsString.trim s.
Proof.
  intros Hb Ha. unfold JsString.trim. rewrite (trim_start_append _ _ Hb).
  destruct (all_white s) eqn:Hs.
  - rewrite (trim_start_all_white s Hs).
    rewrite trim_start_all_white; [reflexivity|].
    now rewrite all_white_append, Hs, Ha.
  - rewrite (trim_start_keeps_tail _ _ Hs). now apply trim_end_append.
Qed.

(** What [trim_start] gives does not start with white space. *)
Lemma trim_start_fixed (s : string) :
  JsString.trim_start (JsString.trim_start s) = JsString.trim_start s.
Proof.
  induction s as [|c s IH]; simpl; [reflexivity|].
  destruct (JsString.is_white_space c) eqn:Hc; [exact IH|].
  simpl. now rewrite Hc.
Qed.

Lemma trim_end_fixed (s : string) :
  JsString.trim_end (JsString.trim_end s) = JsString.trim_end s.
Proof.
  induction s as [|c s IH]; simpl; [reflexivity|].
  destruct (JsString.trim_end s) as [|k kept] eqn:E.
  - destruct (JsString.is_white_space c) eqn:Hc; simpl; [reflexivity|now rewrite Hc].
  - simpl in IH |- *. now rewrite IH.
Qed.

Lemma trim_end_keeps_head (c : ascii) (s : string) :
  JsString.is_white_space c = false ->
  exists kept, JsString.trim_end (String c s) = String c kept.
Proof.
  intros Hc. simpl. destruct (JsString.trim_end s) as [|k kept].
  - rewrite Hc. now eexists.
  - now eexists.
Qed.

(** Trimming twice is trimming once. *)
Lemma trim_fixed (s : string) :
  JsString.trim (JsString.trim s) = JsString.trim s.
Proof.
  unfold JsString.trim.
  assert (H : JsString.trim_start (JsString.trim_end (JsString.trim_start s))
              = JsString.trim_end (JsString.trim_start s)).
  { pose proof (trim_start_fixed s) as Hfix.
    destruct (JsString.trim_start s) as [|c t] eqn:E; [reflexivity|].
    simpl in Hfix. destruct (JsString.is_white_space c) eqn:Hc.
    - exfalso. clear Hfix. revert E. clear -Hc.
      induction s as [|x s IH]; simpl; [discriminate|].
      destruct (JsString.is_white_space x) eqn:Hx; [exact IH|].
      intros [= -> _]. congruence.
    - destruct (trim_end_keeps_head c t Hc) as [kept ->].
      simpl. now rewrite Hc. }
  rewrite H. apply trim_end_fixed.
Qed.

(* ===================================================================== *)
(** ** The list/query operation: pagination, blank terms *)
(* ===================================================================== *)

Lemma list_query_parts (options : Options) :
  exists search dual,
    list_query (Some options)
    = [From_ "classifications"; Select "*" true] ++ search ++ dual
      ++ [Order (column_of match sortBy options with Some c => c | None => created_at end)
                match match sortOrder options with Some o => o | None => desc end with
                | asc => true
                | desc => false
                end]
      ++ match present (limit options) with Some n => [Limit n] | None => [] end
      ++ match present (offset options) with
         | Some from =>
             [Range from
                (from + match present (limit options) with
                        | Some n => n
                        | None => 50%float
                        end
                 - 1)%float]
         | None => []
         end
    /\ (forall call, In call search -> is_search_filter call = true)
    /\ (forall call, In call dual -> call = Eq "is_dual_use" (SBool true)).
Proof.
  unfold list_query.
  eexists. eexists. split; [reflexivity|]. split.
  - intros call. destruct (searchTerm options) as [[|c term]|]; simpl; try tauto.
    destruct (matches_hs_code _); simpl; intros [<- | []]; reflexivity.
  - intros call. destruct (dualUseOnly options) as [[|]|]; simpl; try tauto.
    intros [<- | []]. reflexivity.
Qed.

Lemma present_some (x : option float) (n : float) :
  present x = Some n <-> x = Some n /\ falsy n = false.
Proof.
  unfold present. destruct x as [z|].
  - destruct (falsy z) eqn:Hz.
    + split; [discriminate|]. intros [H Hn]. injection H as <-. congruence.
    + split.
      * intros H. injection H as <-. now split.
      * now intros [H _].
  - split; [discriminate|intros [H _]; discriminate].
Qed.

(** Pagination of the list/query operation: a limit that is left out, zero
    or [NaN] puts no limit on the query; an offset that is left out, zero or
    [NaN] puts no range on it; any other offset asks for the rows from the
    offset up to the offset plus the limit, or plus 50 when there is no limit,
    less one, as binary64 computes it; and the query is ordered once, newest
    first unless the options say otherwise. *)
Theorem list_query_pagination (options : Options) :
  let query := list_query (Some options) in
  let size := match present (limit options) with Some n => n | None => 50%float end in
  (forall n, In (Limit n) query <-> limit options = Some n /\ falsy n = false)
  /\ (forall from to,
        In (Range from to) query
        <-> offset options = Some from /\ falsy from = false
            /\ to = (from + size - 1)%float)
  /\ (forall column ascending,
        In (Order column ascending) query
        <-> column = column_of match sortBy options with
                               | Some c => c
                               | None => created_at
                               end
            /\ ascending = match sortOrder options with Some asc => true | _ => false end).
Proof.
  intros query size.
  destruct (list_query_parts options) as (search & dual & Hq & Hsearch & Hdual).
  assert (Hin : forall call,
            In call query <->
            call = From_ "classifications" \/ call = Select "*" true
            \/ In call search \/ In call dual
            \/ call = Order (column_of match sortBy options with
                                       | Some c => c
                                       | None => created_at
                                       end)
                            match sortOrder options with Some asc => true | _ => false end
            \/ (exists n, present (limit options) = Some n /\ call = Limit n)
            \/ (exists from, present (offset options) = Some from
                             /\ call = Range from (from + size - 1)%float)).
  { intros call. unfold query. rewrite Hq. simpl. rewrite !in_app_iff. simpl.
    replace (match match sortOrder options with Some o => o | None => desc end with
             | asc => true
             | desc => false
             end)
      with (match sortOrder options with Some asc => true | _ => false end)
      by now destruct (sortOrder options) as [[|]|].
    fold size.
    destruct (present (limit options)) as [n|];
      destruct (present (offset options)) as [o|]; simpl;
      intuition (try discriminate; try (now eauto); try congruence);
      repeat match goal with
             | H : exists _, _ |- _ => destruct H as (? & ? & ?)
             end;
      try discriminate;
      repeat match goal with
             | H : Some _ = Some _ |- _ => injection H as <-
             end; subst; tauto. }
  assert (Hno_s : forall call, is_search_filter call = false -> ~ In call search).
  { intros call Hc H. apply Hsearch in H. congruence. }
  assert (Hno_d : forall call, call <> Eq "is_dual_use" (SBool true) -> ~ In call dual).
  { intros call Hc H. apply Hdual in H. contradiction. }
  split; [|split].
  - intros n. rewrite Hin, <- present_some. split.
    + intros [H|[H|[H|[H|[H|[(m & Hm & H)|(o & Ho & H)]]]]]]; try discriminate.
      * now apply Hno_s in H.
      * apply Hno_d in H; [contradiction|discriminate].
      * now injection H as ->.
    + intros H. do 5 right. left. now exists n.
  - intros from to. rewrite Hin. split.
    + intros [H|[H|[H|[H|[H|[(m & Hm & H)|(o & Ho & H)]]]]]]; try discriminate.
      * now apply Hno_s in H.
      * apply Hno_d in H; [contradiction|discriminate].
      * injection H as -> ->. apply present_some in Ho as [Ho Hne].
        repeat split; [exact Ho|exact Hne].
    + intros (Ho & Hne & ->). do 6 right. exists from. split.
      * now apply present_some.
      * reflexivity.
  - intros column ascending. rewrite Hin. split.
    + intros [H|[H|[H|[H|[H|[(m & Hm & H)|(o & Ho & H)]]]]]]; try discriminate.
      * now apply Hno_s in H.
      * apply Hno_d in H; [contradiction|discriminate].
      * now injection H as -> ->.
    + intros [-> ->]. do 4 right. now left.
Qed.

(** A page of 20 from row 100 is the range 100..119; the offset zero puts no
    range on the query; and from row 2^53 on, where binary64 holds the even
    integers only, 50 rows are asked for as the range up to 2^53 + 48. *)
Example list_query_ranges :
  list_query (Some (mkOptions (Some 20%float) (Some 100%float) None None None None))
  = [From_ "classifications"; Select "*" true; Order "created_at" false;
     Limit 20%float; Range 100%float 119%float]
  /\ list_query (Some (mkOptions (Some 20%float) (Some 0%float) None None None None))
     = [From_ "classifications"; Select "*" true; Order "created_at" false;
        Limit 20%float]
  /\ list_query (Some (mkOptions None (Some 9007199254740992%float) None None None None))
     = [From_ "classifications"; Select "*" true; Order "created_at" false;
        Range 9007199254740992%float 9007199254741040%float].
Proof. repeat split. Qed.

(** White space around a search term does not change the query; a term of
    nothing but white space is still a search, for the empty pattern in the
    three columns. *)
Theorem list_query_trims_term (options : Options) (before term after : string) :
  term <> ""%string ->
  all_white before = true ->
  all_white after = true ->
  let searching t :=
    list_query (Some (mkOptions (limit options) (offset options) (Some t)
                                (dualUseOnly options) (sortBy options)
                                (sortOrder options))) in
  searching (before ++ term ++ after)%string = searching term
  /\ (all_white term = true ->
      filter is_search_filter (searching term)
      = [Or_ "product_name.ilike.%%,customer_name.ilike.%%,hs_code.ilike.%%"]).
Proof.
  intros Hne Hb Ha searching. split.
  - assert (Hpadded : (before ++ term ++ after)%string <> ""%string).
    { destruct before; [destruct term; [contradiction|discriminate]|discriminate]. }
    pose proof (trim_padding before term after Hb Ha) as Htrim.
    unfold searching, list_query. cbn [searchTerm limit offset dualUseOnly sortBy sortOrder].
    destruct (before ++ term ++ after)%string as [|c padded]; [contradiction|].
    destruct term as [|c' term]; [contradiction|].
    now rewrite Htrim.
  - intros Hw. unfold searching.
    rewrite (list_query_search_filters
               (mkOptions (limit options) (offset options) (Some term)
                          (dualUseOnly options) (sortBy options) (sortOrder options))
               term eq_refl Hne).
    apply trim_empty in Hw. now rewrite Hw.
Qed.

Lemma list_query_trims_term_witness :
  list_query (Some (mkOptions None None (Some "  router ") None None None))
  = list_query (Some (mkOptions None None (Some "router") None None None))
  /\ (all_white "router" = true ->
      filter is_search_filter
        (list_query (Some (mkOptions None None (Some "router") None None None)))
      = [Or_ "product_name.ilike.%%,customer_name.ilike.%%,hs_code.ilike.%%"]).
Proof.
  apply (list_query_trims_term (mkOptions None None None None None None)
           "  " "router" " "); [discriminate|reflexivity|reflexivity].
Defined.

(* ===================================================================== *)
(** ** The reads that are not retried *)
(* ===================================================================== *)

(** Whatever the store answers, each read other than the list/query operation
    sends one request, on the [classifications] table, and never waits; and
    the similar-product query and the three pattern searches never throw. *)
Theorem gateway_reads_ask_once
    (supabase : Supabase) (w : World Session)
    (productName hsCode customerName hsCodePattern customerPattern id : string)
    (limit : option float) :
  Forall (fun after : World Session =>
            exists columns query,
              after = mkWorld (store w ++ [From_ "classifications"
                                           :: Select columns false :: query])
                              (timers w))
    [snd (findSimilarProducts supabase productName limit w);
     snd (searchProductsByName supabase productName limit w);
     snd (searchByHSCodePattern supabase hsCodePattern w);
     snd (searchCustomersByPattern supabase customerPattern w);
     snd (getClassificationsByHSCode supabase hsCode w);
     snd (getClassificationsByCustomer supabase customerName w);
     snd (getDualUseClassifications supabase w);
     snd (getClassificationById supabase id w);
     snd (getStatistics supabase w)]
  /\ Forall (fun outcome : Result (list ClassificationRecord) =>
               is_return outcome = true)
       [fst (findSimilarProducts supabase productName limit w);
        fst (searchProductsByName supabase productName limit w);
        fst (searchByHSCodePattern supabase hsCodePattern w);
        fst (searchCustomersByPattern supabase customerPattern w)].
Proof.
  unfold findSimilarProducts, searchProductsByName, searchByHSCodePattern,
    searchCustomersByPattern, getClassificationsByHSCode,
    getClassificationsByCustomer, getDualUseClassifications,
    getClassificationById, getStatistics, bind,
    await_many, await_single, await_projection.
  rewrite !send_run.
  split; repeat constructor;
    match goal with
    | |- context [?answer supabase ?n ?q] =>
        destruct (answer supabase n q) as [data [failure|] count]
    end;
    try (destruct (String.eqb (code failure) "PGRST116"));
    try (destruct data);
    try reflexivity; eexists; eexists; reflexivity.
Qed.

(** A row that does not exist is not an error for the lookup by id: the
    store's error code [PGRST116] gives [null]; the lookup throws exactly when
    the store reports an error with another code, and then the message names
    the operation; without an error it returns what the store sent. *)
Theorem getClassificationById_not_found
    (supabase : Supabase) (id : string) (w : World Session) :
  let answer :=
    single supabase (length (store w))
           [From_ "classifications"; Select "*" false; Eq "id" (SString id); Single] in
  let outcome := fst (getClassificationById supabase id w) in
  (forall data failure count,
      answer = mkResponse data (Some failure) count ->
      code failure = "PGRST116"%string ->
      outcome = Return None)
  /\ (forall thrown,
        outcome = Throw thrown
        <-> exists data failure count,
              answer = mkResponse data (Some failure) count
              /\ code failure <> "PGRST116"%string
              /\ thrown = JsError ("Failed to fetch classification: "
                                   ++ message failure)%string)
  /\ (forall data count,
        answer = mkResponse data None count -> outcome = Return data).
Proof.
  intros answer outcome.
  unfold outcome, getClassificationById, bind, await_single.
  rewrite send_run. fold answer.
  destruct answer as [data [failure|] count]; cbn [fst].
  - destruct (String.eqb_spec (code failure) "PGRST116") as [E|E].
    + split; [reflexivity|]. split; [|discriminate].
      intros thrown. split; [discriminate|].
      intros (d & f & c & H & Hne & _). injection H as _ <- _. contradiction.
    + split.
      { intros d f c H Hc. injection H as _ <- _. contradiction. }
      split; [|discriminate].
      intros thrown. split.
      * intros H. injection H as <-. now exists data, failure, count.
      * intros (d & f & c & H & _ & ->). now injection H as _ <- _.
  - split; [discriminate|]. split.
    + intros thrown. split; [discriminate|].
      intros (d & f & c & H & _). discriminate.
    + intros d c H. now injection H as <- _.
Qed.

(** Against a store that has no such row, the lookup returns [null] after
    one request. *)
Example getClassificationById_no_such_row :
  getClassificationById Samples.no_such_row "42" Samples.fresh
  = (Return None,
     mkWorld [[From_ "classifications"; Select "*" false; Eq "id" (SString "42");
               Single]] []).
Proof. reflexivity. Qed.

(* ===================================================================== *)
(** ** The statistics: ranges and totals *)
(* ===================================================================== *)

Lemma Math_round_div_between (numerator denominator lo hi : Z) :
  0 < denominator ->
  denominator * lo <= numerator <= denominator * hi ->
  exists rounded,
    Math_round_div numerator denominator = Finite rounded /\ lo <= rounded <= hi.
Proof.
  intros Hpos Hrange.
  destruct (Math_round_div_nearest numerator denominator Hpos) as (rounded & E & H).
  exists rounded. split; [exact E|nia].
Qed.

Lemma total_confidence_between (stats : list StatsRow) (lo hi : Z) :
  Forall (fun s => lo <= confidence s <= hi) stats ->
  Z.of_nat (length stats) * lo <= total_confidence stats
  <= Z.of_nat (length stats) * hi.
Proof.
  unfold total_confidence.
  induction 1 as [|s stats Hs _ IH]; [simpl; lia|].
  cbn [map fold_right length]. rewrite Nat2Z.inj_succ. nia.
Qed.

(** Whatever the rows, the dual-use count is between zero and the number of
    rows; and the average confidence is a finite number that lies between any
    two bounds that every row's confidence lies between (it is zero for no
    rows): confidences in 0..100 give an average in 0..100. *)
Theorem statistics_of_ranges (stats : list StatsRow) (lo hi : Z) :
  Forall (fun s => lo <= confidence s <= hi) stats ->
  let result := statistics_of stats in
  0 <= dualUseCount result <= totalClassifications result
  /\ (stats <> [] ->
      exists average,
        averageConfidence result = Finite average /\ lo <= average <= hi)
  /\ (stats = [] -> averageConfidence result = Finite 0).
Proof.
  intros Hrange result. split; [|split].
  - unfold result, statistics_of. cbn [dualUseCount totalClassifications].
    pose proof (filter_length_le (fun s => is_dual_use s) stats). lia.
  - intros Hne. unfold result, statistics_of. cbn [averageConfidence].
    assert (Hpos : 0 < Z.of_nat (length stats))
      by (destruct stats; [contradiction|simpl; lia]).
    destruct (Z.ltb_spec 0 (Z.of_nat (length stats))) as [_|]; [|lia].
    rewrite total_confidence_fold.
    apply (Math_round_div_between _ _ _ _ Hpos).
    now apply total_confidence_between.
  - now intros ->.
Qed.

Lemma statistics_of_ranges_witness :
  let result := statistics_of Samples.three_rows in
  0 <= dualUseCount result <= totalClassifications result
  /\ (Samples.three_rows <> [] ->
      exists average,
        averageConfidence result = Finite average /\ 0 <= average <= 100)
  /\ (Samples.three_rows = [] -> averageConfidence result = Finite 0).
Proof.
  apply (statistics_of_ranges Samples.three_rows 0 100).
  repeat constructor; simpl; lia.
Defined.

(** *** What the listed counts add up to *)

Lemma frequency_cons (k : string) (s : StatsRow) (stats : list StatsRow) :
  frequency k (s :: stats)
  = (if String.eqb (bucket s) k then 1 else 0) + frequency k stats.
Proof.
  unfold frequency. simpl. destruct (String.eqb (bucket s) k); simpl length; lia.
Qed.

Lemma frequency_occurs (k : string) (stats : list StatsRow) :
  0 < frequency k stats -> In k (map bucket stats).
Proof.
  induction stats as [|s stats IH]; [unfold frequency; simpl; lia|].
  rewrite frequency_cons. simpl.
  destruct (String.eqb_spec (bucket s) k) as [->|_]; [now left|].
  intros H. right. apply IH. lia.
Qed.

(** One key among distinct keys is counted once. *)
Lemma indicator_total (b : string) (keys : list string) :
  NoDup keys -> In b keys ->
  fold_right Z.add 0 (map (fun k => if String.eqb b k then 1 else 0) keys) = 1.
Proof.
  induction 1 as [|k keys Hk Hnd IH]; simpl; [tauto|].
  assert (Hzero : forall l, ~ In b l ->
            fold_right Z.add 0 (map (fun k => if String.eqb b k then 1 else 0) l) = 0).
  { induction l as [|x l IHl]; simpl; [reflexivity|]. intros Hn.
    destruct (String.eqb_spec b x) as [->|_]; [tauto|].
    rewrite IHl; tauto. }
  destruct (String.eqb_spec b k) as [->|Hne].
  - intros _. now rewrite (Hzero _ Hk).
  - intros [E|Hin]; [congruence|]. now rewrite IH.
Qed.

(** The frequencies of distinct keys that cover the buckets of the rows add
    up to the number of rows. *)
Lemma frequencies_total (keys : list string) (stats : list StatsRow) :
  NoDup keys ->
  (forall s, In s stats -> In (bucket s) keys) ->
  fold_right Z.add 0 (map (fun k => frequency k stats) keys)
  = Z.of_nat (length stats).
Proof.
  intros Hnd. induction stats as [|s stats IH]; intros Hcover.
  - simpl. induction keys as [|k keys IHk]; simpl; [reflexivity|].
    inversion Hnd; subst. unfold frequency at 1. simpl. now apply IHk.
  - assert (Hsum : forall l,
              fold_right Z.add 0 (map (fun k => frequency k (s :: stats)) l)
              = fold_right Z.add 0
                  (map (fun k => if String.eqb (bucket s) k then 1 else 0) l)
                + fold_right Z.add 0 (map (fun k => frequency k stats) l)).
    { induction l as [|x l IHl]; simpl; [reflexivity|].
      rewrite IHl, frequency_cons. lia. }
    rewrite Hsum, IH, (indicator_total _ _ Hnd).
    + cbn [length]. lia.
    + apply Hcover. now left.
    + intros s' Hs'. apply Hcover. now right.
Qed.

Lemma firstn_total (g : ChapterCount.t -> Z) (n : nat) (l : list ChapterCount.t) :
  (forall e, In e l -> 0 <= g e) ->
  fold_right Z.add 0 (map g (firstn n l)) <= fold_right Z.add 0 (map g l).
Proof.
  revert n. induction l as [|x l IH]; intros n Hpos.
  - now rewrite firstn_nil.
  - destruct n as [|n]; simpl.
    + assert (Hall : forall l', (forall e, In e l' -> 0 <= g e) ->
                       0 <= fold_right Z.add 0 (map g l')).
      { induction l' as [|y l' IHl']; simpl; [lia|]. intros Hp.
        pose proof (Hp y (or_introl eq_refl)).
        assert (0 <= fold_right Z.add 0 (map g l'))
          by (apply IHl'; intros e He; apply Hp; now right).
        lia. }
      pose proof (Hpos x (or_introl eq_refl)).
      pose proof (Hall l (fun e He => Hpos e (or_intror He))). lia.
    + pose proof (IH n (fun e He => Hpos e (or_intror He))). lia.
Qed.

(** For rows none of whose buckets names a property of [Object.prototype]:
    every listed count is at least one and at most the number of rows, the
    listed counts add up to at most the number of rows, and to exactly the
    number of rows when the rows fall in no more than five buckets. *)
Theorem statistics_of_listed_counts (stats : list StatsRow) :
  Forall plain_bucket stats ->
  let result := statistics_of stats in
  (forall e, In e (topChapters result) ->
     1 <= count_value (ChapterCount.count e) <= totalClassifications result)
  /\ listed_total (topChapters result) <= totalClassifications result
  /\ ((length (buckets stats) <= 5)%nat ->
      listed_total (topChapters result) = totalClassifications result).
Proof.
  intros Hplain result.
  destruct (ranked_chapters stats Hplain) as (_ & Hnd & Hcount & Hall).
  set (ranked := JsObject.sort _ _) in *.
  assert (Htop : topChapters result = firstn 5 ranked) by reflexivity.
  assert (Hsize : totalClassifications result = Z.of_nat (length stats))
    by reflexivity.
  assert (Hvalue : forall e, In e ranked ->
            count_value (ChapterCount.count e)
            = frequency (ChapterCount.chapter e) stats).
  { intros e He. destruct (Hcount e He) as [-> _]. reflexivity. }
  assert (Hranked : listed_total ranked = Z.of_nat (length stats)).
  { unfold listed_total.
    rewrite (map_ext_in _ (fun e => frequency (ChapterCount.chapter e) stats) _ Hvalue).
    rewrite <- (map_map ChapterCount.chapter (fun k => frequency k stats)).
    apply (frequencies_total _ _ Hnd).
    intros s Hs. apply in_map_iff. eexists. split; [|apply (Hall s Hs)]. reflexivity. }
  assert (Hle : listed_total (topChapters result) <= Z.of_nat (length stats)).
  { rewrite Htop, <- Hranked. apply firstn_total.
    intros e He. rewrite (Hvalue e He). apply frequency_nonneg. }
  split; [|split].
  - intros e He. rewrite Htop in He.
    assert (Hin : In e ranked).
    { rewrite <- (firstn_skipn 5 ranked). apply in_or_app. now left. }
    destruct (Hcount e Hin) as [_ Hpos]. rewrite (Hvalue e Hin), Hsize.
    split; [lia|]. unfold frequency. pose proof (filter_length_le
      (fun s => String.eqb (bucket s) (ChapterCount.chapter e)) stats). lia.
  - now rewrite Hsize.
  - intros Hfew. rewrite Hsize, Htop, <- Hranked. f_equal.
    apply firstn_all2.
    assert (Hperm : Permutation (map ChapterCount.chapter ranked) (buckets stats)).
    { apply NoDup_Permutation; [exact Hnd|apply NoDup_nodup|].
      intros k. unfold buckets. rewrite nodup_In. split.
      - intros Hk. apply in_map_iff in Hk as (e & <- & He).
        apply frequency_occurs. now apply Hcount.
      - intros Hk. apply in_map_iff in Hk as (s & <- & Hs).
        apply in_map_iff. eexists. split; [|apply (Hall s Hs)]. reflexivity. }
    apply Permutation_length in Hperm. rewrite length_map in Hperm. lia.
Qed.

Lemma statistics_of_listed_counts_witness :
  let result := statistics_of Samples.three_rows in
  (forall e, In e (topChapters result) ->
     1 <= count_value (ChapterCount.count e) <= totalClassifications result)
  /\ listed_total (topChapters result) <= totalClassifications result
  /\ ((length (buckets Samples.three_rows) <= 5)%nat ->
      listed_total (topChapters result) = totalClassifications result).
Proof.
  apply (statistics_of_listed_counts Samples.three_rows).
  repeat constructor.
Defined.

(* ===================================================================== *)
(** ** The extraction, characterised *)
(* ===================================================================== *)

Lemma from_first_open_first (s t : string) :
  OpenAI.from_first_open s = Some t ->
  exists before rest,
    s = (before ++ String "{" rest)%string /\ t = String "{" rest
    /\ occurs "{" before = false.
Proof.
  induction s as [|x s IH]; simpl; intros H; [discriminate|].
  destruct (Ascii.eqb x "{") eqn:Hx.
  - apply Ascii.eqb_eq in Hx as ->. injection H as <-.
    now exists EmptyString, s.
  - destruct (IH H) as (before & rest & -> & -> & Hb).
    exists (String x before), rest. simpl. now rewrite Hx, Hb.
Qed.

Lemma upto_last_close_last (s kept : string) :
  OpenAI.upto_last_close s = Some kept ->
  exists inside after,
    kept = (inside ++ "}")%string /\ s = (kept ++ after)%string
    /\ occurs "}" after = false.
Proof.
  revert kept. induction s as [|x s IH]; simpl; intros kept H; [discriminate|].
  destruct (OpenAI.upto_last_close s) as [k|] eqn:E.
  - injection H as <-.
    destruct (IH k eq_refl) as (inside & after & -> & -> & Ha).
    now exists (String x inside), after.
  - destruct (Ascii.eqb_spec x "}") as [->|_]; [|discriminate].
    injection H as <-. exists EmptyString, s. repeat split.
    destruct (occurs "}" s) eqn:Ho; [|reflexivity].
    destruct (upto_last_close_some s Ho) as [k Hk]. congruence.
Qed.

(** The part of a response that is handed to [JSON.parse] is the text from
    its first opening brace to its last closing brace, both included, and
    nothing else: whatever braces lie between them are part of it. *)
Theorem json_match_first_to_last (response jsonMatch : string) :
  OpenAI.json_match response = Some jsonMatch
  <-> exists before inside after,
        response = (before ++ "{" ++ inside ++ "}" ++ after)%string
        /\ jsonMatch = ("{" ++ inside ++ "}")%string
        /\ occurs "{" before = false
        /\ occurs "}" after = false.
Proof.
  split.
  - unfold OpenAI.json_match. intros H.
    destruct (OpenAI.from_first_open response) as [t|] eqn:E; [|discriminate].
    destruct (from_first_open_first _ _ E) as (before & rest & -> & -> & Hb).
    destruct (OpenAI.upto_last_close rest) as [kept|] eqn:K; [|discriminate].
    destruct (upto_last_close_last _ _ K) as (inside & after & -> & -> & Ha).
    injection H as <-.
    exists before, inside, after. simpl. now rewrite append_assoc.
  - intros (before & inside & after & -> & -> & Hb & Ha).
    now apply json_match_span.
Qed.

(* ===================================================================== *)
(** ** The two completions, in general *)
(* ===================================================================== *)

Section Outcomes.

Variable JSON_parse : string -> JsValue + string.

(** Whatever the completion call yields and whatever [JSON.parse] makes of
    the extracted text, [classifyProduct] returns exactly when the call
    resolved with a text whose extracted part parses to an object with a
    truthy [hsCode], [chapter] and [description], and then it returns that
    object, unchanged and not checked any further; anything it throws is an
    error whose message starts with the prefix of its [catch] clause, and a
    failure of the call itself is rethrown with its message behind that
    prefix ([Unknown error] for a thrown value that is not an [Error]). *)
Theorem classifyProduct_outcomes (completion : Result (option string)) :
  (forall classification,
      OpenAI.classifyProduct JSON_parse completion = Return classification
      <-> exists response jsonMatch members,
            completion = Return (Some response)
            /\ OpenAI.json_match response = Some jsonMatch
            /\ JSON_parse jsonMatch = inl classification
            /\ classification = JObject members
            /\ truthy (lookup "hsCode" members) = true
            /\ truthy (lookup "chapter" members) = true
            /\ truthy (lookup "description" members) = true)
  /\ (forall thrown,
        OpenAI.classifyProduct JSON_parse completion = Throw thrown ->
        exists reason,
          thrown = JsError ("Classification failed: " ++ reason)%string)
  /\ (forall failure,
        completion = Throw failure ->
        OpenAI.classifyProduct JSON_parse completion
        = Throw (JsError ("Classification failed: "
                          ++ message_or "Unknown error" failure)%string)).
Proof.
  split; [|split; [|now intros failure ->]].
  - intros classification. split.
    + unfold OpenAI.classifyProduct.
      destruct completion as [[[|c response]|]|e]; try discriminate.
      destruct (OpenAI.json_match (String c response)) as [jsonMatch|] eqn:Hm;
        [|discriminate].
      destruct (JSON_parse jsonMatch) as [parsed|syntax_error] eqn:Hp;
        [|discriminate].
      destruct parsed as [| | | | |members]; try discriminate.
      unfold OpenAI.incomplete. simpl.
      destruct (truthy (lookup "hsCode" members)) eqn:H1; [|discriminate].
      destruct (truthy (lookup "chapter" members)) eqn:H2; [|discriminate].
      destruct (truthy (lookup "description" members)) eqn:H3; [|discriminate].
      simpl. intros H. injection H as <-.
      now exists (String c response), jsonMatch, members.
    + intros (response & jsonMatch & members & -> & Hm & Hp & -> & H1 & H2 & H3).
      rewrite (classifyProduct_on_match _ _ _ Hm), Hp.
      unfold OpenAI.incomplete. simpl. now rewrite H1, H2, H3.
  - intros thrown. unfold OpenAI.classifyProduct, OpenAI.classification_failed.
    match goal with
    | |- match ?inner with _ => _ end = _ -> _ => destruct inner as [value|e]
    end; [discriminate|].
    intros H. injection H as <-. now eexists.
Qed.

Lemma analyzeCompanyProducts_on_match (response jsonMatch : string) :
  OpenAI.json_match response = Some jsonMatch ->
  OpenAI.analyzeCompanyProducts JSON_parse (Return (Some response))
  = OpenAI.company_analysis_failed
      match JSON_parse jsonMatch with
      | inr syntax_error => Throw (JsError syntax_error)
      | inl analysis =>
          match OpenAI.no_products analysis with
          | Throw e => Throw e
          | Return true => Throw (JsError "Invalid company analysis data from OpenAI")
          | Return false => Return analysis
          end
      end.
Proof.
  intros H. unfold OpenAI.analyzeCompanyProducts.
  destruct response as [|c response]; [discriminate|].
  now rewrite H.
Qed.

(** [analyzeCompanyProducts] returns exactly when the call resolved with a
    text whose extracted part parses to an object whose [products] is a
    non-empty array, and then it returns that object: the products
    themselves, the industry and the risk level are not looked at.  Anything
    it throws is an error whose message starts with the prefix of its [catch]
    clause, and a failure of the call itself is rethrown with its message
    behind that prefix. *)
Theorem analyzeCompanyProducts_outcomes (completion : Result (option string)) :
  (forall analysis,
      OpenAI.analyzeCompanyProducts JSON_parse completion = Return analysis
      <-> exists response jsonMatch members first rest,
            completion = Return (Some response)
            /\ OpenAI.json_match response = Some jsonMatch
            /\ JSON_parse jsonMatch = inl analysis
            /\ analysis = JObject members
            /\ lookup "products" members = Some (JArray (first :: rest)))
  /\ (forall thrown,
        OpenAI.analyzeCompanyProducts JSON_parse completion = Throw thrown ->
        exists reason,
          thrown = JsError ("Company analysis failed: " ++ reason)%string)
  /\ (forall failure,
        completion = Throw failure ->
        OpenAI.analyzeCompanyProducts JSON_parse completion
        = Throw (JsError ("Company analysis failed: "
                          ++ message_or "Unknown error" failure)%string)).
Proof.
  split; [|split; [|now intros failure ->]].
  - intros analysis. split.
    + unfold OpenAI.analyzeCompanyProducts.
      destruct completion as [[[|c response]|]|e]; try discriminate.
      destruct (OpenAI.json_match (String c response)) as [jsonMatch|] eqn:Hm;
        [|discriminate].
      destruct (JSON_parse jsonMatch) as [parsed|syntax_error] eqn:Hp;
        [|discriminate].
      destruct parsed as [| | | | |members]; try discriminate.
      unfold OpenAI.no_products. simpl.
      destruct (lookup "products" members) as [[| | | |[|first rest]|]|] eqn:Hl;
        simpl;
        repeat match goal with
               | |- context [if ?b then _ else _] => destruct b
               end;
        try discriminate.
      intros H. injection H as <-.
      now exists (String c response), jsonMatch, members, first, rest.
    + intros (response & jsonMatch & members & first & rest
              & -> & Hm & Hp & -> & Hl).
      rewrite (analyzeCompanyProducts_on_match _ _ Hm), Hp.
      unfold OpenAI.no_products. simpl. now rewrite Hl.
  - intros thrown.
    unfold OpenAI.analyzeCompanyProducts, OpenAI.company_analysis_failed.
    match goal with
    | |- match ?inner with _ => _ end = _ -> _ => destruct inner as [value|e]
    end; [discriminate|].
    intros H. injection H as <-. now eexists.
Qed.

End Outcomes.

(** A portfolio of one product without a name, a code or a confidence, with a
    risk level outside the three levels and no industry, is returned as an
    analysis. *)
Example analyzeCompanyProducts_unchecked_portfolio :
  OpenAI.analyzeCompanyProducts Json.parse
    (Return (Some ("Portfolio: {" ++ Samples.portfolio_inside ++ "}")%string))
  = Return (JObject Samples.portfolio_members).
Proof. reflexivity. Qed.

(* ===================================================================== *)
(** ** The reference links, in general *)
(* ===================================================================== *)

Lemma substring0_prefix (stop : nat) (s : string) :
  exists rest,
    s = (JsString.substring0 stop s ++ rest)%string
    /\ String.length (JsString.substring0 stop s) = Nat.min stop (String.length s).
Proof.
  unfold JsString.substring0. revert s.
  induction stop as [|stop IH]; intros s.
  - exists s. now destruct s.
  - destruct s as [|c s]; [now exists EmptyString|].
    destruct (IH s) as (rest & Hs & Hl). exists rest. simpl.
    now rewrite <- Hs, Hl.
Qed.

(** Whatever the code, the five links are built and nothing is thrown: the
    chapter link ends in the first two characters of the code and the
    code-search link in its first six, fewer when the code is shorter; the
    other three links do not depend on the code. *)
Theorem generateWTOLink_segments (hsCode : string) :
  let links := OpenAI.generateWTOLink hsCode in
  (exists segment rest,
      OpenAI.chapter links
      = ("https://www.foreign-trade.com/reference/hscode.cfm?code=" ++ segment)%string
      /\ hsCode = (segment ++ rest)%string
      /\ String.length segment = Nat.min 2 (String.length hsCode))
  /\ (exists segment rest,
        OpenAI.search links = ("https://www.tariffnumber.com/2022/" ++ segment)%string
        /\ hsCode = (segment ++ rest)%string
        /\ String.length segment = Nat.min 6 (String.length hsCode))
  /\ OpenAI.wto links = OpenAI.wto (OpenAI.generateWTOLink "")
  /\ OpenAI.wcoomic links = OpenAI.wcoomic (OpenAI.generateWTOLink "")
  /\ OpenAI.detailed links = OpenAI.detailed (OpenAI.generateWTOLink "").
Proof.
  intros links. split; [|split; [|repeat split]].
  - destruct (substring0_prefix 2 hsCode) as (rest & Hs & Hl).
    now exists (JsString.substring0 2 hsCode), rest.
  - destruct (substring0_prefix 6 hsCode) as (rest & Hs & Hl).
    now exists (JsString.substring0 6 hsCode), rest.
Qed.

(** For every code in the format the prompt asks for, [XXXX.XX.XX], the
    chapter link ends in the first two digits, and the code-search link ends
    in the four digits of the heading, the dot and one digit more: it is
    never the link of the six-digit root. *)
Theorem generateWTOLink_dotted_code (heading group1 group2 : string) :
  digits 4 heading -> digits 2 group1 -> digits 2 group2 ->
  let links := OpenAI.generateWTOLink (heading ++ "." ++ group1 ++ "." ++ group2) in
  OpenAI.chapter links
  = ("https://www.foreign-trade.com/reference/hscode.cfm?code="
     ++ JsString.substring0 2 heading)%string
  /\ OpenAI.search links
     = ("https://www.tariffnumber.com/2022/" ++ heading ++ "."
        ++ JsString.substring0 1 group1)%string
  /\ OpenAI.search links
     <> ("https://www.tariffnumber.com/2022/" ++ heading ++ group1)%string.
Proof.
  intros Hh H1 H2.
  destruct heading as [|a [|b [|c [|d [|]]]]]; simpl in Hh; try tauto.
  destruct group1 as [|e [|f [|]]]; simpl in H1; try tauto.
  intros links. split; [reflexivity|]. split; [reflexivity|].
  unfold links, OpenAI.generateWTOLink, JsString.substring0. simpl.
  intros H. assert (He : e = "."%char) by congruence.
  destruct H1 as [H1 _]. rewrite He in H1. vm_compute in H1. discriminate.
Qed.

Lemma generateWTOLink_dotted_code_witness :
  let links := OpenAI.generateWTOLink "8471.30.01" in
  OpenAI.chapter links = "https://www.foreign-trade.com/reference/hscode.cfm?code=84"%string
  /\ OpenAI.search links = "https://www.tariffnumber.com/2022/8471.3"%string
  /\ OpenAI.search links <> "https://www.tariffnumber.com/2022/847130"%string.
Proof.
  apply (generateWTOLink_dotted_code "8471" "30" "01"); vm_compute; tauto.
Defined.

(* ===================================================================== *)
(** ** The classification handler, in general *)
(* ===================================================================== *)

Section HandlerOutcomes.

Variable JSON_parse : string -> JsValue + string.

(** The save inside its own [try] block: whatever it does, the block is
    left normally. *)
Lemma save_is_contained {A} (save : M Session A) (w : World Session) :
  App.try_catch (_ <- save ;; ret tt) (fun dbError => ret tt) w
  = (Return tt, snd (save w)).
Proof.
  unfold App.try_catch, bind, ret. now destruct (save w) as [[value|e] w'].
Qed.

Lemma saveClassification_sends
    (supabase : Supabase) (classification : ClassificationInsert) (w : World Session) :
  exists k ts,
    (1 <= k <= 3)%nat
    /\ snd (saveClassification supabase classification w)
       = mkWorld (store w ++ repeat [From_ "classifications"; Insert [classification];
                                     Select "*" false; Single] k) ts.
Proof.
  destruct (retryOperation_requests
              ('(mkResponse data error _) <-
                 await_single supabase [From_ "classifications"; Insert [classification];
                                        Select "*" false; Single] ;;
               match error with
               | Some error =>
                   throw (JsError ("Failed to save classification: " ++ message error))
               | None => ret data
               end)
              [From_ "classifications"; Insert [classification]; Select "*" false; Single])
    with (retries := retries_default) (delay := delay_default) (w := w)
    as (r & k & ts & Hk & Hrun).
  - intros w'. unfold bind, await_single. rewrite send_run.
    destruct (single supabase _ _) as [data [error|] count]; eexists; reflexivity.
  - exists k, ts. split; [exact Hk|]. unfold saveClassification. now rewrite Hrun.
Qed.

(** What the outer [try] block comes to: an entry, after the save has been
    attempted, or an error before anything was sent. *)
Lemma classify_and_save_outcomes
    (supabase : Supabase) (completion : Result (option string)) (now today : Z)
    (productName : string) (customerName : option string) (w : World Session) :
  (exists members hsCode,
      OpenAI.classifyProduct JSON_parse completion = Return (JObject members)
      /\ lookup "hsCode" members = Some (JString hsCode)
      /\ App.classify_and_save JSON_parse supabase completion now today
           productName customerName w
         = (Return
              {| App.id := App.Number_toString now;
                 App.productName := productName;
                 App.hsCode := lookup "hsCode" members;
                 App.chapter := lookup "chapter" members;
                 App.description := lookup "description" members;
                 App.confidence := lookup "confidence" members;
                 App.wtoLink := OpenAI.search (OpenAI.generateWTOLink hsCode);
                 App.isDualUse := lookup "isDualUse" members;
                 App.timestamp := today;
                 App.customerName := customerName;
                 App.reasoning := lookup "reasoning" members;
                 App.links := OpenAI.generateWTOLink hsCode |},
            snd (saveClassification supabase
                   (mkInsert productName customerName
                      (lookup "hsCode" members) (lookup "chapter" members)
                      (lookup "description" members) (lookup "confidence" members)
                      (lookup "isDualUse" members) (lookup "reasoning" members)
                      (Some (OpenAI.generateWTOLink hsCode))) w)))
  \/ (exists err,
        App.classify_and_save JSON_parse supabase completion now today
          productName customerName w
        = (Throw err, w)
        /\ (OpenAI.classifyProduct JSON_parse completion = Throw err
            \/ exists members,
                 OpenAI.classifyProduct JSON_parse completion = Return (JObject members)
                 /\ OpenAI.generateWTOLink_any (lookup "hsCode" members) = Throw err)).
Proof.
  unfold App.classify_and_save.
  destruct (OpenAI.classifyProduct JSON_parse completion)
    as [classification|err] eqn:Hc.
  - destruct (classifyProduct_returns_object JSON_parse _ _ Hc)
      as (members & -> & Hcode).
    destruct (OpenAI.generateWTOLink_any (lookup "hsCode" members))
      as [links|err] eqn:Hl.
    + left.
      destruct (lookup "hsCode" members) as [[| | |hsCode| |]|] eqn:Hh;
        try discriminate.
      injection Hl as <-. exists members, hsCode.
      split; [reflexivity|]. split; [exact Hh|].
      unfold App.eval, bind at 1 2 3 4 5 6 7 8. cbn [get_member].
      rewrite Hh. cbn [OpenAI.generateWTOLink_any].
      unfold bind at 1. rewrite save_is_contained. reflexivity.
    + right. exists err. split.
      * unfold App.eval, bind. cbn [get_member]. now rewrite Hl.
      * right. now exists members.
  - right. exists err. split; [reflexivity|now left].
Qed.

(** Whatever the completion and the store do, the handler ends loading and
    does one of two things.  Either it puts one entry in front of the
    displayed results, with the product and customer names as given, the
    links of its HS code, which is a string, and no error message, after
    sending the insert of that entry between one and three times.  Or it
    leaves the results as they were, shows an error message, and has sent
    nothing. *)
Theorem handleClassification_outcomes
    (supabase : Supabase) (completion : Result (option string)) (now today : Z)
    (productName : string) (customerName : option string)
    (ui : App.State) (w : World Session) :
  let after :=
    App.handleClassification JSON_parse supabase completion now today
      productName customerName ui w in
  App.isLoading (fst after) = false
  /\ ((exists entry hsCode record k ts,
          App.results (fst after) = entry :: App.results ui
          /\ App.error (fst after) = None
          /\ App.productName entry = productName
          /\ App.customerName entry = customerName
          /\ App.id entry = App.Number_toString now
          /\ App.timestamp entry = today
          /\ App.hsCode entry = Some (JString hsCode)
          /\ App.links entry = OpenAI.generateWTOLink hsCode
          /\ App.wtoLink entry = OpenAI.search (OpenAI.generateWTOLink hsCode)
          /\ record = mkInsert productName customerName
                        (App.hsCode entry) (App.chapter entry)
                        (App.description entry) (App.confidence entry)
                        (App.isDualUse entry) (App.reasoning entry)
                        (Some (App.links entry))
          /\ (1 <= k <= 3)%nat
          /\ snd after
             = mkWorld (store w ++ repeat [From_ "classifications"; Insert [record];
                                           Select "*" false; Single] k) ts)
      \/ (exists message,
            App.results (fst after) = App.results ui
            /\ App.error (fst after) = Some message
            /\ snd after = w)).
Proof.
  intros after. unfold after, App.handleClassification.
  destruct (classify_and_save_outcomes supabase completion now today
              productName customerName w)
    as [(members & hsCode & Hc & Hh & ->) | (err & -> & _)].
  - split; [reflexivity|]. left.
    destruct (saveClassification_sends supabase
                (mkInsert productName customerName
                   (lookup "hsCode" members) (lookup "chapter" members)
                   (lookup "description" members) (lookup "confidence" members)
                   (lookup "isDualUse" members) (lookup "reasoning" members)
                   (Some (OpenAI.generateWTOLink hsCode))) w)
      as (k & ts & Hk & Hsent).
    eexists. exists hsCode. eexists. exists k, ts.
    cbn [fst snd App.results App.error].
    repeat match goal with |- _ /\ _ => split end;
      try reflexivity; try exact Hh; try lia.
    exact Hsent.
  - split; [reflexivity|]. right. now eexists.
Qed.

(** What the handler displays does not depend on the store: for any two
    stores and sessions the displayed results, the error message and the
    loading flag are the same. *)
Theorem handleClassification_ignores_store
    (supabase supabase' : Supabase) (completion : Result (option string))
    (now today : Z) (productName : string) (customerName : option string)
    (ui : App.State) (w w' : World Session) :
  fst (App.handleClassification JSON_parse supabase completion now today
         productName customerName ui w)
  = fst (App.handleClassification JSON_parse supabase' completion now today
           productName customerName ui w').
Proof.
  unfold App.handleClassification.
  destruct (classify_and_save_outcomes supabase completion now today
              productName customerName w)
    as [(members & hsCode & Hc & Hh & ->) | (err & -> & Hwhy)];
    destruct (classify_and_save_outcomes supabase' completion now today
                productName customerName w')
      as [(members' & hsCode' & Hc' & Hh' & ->) | (err' & -> & Hwhy')].
  - rewrite Hc in Hc'. injection Hc' as <-.
    rewrite Hh in Hh'. injection Hh' as <-. reflexivity.
  - exfalso. destruct Hwhy' as [H|(members' & H & Hl)]; rewrite Hc in H.
    + discriminate.
    + injection H as <-. rewrite Hh in Hl. discriminate.
  - exfalso. destruct Hwhy as [H|(members & H & Hl)]; rewrite Hc' in H.
    + discriminate.
    + injection H as <-. rewrite Hh' in Hl. discriminate.
  - assert (err = err') as <-; [|reflexivity].
    destruct Hwhy as [H|(members & H & Hl)];
      destruct Hwhy' as [H'|(members' & H' & Hl')]; rewrite H in H'.
    + now injection H' as <-.
    + discriminate.
    + discriminate.
    + injection H' as <-. rewrite Hl in Hl'. now injection Hl' as <-.
Qed.

End HandlerOutcomes.

(* ===================================================================== *)
(** ** The classification form *)
(* ===================================================================== *)

(** The form submits nothing exactly when the product name is nothing but
    white space.  What it submits is the product name without the white
    space around it, which is not empty and which trimming leaves as it is;
    white space typed around the product name makes no difference.  The
    customer name goes along only when the analysis box is checked, trimmed
    as well; with the box checked and a customer name of nothing but white
    space, the empty string is submitted as customer name. *)
Theorem handleSubmit_trimmed (productName customerName : string) (checked : bool) :
  let submitted := ClassificationForm.handleSubmit productName customerName checked in
  (submitted = None <-> all_white productName = true)
  /\ (forall product customer,
        submitted = Some (product, customer) ->
        product = JsString.trim productName
        /\ product <> ""%string
        /\ JsString.trim product = product
        /\ (customer = None <-> checked = false)
        /\ (forall name, customer = Some name ->
              name = JsString.trim customerName /\ JsString.trim name = name)
        /\ (customer = Some ""%string
            <-> checked = true /\ all_white customerName = true))
  /\ (forall before after,
        all_white before = true ->
        all_white after = true ->
        ClassificationForm.handleSubmit (before ++ productName ++ after)%string
          customerName checked
        = submitted).
Proof.
  intros submitted. unfold submitted, ClassificationForm.handleSubmit.
  split; [|split].
  - rewrite <- trim_empty.
    destruct (JsString.trim productName); split; congruence.
  - intros product customer H.
    pose proof (trim_fixed productName) as Hfix.
    destruct (JsString.trim productName) as [|c trimmed] eqn:E; [discriminate|].
    injection H as <- <-.
    split; [reflexivity|]. split; [discriminate|]. split; [exact Hfix|].
    split; [destruct checked; split; congruence|]. split.
    + intros name H. destruct checked; [|discriminate].
      injection H as <-. split; [reflexivity|apply trim_fixed].
    + rewrite <- trim_empty. destruct checked; split.
      * intros H. injection H as H. now split.
      * intros [_ H]. now rewrite H.
      * discriminate.
      * intros [H _]. discriminate.
  - intros before after Hb Ha. now rewrite (trim_padding _ _ _ Hb Ha).
Qed.

(* ===================================================================== *)
(** ** The search history *)
(* ===================================================================== *)

Lemma includes_empty (s : string) : JsString.includes "" s = true.
Proof. destruct s; reflexivity. Qed.

Lemma filter_twice {A} (f g : A -> bool) (l : list A) :
  filter g (filter f l) = filter (fun x => f x && g x) l.
Proof.
  induction l as [|x l IH]; simpl; [reflexivity|].
  destruct (f x); simpl; [|exact IH].
  destruct (g x); now rewrite IH.
Qed.

(** *** The order of numbers *)

Lemma at_most_trans (x y z : Number Q) :
  at_most x y = true -> at_most y z = true -> at_most x z = true.
Proof.
  destruct x as [a|[|]|], y as [b|[|]|], z as [c|[|]|]; simpl;
    try discriminate; try reflexivity.
  rewrite !Qle_bool_iff. apply Qle_trans.
Qed.

Lemma at_most_total (x y : Number Q) :
  x <> NaN -> y <> NaN -> at_most x y = false -> at_most y x = true.
Proof.
  destruct x as [a|[|]|], y as [b|[|]|]; simpl;
    try discriminate; try reflexivity; try congruence.
  intros _ _ H. apply Qle_bool_iff, Qlt_le_weak, Qnot_le_lt.
  intros Hle. apply Qle_bool_iff in Hle. congruence.
Qed.

(** The difference of two numbers is greater than zero exactly when the
    first is not at most the second. *)
Lemma positive_difference (x y : Number Q) :
  x <> NaN -> y <> NaN ->
  SearchHistory.positive (SearchHistory.Number_minus x y) = negb (at_most x y).
Proof.
  destruct x as [a|[|]|], y as [b|[|]|]; simpl;
    try reflexivity; try congruence.
  intros _ _. f_equal.
  destruct (Qle_bool a b) eqn:E.
  - apply Qle_bool_iff. apply Qle_bool_iff in E. lra.
  - destruct (Qle_bool (a - b)%Q 0%Q) eqn:E'; [|reflexivity].
    apply Qle_bool_iff in E'.
    assert (H : Qle_bool a b = true) by (apply Qle_bool_iff; lra).
    congruence.
Qed.

Lemma Qle_bool_inject_Z (z : Z) : Qle_bool (inject_Z z) 0%Q = (z <=? 0).
Proof. unfold Qle_bool. simpl. now rewrite Z.mul_1_r. Qed.

Section History.

Variable localeCompare : string -> string -> Z.

(** What the history shows: the results that match the search term and, when
    the dual-use filter is on, are flagged dual-use, each as often as it
    occurs in the results, and nothing else, whatever the order; the empty
    search term with the filter off shows every result.  Sorted by date, no
    entry comes after an older one.  Sorted by confidence, no entry comes
    after one with a lower confidence, provided that the confidence of every
    entry shown is a number: the difference to a confidence that is missing
    is [NaN], and nothing is said of the order then. *)
Theorem filteredResults_shown
    (results : list SearchHistory.ClassificationResult) (searchTerm : string)
    (filterDualUse : bool) (sortBy : SearchHistory.SortBy) :
  let shown :=
    SearchHistory.filteredResults localeCompare results searchTerm filterDualUse sortBy in
  let number result := SearchHistory.to_number (SearchHistory.confidence result) in
  Permutation shown
    (filter (fun result =>
               SearchHistory.matches searchTerm result
               && (negb filterDualUse || SearchHistory.isDualUse result))
            results)
  /\ (forall result,
        In result shown
        <-> In result results
            /\ SearchHistory.matches searchTerm result = true
            /\ (filterDualUse = true -> SearchHistory.isDualUse result = true))
  /\ (searchTerm = ""%string -> filterDualUse = false -> Permutation shown results)
  /\ (sortBy = SearchHistory.by_confidence ->
      (forall result, In result shown -> number result <> NaN) ->
      StronglySorted (fun a b => at_most (number b) (number a) = true) shown)
  /\ (sortBy = SearchHistory.date ->
      StronglySorted (fun a b => SearchHistory.timestamp b <= SearchHistory.timestamp a)
                     shown).
Proof.
  intros shown number.
  assert (Hsorted : Permutation shown
            (filter (fun result => negb filterDualUse || SearchHistory.isDualUse result)
               (filter (SearchHistory.matches searchTerm) results))).
  { unfold shown, SearchHistory.filteredResults, SearchHistory.sort.
    apply stable_sort_perm. }
  assert (Hperm : Permutation shown
            (filter (fun result =>
                       SearchHistory.matches searchTerm result
                       && (negb filterDualUse || SearchHistory.isDualUse result))
                    results)).
  { rewrite Hsorted. now rewrite filter_twice. }
  split; [exact Hperm|]. split; [|split; [|split]].
  - intros result. split.
    + intros H. apply (Permutation_in _ Hperm) in H.
      apply filter_In in H as [Hin H]. apply andb_true_iff in H as [Hm Hd].
      split; [exact Hin|]. split; [exact Hm|].
      intros ->. exact Hd.
    + intros (Hin & Hm & Hd).
      apply (Permutation_in _ (Permutation_sym Hperm)).
      apply filter_In. split; [exact Hin|]. rewrite Hm.
      destruct filterDualUse; [now rewrite Hd|reflexivity].
  - intros -> ->. rewrite Hperm.
    rewrite (filter_ext _ (fun _ => true)).
    + clear. induction results as [|r results IH]; simpl; [reflexivity|].
      now constructor.
    + intros result. unfold SearchHistory.matches. simpl.
      now rewrite includes_empty.
  - intros -> Hnumbers.
    unfold shown, SearchHistory.filteredResults, SearchHistory.sort.
    apply (stable_sort_sorted _ (fun result => number result <> NaN)).
    + intros x y z Hxy Hyz. exact (at_most_trans _ _ _ Hyz Hxy).
    + intros x y Hx Hy H. cbn [SearchHistory.compare] in H.
      fold (number x) (number y) in H.
      rewrite (positive_difference _ _ Hy Hx), negb_involutive in H. exact H.
    + intros x y Hx Hy H. cbn [SearchHistory.compare] in H.
      fold (number x) (number y) in H.
      rewrite (positive_difference _ _ Hy Hx), negb_involutive in H.
      now apply at_most_total.
    + apply Forall_forall. intros result Hin. apply Hnumbers.
      apply (Permutation_in _ (Permutation_sym Hsorted) Hin).
  - intros ->. unfold shown, SearchHistory.filteredResults, SearchHistory.sort.
    apply (stable_sort_sorted _ (fun _ => True)).
    + intros x y z. lia.
    + intros x y _ _ H. cbn [SearchHistory.compare SearchHistory.positive] in H.
      rewrite negb_involutive, Qle_bool_inject_Z in H. apply Z.leb_le in H. lia.
    + intros x y _ _ H. cbn [SearchHistory.compare SearchHistory.positive] in H.
      rewrite negb_involutive, Qle_bool_inject_Z in H. apply Z.leb_gt in H. lia.
    + apply Forall_forall. trivial.
Qed.

End History.

(** Three entries with the confidences 70, 99.5 and 85 are shown in the order
    99.5, 85, 70 when the history is sorted by confidence. *)
Example filteredResults_by_confidence :
  let entry name confidence text :=
    SearchHistory.mkResult name "8471.30.01" "84"
      (SearchHistory.mkConfidence (Finite confidence) text) false 0 None in
  SearchHistory.filteredResults (fun _ _ => 0)
    [entry "laptop" 70%Q "70"; entry "router" (199 # 2)%Q "99.5";
     entry "pump" 85%Q "85"]
    "" false SearchHistory.by_confidence
  = [entry "router" (199 # 2)%Q "99.5"; entry "pump" 85%Q "85";
     entry "laptop" 70%Q "70"].
Proof. reflexivity. Qed.

(** An entry without a confidence between one of 70 and one of 99 leaves
    both where they were: each difference to the missing confidence is
    [NaN], which [sort] takes for zero. *)
Example filteredResults_missing_confidence :
  let entry name confidence text :=
    SearchHistory.mkResult name "8471.30.01" "84"
      (SearchHistory.mkConfidence confidence text) false 0 None in
  let results :=
    [entry "laptop" (Finite 70%Q) "70"; entry "router" NaN "undefined";
     entry "pump" (Finite 99%Q) "99"] in
  SearchHistory.filteredResults (fun _ _ => 0) results "" false
    SearchHistory.by_confidence
  = results.
Proof. reflexivity. Qed.

(** Sorted by product, the history is in the order of the comparison of the
    product names, whenever that comparison is transitive and total. *)
Theorem filteredResults_by_product
    (localeCompare : string -> string -> Z)
    (results : list SearchHistory.ClassificationResult) (searchTerm : string)
    (filterDualUse : bool) :
  (forall a b c, localeCompare a b <= 0 -> localeCompare b c <= 0 ->
                 localeCompare a c <= 0) ->
  (forall a b, 0 < localeCompare a b -> localeCompare b a <= 0) ->
  StronglySorted
    (fun a b => localeCompare (SearchHistory.productName a)
                              (SearchHistory.productName b) <= 0)
    (SearchHistory.filteredResults localeCompare results searchTerm filterDualUse
       SearchHistory.product).
Proof.
  intros Htrans Htotal.
  unfold SearchHistory.filteredResults, SearchHistory.sort.
  apply (stable_sort_sorted _ (fun _ => True)).
  - intros x y z. apply Htrans.
  - intros x y _ _ H. cbn [SearchHistory.compare SearchHistory.positive] in H.
    rewrite negb_involutive, Qle_bool_inject_Z in H. now apply Z.leb_le in H.
  - intros x y _ _ H. cbn [SearchHistory.compare SearchHistory.positive] in H.
    rewrite negb_involutive, Qle_bool_inject_Z in H. apply Z.leb_gt in H.
    now apply Htotal.
  - apply Forall_forall. trivial.
Qed.

Lemma filteredResults_by_product_witness :
  StronglySorted
    (fun a b => Z.of_nat (String.length (SearchHistory.productName a))
                - Z.of_nat (String.length (SearchHistory.productName b)) <= 0)
    (SearchHistory.filteredResults
       (fun a b => Z.of_nat (String.length a) - Z.of_nat (String.length b))
       [SearchHistory.mkResult "router" "8517.62.00" "85"
          (SearchHistory.mkConfidence (Finite 90%Q) "90") false 2 None;
        SearchHistory.mkResult "pump" "8413.70.00" "84"
          (SearchHistory.mkConfidence (Finite 95%Q) "95") false 1 None]
       "" false SearchHistory.product).
Proof.
  apply (filteredResults_by_product
           (fun a b => Z.of_nat (String.length a) - Z.of_nat (String.length b))
           [SearchHistory.mkResult "router" "8517.62.00" "85"
              (SearchHistory.mkConfidence (Finite 90%Q) "90") false 2 None;
            SearchHistory.mkResult "pump" "8413.70.00" "84"
              (SearchHistory.mkConfidence (Finite 95%Q) "95") false 1 None]
           "" false); intros; lia.
Defined.

(** *** The export *)

Lemma quote_splits (cell cell' rest rest' : string) :
  occurs Json.quote cell = false ->
  occurs Json.quote cell' = false ->
  (cell ++ String Json.quote rest)%string = (cell' ++ String Json.quote rest')%string ->
  cell = cell' /\ rest = rest'.
Proof.
  revert cell'. induction cell as [|c cell IH]; intros [|c' cell'] H H' E;
    simpl in *.
  - now injection E as <-.
  - injection E as <- _. now rewrite Ascii.eqb_refl in H'.
  - injection E as -> _. now rewrite Ascii.eqb_refl in H.
  - apply orb_false_iff in H as [_ H]. apply orb_false_iff in H' as [_ H'].
    injection E as <- E. destruct (IH cell' H H' E) as [-> ->]. now split.
Qed.

Lemma csv_line_cons (cell : string) (row : list string) :
  SearchHistory.csv_line (cell :: row)
  = (String Json.quote cell
     ++ String Json.quote
          match row with
          | [] => EmptyString
          | _ => String "," (SearchHistory.csv_line row)
          end)%string.
Proof.
  unfold SearchHistory.csv_line, Json.quoted. destruct row as [|next row].
  - reflexivity.
  - cbn [map SearchHistory.join]. cbn [append].
    rewrite append_assoc. reflexivity.
Qed.

(** Rows whose cells hold no double quote are exported to different lines
    unless they are the same row: the line tells the cells apart. *)
Theorem csv_line_injective (row row' : list string) :
  Forall (fun cell => occurs Json.quote cell = false) row ->
  Forall (fun cell => occurs Json.quote cell = false) row' ->
  SearchHistory.csv_line row = SearchHistory.csv_line row' ->
  row = row'.
Proof.
  intros H. revert row'.
  induction H as [|cell row Hcell Hrow IH]; intros row' H' E.
  - destruct row' as [|cell' row']; [reflexivity|].
    rewrite csv_line_cons in E. discriminate.
  - destruct H' as [|cell' row' Hcell' Hrow'].
    + rewrite csv_line_cons in E. discriminate.
    + rewrite !csv_line_cons in E. injection E as E.
      destruct (quote_splits _ _ _ _ Hcell Hcell' E) as [<- Hrest].
      f_equal.
      destruct row as [|next row]; destruct row' as [|next' row'].
      * reflexivity.
      * discriminate.
      * discriminate.
      * injection Hrest as Hrest. now apply IH.
Qed.

Lemma csv_line_injective_witness :
  ["router"; "8517.62.00"]%string = ["router"; "8517.62.00"]%string.
Proof.
  apply (csv_line_injective ["router"; "8517.62.00"]%string
           ["router"; "8517.62.00"]%string);
    [repeat constructor|repeat constructor|reflexivity].
Defined.

(** A double quote in a cell is exported as it is: two histories that differ
    in product name and HS code are exported to the same text. *)
Example csvContent_quote_collision :
  let export results :=
    SearchHistory.csvContent (fun _ _ => 0) (fun _ => "1970-01-01T00:00:00.000Z"%string)
      results "" false SearchHistory.date in
  [Samples.quoted_name] <> [Samples.quoted_code]
  /\ export [Samples.quoted_name] = export [Samples.quoted_code].
Proof. split; [discriminate|reflexivity]. Qed.

(* ===================================================================== *)
(** ** The results display and the company analysis *)
(* ===================================================================== *)

(** The badge colour, the label and the colour of the bar agree for every
    confidence: green and high from 95 on, yellow and medium from 85 up to
    95, red and low below 85.  Nothing bounds the confidence from above. *)
Theorem confidence_bands (confidence : Q) :
  let shown := (ResultsDisplay.getConfidenceColor confidence,
                ResultsDisplay.getConfidenceText confidence,
                ResultsDisplay.bar_color confidence) in
  ((95 <= confidence)%Q
   /\ shown = ("text-green-600 bg-green-100", "High Confidence", "bg-green-500")%string)
  \/ ((85 <= confidence)%Q /\ (confidence < 95)%Q
      /\ shown = ("text-yellow-600 bg-yellow-100", "Medium Confidence",
                  "bg-yellow-500")%string)
  \/ ((confidence < 85)%Q
      /\ shown = ("text-red-600 bg-red-100", "Low Confidence", "bg-red-500")%string).
Proof.
  intros shown. unfold shown, ResultsDisplay.getConfidenceColor,
    ResultsDisplay.getConfidenceText, ResultsDisplay.bar_color.
  destruct (Qle_bool 95 confidence) eqn:H95.
  - left. split; [now apply Qle_bool_iff|reflexivity].
  - assert (H : (confidence < 95)%Q).
    { apply Qnot_le_lt. intros H. apply Qle_bool_iff in H. congruence. }
    destruct (Qle_bool 85 confidence) eqn:H85.
    + right. left. split; [now apply Qle_bool_iff|]. now split.
    + right. right. split; [|reflexivity].
      apply Qnot_le_lt. intros H'. apply Qle_bool_iff in H'. congruence.
Qed.

Lemma remove_white_space_none (s : string) (c : ascii) :
  JsString.is_white_space c = true ->
  occurs c (CompanyAnalysis.remove_white_space s) = false.
Proof.
  intros Hc. induction s as [|x s IH]; simpl; [reflexivity|].
  destruct (JsString.is_white_space x) eqn:Hx; [exact IH|].
  simpl. rewrite IH, orb_false_r.
  destruct (Ascii.eqb_spec x c) as [->|_]; [congruence|reflexivity].
Qed.

(** The colour of a risk level: red for the string [High], yellow for the
    string [Medium], and the green of a low risk for anything else the
    analysis held. *)
Theorem getRiskColor_levels (level : option JsValue) :
  (CompanyAnalysis.getRiskColor level = "bg-red-100 text-red-800 border-red-200"%string
   <-> level = Some (JString "High"))
  /\ (CompanyAnalysis.getRiskColor level
      = "bg-yellow-100 text-yellow-800 border-yellow-200"%string
      <-> level = Some (JString "Medium"))
  /\ (CompanyAnalysis.getRiskColor level
      = "bg-green-100 text-green-800 border-green-200"%string
      <-> level <> Some (JString "High") /\ level <> Some (JString "Medium")).
Proof.
  assert (Hother : forall s, s <> "High"%string -> s <> "Medium"%string ->
            CompanyAnalysis.getRiskColor (Some (JString s))
            = "bg-green-100 text-green-800 border-green-200"%string).
  { intros s H1 H2. unfold CompanyAnalysis.getRiskColor.
    repeat (destruct s as [|[[] [] [] [] [] [] [] []] s];
            try reflexivity; try congruence). }
  destruct level as [[| | |s| |]|];
    try (repeat split; intros; try discriminate; try reflexivity;
         try (intros H; discriminate); fail).
  destruct (string_dec s "High") as [->|H1].
  { repeat split; intros; try discriminate; try reflexivity.
    destruct H as [H _]. congruence. }
  destruct (string_dec s "Medium") as [->|H2].
  { repeat split; intros; try discriminate; try reflexivity.
    destruct H as [_ H]. congruence. }
  rewrite (Hother s H1 H2).
  repeat split; intros; try discriminate; try congruence.
Qed.

Section Analysis.

Variable JSON_parse : string -> JsValue + string.
Variable completion_for : string -> Result (option string).

Lemma analyzeCompanyProducts_cases (completion : Result (option string)) :
  (exists members first rest,
      OpenAI.analyzeCompanyProducts JSON_parse completion = Return (JObject members)
      /\ lookup "products" members = Some (JArray (first :: rest)))
  \/ (exists reason,
        OpenAI.analyzeCompanyProducts JSON_parse completion
        = Throw (JsError ("Company analysis failed: " ++ reason)%string)).
Proof.
  unfold OpenAI.analyzeCompanyProducts.
  destruct completion as [[[|c response]|]|e];
    try (right; eexists; reflexivity).
  destruct (OpenAI.json_match (String c response)) as [jsonMatch|];
    [|right; eexists; reflexivity].
  destruct (JSON_parse jsonMatch) as [parsed|syntax_error];
    [|right; eexists; reflexivity].
  destruct parsed as [| | | | |members]; try (right; eexists; reflexivity).
  unfold OpenAI.no_products. simpl.
  destruct (lookup "products" members) as [[| | | |[|first rest]|]|] eqn:Hl;
    simpl;
    repeat match goal with
           | |- context [if ?b then _ else _] => destruct b
           end;
    try (right; eexists; reflexivity).
  left. now exists members, first, rest.
Qed.

Lemma website_without_white_space (name : string) (c : ascii) :
  JsString.is_white_space c = true ->
  occurs c ("https://www." ++ CompanyAnalysis.remove_white_space name ++ ".com")%string
  = false.
Proof.
  intros Hc. rewrite !occurs_append, (remove_white_space_none _ _ Hc).
  destruct c as [[] [] [] [] [] [] [] []]; try discriminate Hc; reflexivity.
Qed.

(** The analysis handler never changes the company name that was typed.  A
    name of nothing but white space is not analysed: nothing changes.
    Otherwise the analysis is asked for the trimmed name and analysing ends
    in one of two ways.  Either the analysis came back: the profile is
    replaced by one with the name as typed, a website address without any
    white space, built from the name in lower case, and the industry, products
    and risk level the analysis held, and no error is shown.  Or it failed:
    the profile stays as it was and the error shown starts with the prefix of
    the analysis. *)
Theorem handleAnalyze_outcomes (ui : CompanyAnalysis.State) :
  let after := CompanyAnalysis.handleAnalyze JSON_parse completion_for ui in
  let typed := CompanyAnalysis.companyName ui in
  let analysis :=
    OpenAI.analyzeCompanyProducts JSON_parse (completion_for (JsString.trim typed)) in
  CompanyAnalysis.companyName after = typed
  /\ (all_white typed = true -> after = ui)
  /\ (all_white typed = false ->
      CompanyAnalysis.isAnalyzing after = false
      /\ ((exists members first rest profile,
              analysis = Return (JObject members)
              /\ lookup "products" members = Some (JArray (first :: rest))
              /\ CompanyAnalysis.companyProfile after = Some profile
              /\ CompanyAnalysis.error after = None
              /\ CompanyAnalysis.name profile = typed
              /\ CompanyAnalysis.website profile
                 = ("https://www."
                    ++ CompanyAnalysis.remove_white_space
                         (SearchHistory.toLowerCase typed)
                    ++ ".com")%string
              /\ (forall c, JsString.is_white_space c = true ->
                            occurs c (CompanyAnalysis.website profile) = false)
              /\ CompanyAnalysis.industry profile = lookup "industry" members
              /\ CompanyAnalysis.products profile = lookup "products" members
              /\ CompanyAnalysis.riskLevel profile = lookup "riskLevel" members)
          \/ (exists reason,
                analysis = Throw (JsError ("Company analysis failed: " ++ reason)%string)
                /\ CompanyAnalysis.companyProfile after
                   = CompanyAnalysis.companyProfile ui
                /\ CompanyAnalysis.error after
                   = Some ("Company analysis failed: " ++ reason)%string))).
Proof.
  intros after typed analysis.
  unfold after, CompanyAnalysis.handleAnalyze. fold typed.
  pose proof (trim_empty typed) as Hblank.
  destruct (JsString.trim typed) as [|c trimmed] eqn:Htrim.
  - split; [reflexivity|]. split; [reflexivity|].
    intros H. rewrite (proj1 Hblank eq_refl) in H. discriminate.
  - cbn [CompanyAnalysis.companyName CompanyAnalysis.isAnalyzing
         CompanyAnalysis.companyProfile CompanyAnalysis.error].
    fold typed. rewrite Htrim. fold analysis.
    assert (Hwhite : all_white typed = true -> False).
    { intros H. apply Hblank in H. discriminate. }
    destruct (analyzeCompanyProducts_cases (completion_for (String c trimmed)))
      as [(members & first & rest & Ha & Hl) | (reason & Ha)];
      fold analysis in Ha; rewrite Ha;
      cbn [get_member message_or CompanyAnalysis.companyName
           CompanyAnalysis.isAnalyzing CompanyAnalysis.companyProfile
           CompanyAnalysis.error].
    + split; [reflexivity|]. split; [intros H; now apply Hwhite in H|].
      intros _. split; [reflexivity|].
      left. exists members, first, rest. eexists.
      split; [reflexivity|]. split; [exact Hl|]. split; [reflexivity|].
      cbn [CompanyAnalysis.name CompanyAnalysis.website CompanyAnalysis.industry
           CompanyAnalysis.products CompanyAnalysis.riskLevel].
      split; [reflexivity|]. split; [reflexivity|]. split; [reflexivity|].
      split; [|repeat split].
      intros ch Hch. now apply website_without_white_space.
    + split; [reflexivity|]. split; [intros H; now apply Hwhite in H|].
      intros _. split; [reflexivity|].
      right. exists reason. now repeat split.
Qed.

End Analysis.

(** A company whose analysis holds a risk level outside the three levels is
    shown in the colour of a low risk. *)
Example handleAnalyze_unknown_risk :
  let after :=
    CompanyAnalysis.handleAnalyze Json.parse
      (fun _ => Return (Some ("{" ++ Samples.portfolio_inside ++ "}")%string))
      (CompanyAnalysis.mkState " Acme  Corp " false None None) in
  after
  = CompanyAnalysis.mkState " Acme  Corp " false
      (Some (CompanyAnalysis.mkProfile " Acme  Corp " "https://www.acmecorp.com" None
               (Some (JArray [JObject []])) (Some (JString "Extreme"))))
      None
  /\ CompanyAnalysis.getRiskColor (Some (JString "Extreme"))
     = "bg-green-100 text-green-800 border-green-200"%string.
Proof. split; reflexivity. Qed.

(* ===================================================================== *)
(** ** The two retried operations, in full *)
(* ===================================================================== *)

(** The error the list/query operation throws carries the fetch-failure
    signature in its own prefix, whatever the store's message; the error of
    the save carries it only when the store's message does. *)
Lemma fetch_error_is_transient (reason : string) :
  transient (JsError ("Failed to fetch classifications: " ++ reason)%string) = true.
Proof. reflexivity. Qed.

Lemma save_error_is_transient (reason : string) :
  transient (JsError ("Failed to save classification: " ++ reason)%string)
  = JsString.includes "Failed to fetch" reason.
Proof. reflexivity. Qed.

Section Retried.

Variable supabase : Supabase.

(** The list/query operation asks again after every error of the store, a
    fetch failure or not: it returns the first page it is sent without an
    error, after as many waits as there were errors before, of 1000 and then
    1500 milliseconds; after three errors it throws the third, under the name
    of the operation.  A page without rows or without a count is the empty
    list, or the count zero. *)
Theorem getClassifications_retries_every_error
    (options : option Options) (w : World Session) :
  let query := list_query options in
  let answer i := many supabase (length (store w) + i) query in
  let sent k waits := mkWorld (store w ++ repeat query k) (timers w ++ waits) in
  let page data count :=
    Return (rows_or_empty data, match nonzero count with Some n => n | None => 0 end) in
  getClassifications supabase options w
  = match answer 0%nat with
    | mkResponse data None count => (page data count, sent 1%nat [])
    | mkResponse _ (Some _) _ =>
        match answer 1%nat with
        | mkResponse data None count => (page data count, sent 2%nat [1000%float])
        | mkResponse _ (Some _) _ =>
            match answer 2%nat with
            | mkResponse data None count =>
                (page data count, sent 3%nat [1000%float; 1500%float])
            | mkResponse _ (Some failure) _ =>
                (Throw (JsError ("Failed to fetch classifications: "
                                 ++ message failure)%string),
                 sent 3%nat [1000%float; 1500%float])
            end
        end
    end.
Proof.
  intros query answer sent page.
  unfold getClassifications. fold query.
  set (operation := bind _ _).
  assert (Hop : forall k ts,
            operation (mkWorld (store w ++ repeat query k) ts)
            = (match answer k with
               | mkResponse data None count => page data count
               | mkResponse _ (Some failure) _ =>
                   Throw (JsError ("Failed to fetch classifications: "
                                   ++ message failure)%string)
               end,
               mkWorld (store w ++ repeat query (S k)) ts)).
  { intros k ts. unfold operation, bind, await_many. rewrite send_run.
    cbn [store timers]. rewrite length_app, repeat_length. fold (answer k).
    replace (repeat query (S k)) with (repeat query k ++ [query])
      by (rewrite <- repeat_cons; reflexivity).
    rewrite app_assoc.
    now destruct (answer k) as [data [failure|] count]. }
  assert (Hstart : w = mkWorld (store w ++ repeat query 0) (timers w)).
  { simpl. rewrite app_nil_r. now destruct w. }
  rewrite Hstart at 1. unfold retries_default, delay_default.
  pose proof (Hop 0%nat (timers w)) as H0.
  destruct (answer 0%nat) as [data0 [failure0|] count0].
  - rewrite (retryOperation_retries _ _ _ _ _ _ H0 (fetch_error_is_transient _)).
    cbn [store timers].
    pose proof (Hop 1%nat (timers w ++ [1000%float])) as H1.
    destruct (answer 1%nat) as [data1 [failure1|] count1].
    + rewrite (retryOperation_retries _ _ _ _ _ _ H1 (fetch_error_is_transient _)).
      cbn [store timers].
      pose proof (Hop 2%nat ((timers w ++ [1000%float]) ++ [(1000 * 1.5)%float])) as H2.
      rewrite <- app_assoc in H2 |- *.
      destruct (answer 2%nat) as [data2 [failure2|] count2].
      * now rewrite (retryOperation_exhausted _ _ _ _ _ H2).
      * now rewrite (retryOperation_returns _ _ _ _ _ _ H2).
    + now rewrite (retryOperation_returns _ _ _ _ _ _ H1).
  - rewrite (retryOperation_returns _ _ _ _ _ _ H0).
    unfold sent. now rewrite app_nil_r.
Qed.

(** The save asks again only after a fetch failure: an error of the store
    whose message does not hold the fetch-failure signature is thrown at
    once, under the name of the operation; after fetch failures the save
    waits 1000 and then 1500 milliseconds, and after the third error it
    throws it. *)
Theorem saveClassification_retries_fetch_failures
    (classification : ClassificationInsert) (w : World Session) :
  let query := [From_ "classifications"; Insert [classification];
                Select "*" false; Single] in
  let answer i := single supabase (length (store w) + i) query in
  let sent k waits := mkWorld (store w ++ repeat query k) (timers w ++ waits) in
  let thrown failure :=
    Throw (JsError ("Failed to save classification: " ++ message failure)%string) in
  let fetch_failure failure := JsString.includes "Failed to fetch" (message failure) in
  saveClassification supabase classification w
  = match answer 0%nat with
    | mkResponse data None _ => (Return data, sent 1%nat [])
    | mkResponse _ (Some failure) _ =>
        if negb (fetch_failure failure) then (thrown failure, sent 1%nat [])
        else
          match answer 1%nat with
          | mkResponse data None _ => (Return data, sent 2%nat [1000%float])
          | mkResponse _ (Some failure) _ =>
              if negb (fetch_failure failure)
              then (thrown failure, sent 2%nat [1000%float])
              else
                match answer 2%nat with
                | mkResponse data None _ =>
                    (Return data, sent 3%nat [1000%float; 1500%float])
                | mkResponse _ (Some failure) _ =>
                    (thrown failure, sent 3%nat [1000%float; 1500%float])
                end
          end
    end.
Proof.
  intros query answer sent thrown fetch_failure.
  unfold saveClassification. fold query.
  set (operation := bind _ _).
  assert (Hop : forall k ts,
            operation (mkWorld (store w ++ repeat query k) ts)
            = (match answer k with
               | mkResponse data None _ => Return data
               | mkResponse _ (Some failure) _ => thrown failure
               end,
               mkWorld (store w ++ repeat query (S k)) ts)).
  { intros k ts. unfold operation, bind, await_single. rewrite send_run.
    cbn [store timers]. rewrite length_app, repeat_length. fold (answer k).
    replace (repeat query (S k)) with (repeat query k ++ [query])
      by (rewrite <- repeat_cons; reflexivity).
    rewrite app_assoc.
    now destruct (answer k) as [data [failure|] count]. }
  assert (Hstart : w = mkWorld (store w ++ repeat query 0) (timers w)).
  { simpl. rewrite app_nil_r. now destruct w. }
  rewrite Hstart at 1. unfold retries_default, delay_default.
  pose proof (Hop 0%nat (timers w)) as H0.
  destruct (answer 0%nat) as [data0 [failure0|] count0].
  - unfold fetch_failure at 1.
    destruct (JsString.includes "Failed to fetch" (message failure0)) eqn:T0; cbn [negb].
    + rewrite (retryOperation_retries _ _ _ _ _ _ H0);
        [|now rewrite save_error_is_transient].
      cbn [store timers].
      pose proof (Hop 1%nat (timers w ++ [1000%float])) as H1.
      destruct (answer 1%nat) as [data1 [failure1|] count1].
      * unfold fetch_failure at 1.
        destruct (JsString.includes "Failed to fetch" (message failure1)) eqn:T1;
          cbn [negb].
        -- rewrite (retryOperation_retries _ _ _ _ _ _ H1);
             [|now rewrite save_error_is_transient].
           cbn [store timers].
           pose proof (Hop 2%nat ((timers w ++ [1000%float]) ++ [(1000 * 1.5)%float]))
             as H2.
           rewrite <- app_assoc in H2 |- *.
           destruct (answer 2%nat) as [data2 [failure2|] count2].
           ++ now rewrite (retryOperation_exhausted _ _ _ _ _ H2).
           ++ now rewrite (retryOperation_returns _ _ _ _ _ _ H2).
        -- rewrite (retryOperation_gives_up _ _ _ _ _ _ H1);
             [reflexivity|now rewrite save_error_is_transient].
      * now rewrite (retryOperation_returns _ _ _ _ _ _ H1).
    + rewrite (retryOperation_gives_up _ _ _ _ _ _ H0);
        [|now rewrite save_error_is_transient].
      unfold sent. now rewrite app_nil_r.
  - rewrite (retryOperation_returns _ _ _ _ _ _ H0).
    unfold sent. now rewrite app_nil_r.
Qed.

End Retried.

(** Against a store that refuses every request for want of permission, the
    list/query operation asks three times and waits twice before it throws;
    the save asks once. *)
Example refused_requests :
  getClassifications Samples.refusing None Samples.fresh
  = (Throw (JsError "Failed to fetch classifications: permission denied for table classifications"),
     mkWorld (repeat [From_ "classifications"; Select "*" true;
                      Order "created_at" false] 3)
             [1000%float; 1500%float])
  /\ snd (saveClassification Samples.refusing
            (mkInsert "widget" None None None None None None None None) Samples.fresh)
     = mkWorld [[From_ "classifications";
                 Insert [mkInsert "widget" None None None None None None None None];
                 Select "*" false; Single]] [].
Proof. split; reflexivity. Qed.
